(** * Subjects App: the access-scoped Subject service and its audit log

    A shallow embedding of [SubjectsService] (backend/src/subjects/subjects.service.ts
    as listed in the technical guide): [create], [findAll], [findOne], [update]
    and [getAuditLogs], over an explicit model of the tables the TypeORM
    entities declare.  Every service method is a state transformer on [Db]
    that returns either a value or the exception it throws; a method that
    throws after a write keeps the write, because the listings call the
    repositories directly and open no transaction.

    The identifiers of Subjects are values of a PostgreSQL [uuid] column.
    [SubjectsService] compares identifiers as the canonical texts that the
    column holds, which is what an identifier read from a table is;
    [UuidTyped] gives [findOne] and [getAuditLogs] with their parameter read
    as the column reads it, for the properties about identifiers that
    arrive from outside. *)

From Stdlib Require Import String Ascii List Bool Arith PeanoNat Lia.
From Stdlib Require Import Permutation Sorted.
Import ListNotations.
Open Scope list_scope.
Open Scope string_scope.

Set Implicit Arguments.
Set Warnings "-register-all".

(** ** JavaScript values of the diff payload

    [diff: Record<string, any>] holds strings, nested objects and, where the
    listing reads an absent DTO property, [undefined].  An object is an
    association list in insertion order, as [Object.keys] sees it. *)

Inductive Json : Type :=
| JUndefined
| JNull
| JStr (s : string)
| JObj (fields : list (string * Json)).

Module Js.

(** [o\[k\]] *)
Fixpoint getField (k : string) (fields : list (string * Json)) : option Json :=
  match fields with
  | [] => None
  | (k', v) :: rest => if String.eqb k' k then Some v else getField k rest
  end.

(** [o\[k\] = v]: an existing key keeps its place, a new key goes last. *)
Fixpoint setField (k : string) (v : Json) (fields : list (string * Json))
  : list (string * Json) :=
  match fields with
  | [] => [(k, v)]
  | (k', v') :: rest =>
      if String.eqb k' k then (k, v) :: rest else (k', v') :: setField k v rest
  end.

(** [Object.keys(o)] *)
Definition keys (fields : list (string * Json)) : list string := map fst fields.

(** What reaches a [jsonb] column: serialisation drops every property whose
    value is [undefined]. *)
Definition isUndefined (j : Json) : bool :=
  match j with
  | JUndefined => true
  | _ => false
  end.

Fixpoint serialize (j : Json) : Json :=
  match j with
  | JObj fields =>
      JObj (filter (fun kv : string * Json => negb (isUndefined (snd kv)))
              (map (fun kv : string * Json => let (k, v) := kv in (k, serialize v))
                   fields))
  | other => other
  end.

(** [x || 'fallback'] on a string: the empty string is falsy. *)
Definition orElse (x : option string) (fallback : string) : string :=
  match x with
  | Some "" => fallback
  | Some s => s
  | None => fallback
  end.

(** Truthiness of an optional string property. *)
Definition truthy (x : option string) : bool :=
  match x with
  | Some "" => false
  | Some _ => true
  | None => false
  end.

(** [x !== s] where [x] may be [undefined] and [s] is a string. *)
Definition strictNeq (x : option string) (s : string) : bool :=
  match x with
  | Some v => negb (String.eqb v s)
  | None => true
  end.

(** A possibly absent string as a value. *)
Definition ofOption (x : option string) : Json :=
  match x with
  | Some v => JStr v
  | None => JUndefined
  end.

(** [array.includes(x)] *)
Definition includes (xs : list string) (x : string) : bool :=
  existsb (String.eqb x) xs.

(** [s.split('T')\[0\]] *)
Fixpoint splitT0 (s : string) : string :=
  match s with
  | EmptyString => EmptyString
  | String c rest => if Ascii.eqb c "T" then EmptyString else String c (splitT0 rest)
  end.

End Js.

(** ** Entities *)

(** [@Entity('center')]: identifier and name. *)
Record Center : Type := mkCenter {
  center_id : string;
  center_name : string
}.

(** [@Entity('user_center')]: the many-to-many join that defines access. *)
Record UserCenter : Type := mkUserCenter {
  uc_userId : string;
  uc_centerId : string
}.

(** [@Entity('subject')].  [birthDate] is a [date] column: it keeps the
    calendar date [YYYY-MM-DD] and no time of day. *)
Record Subject : Type := mkSubject {
  id : string;
  number : string;
  name : string;
  birthDate : string;
  centerId : string
}.

(** [@Entity('audit_log')]; [subjectId] and [userId] are nullable. *)
Record AuditLog : Type := mkAuditLog {
  log_id : string;
  log_subjectId : option string;
  log_userId : option string;
  action : string;
  diff : Json;
  timestamp : nat
}.

(** [CreateSubjectDto] *)
Record CreateSubjectDto : Type := mkCreateDto {
  c_number : string;
  c_name : string;
  c_birthDate : string;
  c_centerId : string
}.

(** [UpdateSubjectDto extends PartialType(CreateSubjectDto)]: every property
    is optional; [None] is an absent property. *)
Record UpdateSubjectDto : Type := mkUpdateDto {
  u_number : option string;
  u_name : option string;
  u_birthDate : option string;
  u_centerId : option string
}.

(** ** Exceptions and results *)

(** The three HTTP exceptions of NestJS, the error of a query the storage
    refuses, and the error of reading a variable that was never declared. *)
Inductive Exception : Type :=
| NotFoundException (message : string)
| ForbiddenException (message : string)
| ConflictException (message : string)
| QueryFailedError
| ReferenceError (message : string).

Inductive result (A : Type) : Type :=
| Ok (a : A)
| Err (e : Exception).

Arguments Ok {A} a.
Arguments Err {A} e.

(** ** The database

    [idSeed] drives [@PrimaryGeneratedColumn('uuid')], [clock] drives
    [@CreateDateColumn].  [faults] is the storage's answer to the coming
    writes, in order: [true] means the write is refused for a reason the
    tables do not show (connection loss, a constraint that is not modelled);
    an exhausted list refuses nothing. *)
Record Db : Type := mkDb {
  users : list string;
  userCenters : list UserCenter;
  centers : list Center;
  subjects : list Subject;
  auditLogs : list AuditLog;
  idSeed : nat;
  clock : nat;
  faults : list bool
}.

Definition setSubjects (l : list Subject) (db : Db) : Db :=
  mkDb (users db) (userCenters db) (centers db) l (auditLogs db)
       (idSeed db) (clock db) (faults db).

Definition setCenters (l : list Center) (db : Db) : Db :=
  mkDb (users db) (userCenters db) l (subjects db) (auditLogs db)
       (idSeed db) (clock db) (faults db).

Definition setAuditLogs (l : list AuditLog) (db : Db) : Db :=
  mkDb (users db) (userCenters db) (centers db) (subjects db) l
       (idSeed db) (clock db) (faults db).

Definition setFaults (l : list bool) (db : Db) : Db :=
  mkDb (users db) (userCenters db) (centers db) (subjects db) (auditLogs db)
       (idSeed db) (clock db) l.

Definition bumpSeed (db : Db) : Db :=
  mkDb (users db) (userCenters db) (centers db) (subjects db) (auditLogs db)
       (S (idSeed db)) (clock db) (faults db).

Definition tick (db : Db) : Db :=
  mkDb (users db) (userCenters db) (centers db) (subjects db) (auditLogs db)
       (idSeed db) (S (clock db)) (faults db).

(** ** The monad of service methods: state, and an exception that keeps it *)

Definition M (A : Type) : Type := Db -> result A * Db.

Definition ret {A : Type} (a : A) : M A := fun db => (Ok a, db).

Definition throw {A : Type} (e : Exception) : M A := fun db => (Err e, db).

Definition bind {A B : Type} (m : M A) (k : A -> M B) : M B :=
  fun db =>
    match m db with
    | (Ok a, db') => k a db'
    | (Err e, db') => (Err e, db')
    end.

Declare Scope svc_scope.
Delimit Scope svc_scope with svc.
Notation "x <- m ;; k" := (bind m (fun x => k))
  (at level 61, m at next level, right associativity) : svc_scope.
Notation "m ;;; k" := (bind m (fun _ => k))
  (at level 61, right associativity) : svc_scope.
Open Scope svc_scope.

(** A read of the current tables. *)
Definition query {A : Type} (f : Db -> A) : M A := fun db => (Ok (f db), db).

(** A write: the storage first answers from [faults]. *)
Definition write {A : Type} (w : M A) : M A :=
  fun db =>
    match faults db with
    | true :: rest => (Err QueryFailedError, setFaults rest db)
    | false :: rest => w (setFaults rest db)
    | [] => w db
    end.

(** ** Generated identifiers and the UUID test *)

Definition hexDigit (d : nat) : ascii :=
  match d with
  | 0 => "0" | 1 => "1" | 2 => "2" | 3 => "3" | 4 => "4" | 5 => "5"
  | 6 => "6" | 7 => "7" | 8 => "8" | 9 => "9" | 10 => "a" | 11 => "b"
  | 12 => "c" | 13 => "d" | 14 => "e" | _ => "f"
  end%char.

Fixpoint hexOfNat (width n : nat) (acc : string) : string :=
  match width with
  | 0 => acc
  | S w => hexOfNat w (n / 16) (String (hexDigit (n mod 16)) acc)
  end.

(** The identifier the storage generates from seed [n], in the 8-4-4-4-12
    layout of [@PrimaryGeneratedColumn('uuid')]. *)
Definition uuidOfNat (n : nat) : string :=
  let h := hexOfNat 32 n "" in
  substring 0 8 h ++ "-" ++ substring 8 4 h ++ "-" ++ substring 12 4 h ++ "-"
    ++ substring 16 4 h ++ "-" ++ substring 20 12 h.

(** [\[0-9a-f\]] under the [i] flag. *)
Definition isHex (c : ascii) : bool :=
  let n := nat_of_ascii c in
  (Nat.leb 48 n && Nat.leb n 57) || (Nat.leb 97 n && Nat.leb n 102)
  || (Nat.leb 65 n && Nat.leb n 70).

(** [\[0-9a-f\]{k}]: the rest of the input after exactly [k] hex digits. *)
Fixpoint hexRun (k : nat) (s : string) : option string :=
  match k with
  | 0 => Some s
  | S k' =>
      match s with
      | String c rest => if isHex c then hexRun k' rest else None
      | EmptyString => None
      end
  end.

Definition dash (s : string) : option string :=
  match s with
  | String c rest => if Ascii.eqb c "-" then Some rest else None
  | EmptyString => None
  end.

Definition andThen {A B : Type} (o : option A) (f : A -> option B) : option B :=
  match o with
  | Some a => f a
  | None => None
  end.

(** [/^\[0-9a-f\]{8}-\[0-9a-f\]{4}-\[0-9a-f\]{4}-\[0-9a-f\]{4}-\[0-9a-f\]{12}$/i.test(s)] *)
Definition isUUID (s : string) : bool :=
  match
    andThen (hexRun 8 s) (fun r1 =>
    andThen (dash r1) (fun r2 =>
    andThen (hexRun 4 r2) (fun r3 =>
    andThen (dash r3) (fun r4 =>
    andThen (hexRun 4 r4) (fun r5 =>
    andThen (dash r5) (fun r6 =>
    andThen (hexRun 4 r6) (fun r7 =>
    andThen (dash r7) (fun r8 =>
    hexRun 12 r8))))))))
  with
  | Some EmptyString => true
  | _ => false
  end.

(** ** Ordering a query result *)

Section OrderBy.
Variable A : Type.
Variable leb : A -> A -> bool.

Fixpoint insertBy (x : A) (l : list A) : list A :=
  match l with
  | [] => [x]
  | y :: rest => if leb x y then x :: y :: rest else y :: insertBy x rest
  end.

Fixpoint orderBy (l : list A) : list A :=
  match l with
  | [] => []
  | x :: rest => insertBy x (orderBy rest)
  end.
End OrderBy.

(** ** Dates

    A [date] column keeps the calendar part of the text it is given.  For
    [create], which hands the column [new Date(text)], this is the date
    stored by a server whose zone is UTC. *)
Definition dateColumn (value : string) : string := Js.splitT0 value.

(** ** Repositories *)

Module SubjectsRepository.

(** [findOne({ where: { id } })] for an identifier in canonical text, as
    every identifier read from a table is; [UuidTyped.findOneById] below
    reads any text as the column does. *)
Definition findOneById (sid : string) : M (option Subject) :=
  query (fun db => find (fun s => String.eqb (id s) sid) (subjects db)).

(** [findOne({ where: { number } })] *)
Definition findOneByNumber (num : string) : M (option Subject) :=
  query (fun db => find (fun s => String.eqb (number s) num) (subjects db)).

(** [find({ where: centerIds.map((centerId) => ({ centerId })),
    order: { number: 'ASC' } })]: the rows of any listed center, by [number]
    in the byte-wise lexicographic order of strings. *)
Definition findByCenters (centerIds : list string) : M (list Subject) :=
  query (fun db =>
    orderBy (fun a b => String.leb (number a) (number b))
      (filter (fun s => Js.includes centerIds (centerId s)) (subjects db))).

(** [save] of an entity that has no identifier yet: an INSERT with a
    generated identifier, refused when the primary key or the
    [unique: true] column [number] is already taken. *)
Definition saveNew (num nm bd cid : string) : M Subject :=
  write (fun db =>
    let s := mkSubject (uuidOfNat (idSeed db)) num nm bd cid in
    if existsb (fun s' => String.eqb (id s') (id s)) (subjects db)
       || existsb (fun s' => String.eqb (number s') num) (subjects db)
    then (Err QueryFailedError, bumpSeed db)
    else (Ok s, setSubjects (subjects db ++ [s])%list (bumpSeed db))).

(** The table after an UPDATE of the row that has the identifier of [s]. *)
Definition replaceRow (s : Subject) (rows : list Subject) : list Subject :=
  map (fun s' => if String.eqb (id s') (id s) then s else s') rows.

(** [save] of a loaded entity: an UPDATE of the row with that identifier
    (an INSERT when there is none), refused when another row holds the
    same [number]. *)
Definition save (s : Subject) : M Subject :=
  write (fun db =>
    if existsb (fun s' => negb (String.eqb (id s') (id s))
                          && String.eqb (number s') (number s)) (subjects db)
    then (Err QueryFailedError, db)
    else if existsb (fun s' => String.eqb (id s') (id s)) (subjects db)
    then (Ok s, setSubjects (replaceRow s (subjects db)) db)
    else (Ok s, setSubjects (subjects db ++ [s])%list db)).

(** The [center] object that [relations: \['center'\]] joins to a loaded
    Subject: the Center its [centerId] names, if the table has one. *)
Definition joinedCenter (s : Subject) : M (option Center) :=
  query (fun db =>
    find (fun c => String.eqb (center_id c) (centerId s)) (centers db)).

(** The row [save] writes for an entity loaded with its [center].  The
    join column [center_id] is a column of the [centerId] property and of
    the [center] relation at once, and TypeORM takes its value from the
    relation object when the entity has one: a [centerId] that
    [Object.assign] has copied over it reaches the row only when no center
    was joined. *)
Definition rowOf (center : option Center) (entity : Subject) : Subject :=
  match center with
  | Some c => mkSubject (id entity) (number entity) (name entity)
                        (birthDate entity) (center_id c)
  | None => entity
  end.

End SubjectsRepository.

(** ** Collaborating services *)

Module UsersService.

(** Modelled from the spec: [usersService.findUserCenters] is called by every
    listing and defined by none.  It returns the centers of the user's
    memberships, none when the user has no membership, and a NotFound
    failure, not an empty scope, for a user that does not exist. *)
Definition findUserCenters (userId : string) : M (list string) :=
  fun db =>
    if Js.includes (users db) userId
    then (Ok (map uc_centerId
                  (filter (fun uc => String.eqb (uc_userId uc) userId)
                          (userCenters db))), db)
    else (Err (NotFoundException "User not found"), db).

End UsersService.

Module CentersService.

(** Modelled from the spec: [centersService.findOne(centerId, userId)] is
    the center lookup collaborator, which yields the Center or nothing. *)
Definition findOne (cid userId : string) : M (option Center) :=
  query (fun db => find (fun c => String.eqb (center_id c) cid) (centers db)).

End CentersService.

(** ** SubjectsService *)

Module SubjectsService.

(** Modelled from the spec: [createAuditLog(userId, subjectId, action, diff)]
    is called by [create] and [update] and defined by no listing.  It
    appends one AuditLogEntry with a generated identifier, the subject and
    user references, the action tag, the diff payload and the creation
    time. *)
Definition createAuditLog (userId subjectId act : string) (d : Json) : M unit :=
  write (fun db =>
    let entry := mkAuditLog (uuidOfNat (idSeed db)) (Some subjectId) (Some userId)
                            act (Js.serialize d) (clock db) in
    if existsb (fun e => String.eqb (log_id e) (log_id entry)) (auditLogs db)
    then (Err QueryFailedError, bumpSeed db)
    else (Ok tt, setAuditLogs (auditLogs db ++ [entry])%list (tick (bumpSeed db)))).

(** Modelled from the spec: the diff argument of the CREATE entry, elided
    as [{...}] in both listings of [create], is the full initial field
    set. *)
Definition createDiff (s : Subject) : Json :=
  JObj [("number", JStr (number s)); ("name", JStr (name s));
        ("birthDate", JStr (birthDate s)); ("centerId", JStr (centerId s))].

(** [create], Section 1.3 (Service Method Data Flow). *)
Definition create (createSubjectDto : CreateSubjectDto) (userId : string)
  : M Subject :=
  (* 1. Access control check *)
  userCenterIds <- UsersService.findUserCenters userId ;;
  if negb (Js.includes userCenterIds (c_centerId createSubjectDto))
  then throw (ForbiddenException "Access denied")
  else
    (* 2. Data validation (duplicate check): the result is bound and not read *)
    existingSubject <-
      SubjectsRepository.findOneByNumber (c_number createSubjectDto) ;;
    (* 3. Entity creation, 4. Database save *)
    savedSubject <-
      SubjectsRepository.saveNew (c_number createSubjectDto)
        (c_name createSubjectDto)
        (dateColumn (c_birthDate createSubjectDto))  (* String -> Date *)
        (c_centerId createSubjectDto) ;;
    (* 5. Audit log creation *)
    createAuditLog userId (id savedSubject) "CREATE" (createDiff savedSubject) ;;;
    ret savedSubject.


(** [findAll], Section 4.3. *)
Definition findAll (userId : string) : M (list Subject) :=
  userCenterIds <- UsersService.findUserCenters userId ;;
  if Nat.eqb (List.length userCenterIds) 0
  then ret []
  else SubjectsRepository.findByCenters userCenterIds.

(** [findOne], Section 4.3. *)
Definition findOne (sid userId : string) : M Subject :=
  found <- SubjectsRepository.findOneById sid ;;
  match found with
  | None => throw (NotFoundException ("Subject with ID " ++ sid ++ " not found"))
  | Some subject =>
      userCenterIds <- UsersService.findUserCenters userId ;;
      if negb (Js.includes userCenterIds (centerId subject))
      then throw (ForbiddenException "Access denied to this subject")
      else ret subject
  end.

(** [Object.assign(subject, updateSubjectDto)]: only the properties the
    DTO has are copied.  The string given for [birthDate] is bound for a
    [date] column. *)
Definition assign (subject : Subject) (dto : UpdateSubjectDto) : Subject :=
  mkSubject (id subject)
    (match u_number dto with Some v => v | None => number subject end)
    (match u_name dto with Some v => v | None => name subject end)
    (match u_birthDate dto with
     | Some v => dateColumn v
     | None => birthDate subject
     end)
    (match u_centerId dto with Some v => v | None => centerId subject end).

(** A [{ old, new }] pair. *)
Definition pair (o n : Json) : Json := JObj [("old", o); ("new", n)].

(** [{ id, name }] of a center, with the name the lookup gave or
    ['Unknown']. *)
Definition centerRef (cid : string) (c : option Center) : Json :=
  JObj [("id", JStr cid);
        ("name", JStr (Js.orElse (option_map center_name c) "Unknown"))].

(** Step 3 of [update] up to the birth date: the entries for [number] and
    [name]. *)
Definition scalarDiff (oldData : Subject) (dto : UpdateSubjectDto)
  : list (string * Json) :=
  let diff := [] in
  let diff :=
    if Js.strictNeq (u_number dto) (number oldData)
    then Js.setField "number"
           (pair (JStr (number oldData)) (Js.ofOption (u_number dto))) diff
    else diff in
  let diff :=
    if Js.strictNeq (u_name dto) (name oldData)
    then Js.setField "name"
           (pair (JStr (name oldData)) (Js.ofOption (u_name dto))) diff
    else diff in
  diff.

(** Step 3 of [update] at the birth date.  The block reads [oldBirthDate],
    a name that no listing declares ([oldData.birthDate] is the property
    that exists): evaluating it throws a ReferenceError, so the block is
    left by that error whenever it is entered and never adds an entry. *)
Definition birthDateDiff (dto : UpdateSubjectDto) (diff : list (string * Json))
  : M (list (string * Json)) :=
  if Js.truthy (u_birthDate dto)
  then throw (ReferenceError "oldBirthDate is not defined")
  else ret diff.

(** Step 3 of [update] at the center: both centers are looked up and the
    entry is the nested pair. *)
Definition centerDiff (oldData : Subject) (dto : UpdateSubjectDto)
           (userId : string) (diff : list (string * Json))
  : M (list (string * Json)) :=
  match u_centerId dto with
  | Some newCenterId =>
      if Js.truthy (Some newCenterId)
         && Js.strictNeq (Some newCenterId) (centerId oldData)
      then
        oldCenter <- CentersService.findOne (centerId oldData) userId ;;
        newCenter <- CentersService.findOne newCenterId userId ;;
        ret (Js.setField "center"
               (pair (centerRef (centerId oldData) oldCenter)
                     (centerRef newCenterId newCenter)) diff)
      else ret diff
  | None => ret diff
  end.

(** [update], Section 3.3.  [findOne] loads the Subject with its [center];
    [save] returns the entity it was given, which carries what
    [Object.assign] copied. *)
Definition update (sid : string) (updateSubjectDto : UpdateSubjectDto)
           (userId : string) : M Subject :=
  (* 1. Load existing subject *)
  subject <- findOne sid userId ;;
  center <- SubjectsRepository.joinedCenter subject ;;
  let oldData := subject in
  (* 2. Apply updates *)
  let subject := assign subject updateSubjectDto in
  SubjectsRepository.save (SubjectsRepository.rowOf center subject) ;;;
  let updatedSubject := subject in
  (* 3. Calculate diff (only changed fields) *)
  diff <- birthDateDiff updateSubjectDto (scalarDiff oldData updateSubjectDto) ;;
  diff <- centerDiff oldData updateSubjectDto userId diff ;;
  (* 4. Save audit log with diff *)
  (if Nat.ltb 0 (List.length (Js.keys diff))
   then createAuditLog userId sid "UPDATE"
          (JObj (Js.setField "subjectId" (JStr sid) diff))
   else ret tt) ;;;
  ret updatedSubject.

(** *** Audit log lookup, Section 4.4 *)

Section GetAuditLogs.

(** PostgreSQL's text of a composite [jsonb] value, which [->>] yields
    for a property that holds an object; the storage decides it. *)
Variable compositeText : Json -> string.

(** The block the listing elides as [// ... access control logic ...]:
    it sees the caller's centers, the resolved identifier and the entries
    found, and may throw. *)
Variable accessControl : list string -> option string -> list AuditLog -> M unit.

(** [j -> 'k'] *)
Definition arrow (j : option Json) (k : string) : option Json :=
  match j with
  | Some (JObj fields) => Js.getField k fields
  | _ => None
  end.

(** The text of a [jsonb] value, SQL NULL for JSON null. *)
Definition asText (j : option Json) : option string :=
  match j with
  | Some (JStr s) => Some s
  | Some (JObj fields) => Some (compositeText (JObj fields))
  | _ => None
  end.

(** [j ->> 'k'] *)
Definition arrowText (j : option Json) (k : string) : option string :=
  asText (arrow j k).

(** [column = :param]; NULL equals nothing. *)
Definition sqlEq (column : option string) (param : string) : bool :=
  match column with
  | Some v => String.eqb v param
  | None => false
  end.

(** [diff->>'number' = :number OR diff->'number'->>'new' = :number] *)
Definition mentionsNumber (num : string) (e : AuditLog) : bool :=
  sqlEq (arrowText (Some (diff e)) "number") num
  || sqlEq (arrowText (arrow (Some (diff e)) "number") "new") num.

(** [subject_id = :subjectId OR diff->>'subjectId' = :subjectId::text] for
    an identifier in canonical text; [UuidTyped.references] below compares
    any text as the column does. *)
Definition references (subjectId : string) (e : AuditLog) : bool :=
  sqlEq (log_subjectId e) subjectId
  || sqlEq (arrowText (Some (diff e)) "subjectId") subjectId.

(** The first query: [.orderBy('audit_log.timestamp', 'ASC').getOne()]. *)
Definition anyLogWithNumber (num : string) : M (option AuditLog) :=
  query (fun db =>
    hd_error (orderBy (fun a b => Nat.leb (timestamp a) (timestamp b))
                      (filter (mentionsNumber num) (auditLogs db)))).

(** The second query: [.orderBy('audit_log.timestamp', 'DESC').getMany()]. *)
Definition logsOfSubject (subjectId : string) : M (list AuditLog) :=
  query (fun db =>
    orderBy (fun a b => Nat.leb (timestamp b) (timestamp a))
            (filter (references subjectId) (auditLogs db))).

(** The value of [subjectId] when the listing reaches [// Query audit logs]. *)
Definition resolveSubjectId (subjectIdOrNumber : string) : M (option string) :=
  if isUUID subjectIdOrNumber
  then ret (Some subjectIdOrNumber)
  else
    (* Try to find subject by number *)
    subject <- SubjectsRepository.findOneByNumber subjectIdOrNumber ;;
    match subject with
    | Some s => ret (Some (id s))
    | None =>
        (* Subject deleted - find in audit logs *)
        anyLog <- anyLogWithNumber subjectIdOrNumber ;;
        match anyLog with
        | Some e =>
            if Js.truthy (log_subjectId e) then ret (log_subjectId e)
            else ret None
        | None => ret None
        end
    end.

(** [getAuditLogs] *)
Definition getAuditLogs (subjectIdOrNumber userId : string) : M (list AuditLog) :=
  subjectId <- resolveSubjectId subjectIdOrNumber ;;
  (* Query audit logs *)
  auditLogs <-
    match subjectId with
    | Some sid => if Js.truthy (Some sid) then logsOfSubject sid else ret []
    | None => ret []
    end ;;
  (* Verify access control *)
  userCenterIds <- UsersService.findUserCenters userId ;;
  accessControl userCenterIds subjectId auditLogs ;;;
  ret auditLogs.

End GetAuditLogs.

(** Modelled from the spec: the access-control block that [getAuditLogs]
    elides.  When the resolved subject's center, the live one or else a
    historical one, is not in the caller's scope the call fails with
    Authorization.  The spec does not say how a deleted subject's center
    is recovered from its history; [historicalCenter] stands for that. *)
Definition subjectCenter (historicalCenter : list AuditLog -> option string)
           (sid : string) (logs : list AuditLog) : M (option string) :=
  live <- SubjectsRepository.findOneById sid ;;
  match live with
  | Some s => ret (Some (centerId s))
  | None => ret (historicalCenter logs)
  end.

Definition scopedAccessControl (historicalCenter : list AuditLog -> option string)
           (userCenterIds : list string) (subjectId : option string)
           (logs : list AuditLog) : M unit :=
  match subjectId with
  | None => ret tt
  | Some sid =>
      center <- subjectCenter historicalCenter sid logs ;;
      match center with
      | Some c =>
          if negb (Js.includes userCenterIds c)
          then throw (ForbiddenException "Access denied to this subject")
          else ret tt
      | None => ret tt
      end
  end.

End SubjectsService.

(** ** The uuid columns

    [@PrimaryGeneratedColumn('uuid')] makes [subject.id] a PostgreSQL
    [uuid] column, and [audit_log.subject_id] references it.  A parameter
    that a query compares with such a column is read as a uuid first: the
    query fails when the text does not spell one, and the comparison is
    between the values, so that the case of the digits, braces around the
    text and the hyphens at its group boundaries play no part.  The column
    reads back as the canonical text, lower-case 8-4-4-4-12, which is what
    the [id] of a row and the [subjectId] of an entry hold. *)

Module Uuid.

Definition lowerHex (c : ascii) : ascii :=
  let n := nat_of_ascii c in
  if Nat.leb 65 n && Nat.leb n 70 then ascii_of_nat (n + 32) else c.

(** Two bytes of the value: four hexadecimal digits. *)
Definition group (s : string) : option (string * string) :=
  match s with
  | String a (String b (String c (String d rest))) =>
      if isHex a && isHex b && isHex c && isHex d
      then Some (String (lowerHex a) (String (lowerHex b)
                   (String (lowerHex c) (String (lowerHex d) ""))), rest)
      else None
  | _ => None
  end.

(** A hyphen may follow every second byte but the last. *)
Definition skipDash (s : string) : string :=
  match s with
  | String c rest => if Ascii.eqb c "-" then rest else s
  | EmptyString => s
  end.

Fixpoint moreGroups (n : nat) (s : string) : option (list string * string) :=
  match n with
  | 0 => Some ([], s)
  | S n' =>
      match group (skipDash s) with
      | Some (g, rest) =>
          match moreGroups n' rest with
          | Some (gs, tail) => Some (g :: gs, tail)
          | None => None
          end
      | None => None
      end
  end.

(** The uuid input routine of the storage: sixteen bytes as hexadecimal
    digits, in braces or not, with or without a hyphen after any group of
    four digits.  The result is the canonical text of the value; [None] is
    the error [invalid input syntax for type uuid]. *)
Definition uuid_in (s : string) : option string :=
  let (braces, body) :=
    match s with
    | String c rest => if Ascii.eqb c "{" then (true, rest) else (false, s)
    | EmptyString => (false, s)
    end in
  match group body with
  | Some (g0, rest) =>
      match moreGroups 7 rest with
      | Some ([g1; g2; g3; g4; g5; g6; g7], tail) =>
          if String.eqb tail (if braces then "}" else "")
          then Some (g0 ++ g1 ++ "-" ++ g2 ++ "-" ++ g3 ++ "-" ++ g4 ++ "-"
                        ++ g5 ++ g6 ++ g7)
          else None
      | _ => None
      end
  | None => None
  end.

End Uuid.

(** The two methods of [SubjectsService] whose parameter is compared with
    a uuid column, with that comparison as the storage makes it.
    [SubjectsService.findOne] and [SubjectsService.getAuditLogs] above
    compare the parameter as the text it is; on a canonical identifier the
    two readings agree. *)
Module UuidTyped.

(** [findOne({ where: { id }, relations: \['center'\] })] *)
Definition findOneById (sid : string) : M (option Subject) :=
  match Uuid.uuid_in sid with
  | Some value =>
      query (fun db => find (fun s => String.eqb (id s) value) (subjects db))
  | None => throw QueryFailedError
  end.

(** [findOne], Section 4.3. *)
Definition findOne (sid userId : string) : M Subject :=
  found <- findOneById sid ;;
  match found with
  | None => throw (NotFoundException ("Subject with ID " ++ sid ++ " not found"))
  | Some subject =>
      userCenterIds <- UsersService.findUserCenters userId ;;
      if negb (Js.includes userCenterIds (centerId subject))
      then throw (ForbiddenException "Access denied to this subject")
      else ret subject
  end.

Section GetAuditLogs.

Variable compositeText : Json -> string.
Variable accessControl : list string -> option string -> list AuditLog -> M unit.

(** The second query names [:subjectId] twice.  TypeORM binds the two
    occurrences to one parameter or to one parameter each, by its version,
    which the listings do not give.  With one parameter, the comparison
    with the uuid column fixes its type, and [:subjectId::text] is the
    canonical text of that uuid; with two, it is the text as given. *)
Variable sharedParameter : bool.

Definition boundText (value text : string) : string :=
  if sharedParameter then value else text.

(** [subject_id = :subjectId OR diff->>'subjectId' = :subjectId::text]:
    the column is compared with the uuid [value] of the parameter, the
    property of the diff with a [text]. *)
Definition references (value text : string) (e : AuditLog) : bool :=
  SubjectsService.sqlEq (log_subjectId e) value
  || SubjectsService.sqlEq
       (SubjectsService.arrowText compositeText (Some (diff e)) "subjectId") text.

(** The second query: [.orderBy('audit_log.timestamp', 'DESC').getMany()]. *)
Definition logsOfSubject (subjectId : string) : M (list AuditLog) :=
  match Uuid.uuid_in subjectId with
  | Some value =>
      query (fun db =>
        orderBy (fun a b => Nat.leb (timestamp b) (timestamp a))
                (filter (references value (boundText value subjectId))
                        (auditLogs db)))
  | None => throw QueryFailedError
  end.

(** [getAuditLogs], Section 4.4. *)
Definition getAuditLogs (subjectIdOrNumber userId : string) : M (list AuditLog) :=
  subjectId <- SubjectsService.resolveSubjectId compositeText subjectIdOrNumber ;;
  (* Query audit logs *)
  auditLogs <-
    match subjectId with
    | Some sid => if Js.truthy (Some sid) then logsOfSubject sid else ret []
    | None => ret []
    end ;;
  (* Verify access control *)
  userCenterIds <- UsersService.findUserCenters userId ;;
  accessControl userCenterIds subjectId auditLogs ;;;
  ret auditLogs.

End GetAuditLogs.

End UuidTyped.

(** ** CreateSubjectDto: the validators of [number] *)

Module NumberValidation.

(** [\[A-Z0-9\]] under the [i] flag. *)
Definition isAlnum (c : ascii) : bool :=
  let n := nat_of_ascii c in
  (Nat.leb 48 n && Nat.leb n 57) || (Nat.leb 65 n && Nat.leb n 90)
  || (Nat.leb 97 n && Nat.leb n 122).

(** [\[A-Z0-9\-_\]] under the [i] flag. *)
Definition isNumberChar (c : ascii) : bool :=
  isAlnum c || Ascii.eqb c "-" || Ascii.eqb c "_".

Definition atEnd (s : string) : bool :=
  match s with
  | EmptyString => true
  | String _ _ => false
  end.

(** [\[A-Z0-9\-_\]*\[A-Z0-9\]$] on the rest of the input. *)
Fixpoint restOfNumber (s : string) : bool :=
  match s with
  | EmptyString => false
  | String c rest =>
      (isNumberChar c && restOfNumber rest) || (isAlnum c && atEnd rest)
  end.

(** [/^\[A-Z0-9\]\[A-Z0-9\-_\]*\[A-Z0-9\]$|^\[A-Z0-9\]$/i.test(s)] *)
Definition matchesPattern (s : string) : bool :=
  match s with
  | EmptyString => false
  | String c rest => isAlnum c && (restOfNumber rest || atEnd rest)
  end.

(** [@IsNotEmpty() @MinLength(3) @MaxLength(50) @Matches(...)]: whether
    [number] passes all four. *)
Definition numberIsValid (s : string) : bool :=
  negb (String.eqb s "") && Nat.leb 3 (String.length s)
  && Nat.leb (String.length s) 50 && matchesPattern s.

End NumberValidation.

(** * The Angular frontend *)

(** ** localStorage *)

Module LocalStorage.

Definition t : Type := list (string * string).

(** [localStorage.getItem(k)]; [None] is [null]. *)
Fixpoint getItem (k : string) (st : t) : option string :=
  match st with
  | [] => None
  | (k', v) :: rest => if String.eqb k' k then Some v else getItem k rest
  end.

(** [localStorage.removeItem(k)] *)
Definition removeItem (k : string) (st : t) : t :=
  filter (fun kv : string * string => negb (String.eqb (fst kv) k)) st.

(** [localStorage.setItem(k, v)] *)
Definition setItem (k v : string) (st : t) : t := (k, v) :: removeItem k st.

End LocalStorage.

(** ** AuthService, authInterceptor and authGuard (Sections 2.2 to 2.4) *)

Module AuthService.

Section WithUser.

(** The user object of the login response, and [JSON.stringify] and
    [JSON.parse] on it; [parse] gives [None] where [JSON.parse] throws. *)
Variable User : Type.
Variable stringify : User -> string.
Variable parse : string -> option User.

(** The service: the browser's storage and the [BehaviorSubject] of the
    current user. *)
Record State : Type := mkState {
  storage : LocalStorage.t;
  currentUser : option User
}.

Record AuthResponse : Type := mkAuthResponse {
  access_token : string;
  user : User
}.

(** The constructor: the user is restored when both items are there;
    [None] when [JSON.parse] throws. *)
Definition construct (st : LocalStorage.t) : option State :=
  let token := LocalStorage.getItem "token" st in
  let userStr := LocalStorage.getItem "user" st in
  if Js.truthy token && Js.truthy userStr
  then
    match parse (Js.orElse userStr "") with
    | Some u => Some (mkState st (Some u))
    | None => None
    end
  else Some (mkState st None).

(** The [tap] of [login]: what a response does to the service. *)
Definition loggedIn (response : AuthResponse) (s : State) : State :=
  let st := LocalStorage.setItem "token" (access_token response) (storage s) in
  let st := LocalStorage.setItem "user" (stringify (user response)) st in
  mkState st (Some (user response)).

(** [login(username, password)] against a backend that answers with a
    response or fails; a failure runs no [tap]. *)
Definition login (post : string -> string -> option AuthResponse)
           (username password : string) (s : State)
  : option AuthResponse * State :=
  match post username password with
  | Some response => (Some response, loggedIn response s)
  | None => (None, s)
  end.

(** [logout()] *)
Definition logout (s : State) : State :=
  let st := LocalStorage.removeItem "token" (storage s) in
  let st := LocalStorage.removeItem "user" st in
  mkState st None.

(** [getToken()] *)
Definition getToken (s : State) : option string :=
  LocalStorage.getItem "token" (storage s).

(** [isAuthenticated()]: [!!this.getToken()] *)
Definition isAuthenticated (s : State) : bool := Js.truthy (getToken s).

End WithUser.

End AuthService.

(** An outgoing request, as far as the interceptor touches it. *)
Record HttpRequest : Type := mkRequest {
  req_method : string;
  req_url : string;
  req_headers : list (string * string)
}.

(** [req.clone({ setHeaders: { k: v } })]: the header is set, replacing a
    value it had. *)
Definition setHeader (k v : string) (req : HttpRequest) : HttpRequest :=
  mkRequest (req_method req) (req_url req)
    ((k, v) :: filter (fun kv : string * string => negb (String.eqb (fst kv) k))
                      (req_headers req)).

Definition getHeader (k : string) (req : HttpRequest) : option string :=
  LocalStorage.getItem k (req_headers req).

(** [authInterceptor(req, next)] *)
Definition authInterceptor {User R : Type} (authService : AuthService.State User)
           (req : HttpRequest) (next : HttpRequest -> R) : R :=
  let token := AuthService.getToken authService in
  let req :=
    if Js.truthy token
    then setHeader "Authorization" ("Bearer " ++ Js.orElse token "") req
    else req in
  next req.

(** [authGuard(route, state)]: the answer, and the navigation it starts. *)
Definition authGuard {User : Type} (authService : AuthService.State User)
  : bool * option (list string) :=
  if AuthService.isAuthenticated authService
  then (true, None)
  else (false, Some ["/login"]).

(** ** SubjectsListComponent.loadSubjects (Section 2.5) *)

Module SubjectsList.

(** A Subject as the frontend receives it: [centerId] may be missing and
    [center] is the joined center, if any. *)
Record SubjectView : Type := mkView {
  v_id : string;
  v_number : string;
  v_name : string;
  v_birthDate : string;
  v_centerId : option string;
  v_center : option Center
}.

Record Component : Type := mkComponent {
  c_subjects : list SubjectView;
  c_loading : bool;
  c_error : string
}.

(** [subject.centerId || subject.center?.id || ''] *)
Definition centerIdOf (subject : SubjectView) : string :=
  Js.orElse (v_centerId subject)
    (Js.orElse (option_map center_id (v_center subject)) "").

(** The body of [subjects.map(...)]. *)
Definition withCenterId (subject : SubjectView) : SubjectView :=
  mkView (v_id subject) (v_number subject) (v_name subject) (v_birthDate subject)
         (Some (centerIdOf subject)) (v_center subject).

(** [loadSubjects()] up to the request. *)
Definition loadSubjects (c : Component) : Component :=
  mkComponent (c_subjects c) true "".

(** The [next] callback. *)
Definition onNext (subjects : list SubjectView) (c : Component) : Component :=
  mkComponent (map withCenterId subjects) false (c_error c).

(** The [error] callback: [err.error?.message || 'Failed to load subjects']. *)
Definition onError (message : option string) (c : Component) : Component :=
  mkComponent (c_subjects c) false (Js.orElse message "Failed to load subjects").

End SubjectsList.

(** * The marketing site: ThemeToggle *)

Module ThemeToggle.

(** What the component holds and touches: its [theme] state, the storage
    and the [data-theme] attribute of the document element. *)
Record State : Type := mkState {
  theme : string;
  storage : LocalStorage.t;
  dataTheme : option string
}.

(** The effect that follows a render with [theme]. *)
Definition rendered (th : string) (st : LocalStorage.t) : State :=
  mkState th (LocalStorage.setItem "theme" th st) (Some th).

(** Mounting: [useState(localStorage.getItem("theme") || "dark")]. *)
Definition mount (st : LocalStorage.t) : State :=
  rendered (Js.orElse (LocalStorage.getItem "theme" st) "dark") st.

(** [toggleTheme()] *)
Definition toggleTheme (s : State) : State :=
  rendered (if String.eqb (theme s) "dark" then "light" else "dark") (storage s).

(** The text of the link. *)
Definition label (s : State) : string :=
  if String.eqb (theme s) "dark" then "Light Mode" else "Dark Mode".

End ThemeToggle.

(** * Vocabulary of the properties *)

Import SubjectsService.

(** The primary key of [subject]: no two rows share an identifier. *)
Definition primaryKey (db : Db) : Prop := NoDup (map id (subjects db)).

(** The center lookup on a given center table. *)
Definition lookupCenter (cs : list Center) (cid : string) : option Center :=
  find (fun c => String.eqb (center_id c) cid) cs.

(** The diff of [update] as a function of the center table: what
    [centerDiff] returns on the entries of [scalarDiff]. *)
Definition diffOf (cs : list Center) (oldData : Subject) (dto : UpdateSubjectDto)
  : list (string * Json) :=
  match u_centerId dto with
  | Some newCenterId =>
      if Js.truthy (Some newCenterId)
         && Js.strictNeq (Some newCenterId) (centerId oldData)
      then Js.setField "center"
             (pair (centerRef (centerId oldData) (lookupCenter cs (centerId oldData)))
                   (centerRef newCenterId (lookupCenter cs newCenterId)))
             (scalarDiff oldData dto)
      else scalarDiff oldData dto
  | None => scalarDiff oldData dto
  end.

(** The row [update] writes for the stored Subject [s]: what
    [Object.assign] gives, with the join column as [save] takes it. *)
Definition rowWritten (cs : list Center) (s : Subject) (dto : UpdateSubjectDto)
  : Subject :=
  SubjectsRepository.rowOf (lookupCenter cs (centerId s)) (assign s dto).


(** The tables no method of [SubjectsService] writes. *)
Definition sameDirectory (db db' : Db) : Prop :=
  users db' = users db /\ userCenters db' = userCenters db
  /\ centers db' = centers db.


(** The text that [->>] yields for a property value: a string as it is, an
    object as the storage renders it; [null] and an absent property yield
    none. *)
Inductive TextOf (compositeText : Json -> string) : Json -> string -> Prop :=
| TextOfString (t : string) : TextOf compositeText (JStr t) t
| TextOfObject (fields : list (string * Json)) :
    TextOf compositeText (JObj fields) (compositeText (JObj fields)).

(** The diff [d] gives [num] as the number: the property [number] has that
    text, or it is an object whose property [new] has that text. *)
Definition GivesNumber (compositeText : Json -> string) (d : Json) (num : string)
  : Prop :=
  exists fields v,
    d = JObj fields /\ Js.getField "number" fields = Some v
    /\ (TextOf compositeText v num
        \/ exists halves w,
            v = JObj halves /\ Js.getField "new" halves = Some w
            /\ TextOf compositeText w num).

(** The diff of [e] has a property [subjectId] with the [text]. *)
Definition DiffNames (compositeText : Json -> string) (text : string)
           (e : AuditLog) : Prop :=
  exists fields v,
    diff e = JObj fields /\ Js.getField "subjectId" fields = Some v
    /\ TextOf compositeText v text.

(** The entry [e] references a subject: its subject column holds the uuid
    [value], or its diff names the subject by the [text]. *)
Definition RefersTo (compositeText : Json -> string) (value text : string)
           (e : AuditLog) : Prop :=
  log_subjectId e = Some value \/ DiffNames compositeText text e.

(** [e] is an earliest audit entry whose diff gives [num] as the number. *)
Definition earliestMention (compositeText : Json -> string) (db : Db)
           (num : string) (e : AuditLog) : Prop :=
  In e (auditLogs db)
  /\ GivesNumber compositeText (diff e) num
  /\ forall e', In e' (auditLogs db) ->
                GivesNumber compositeText (diff e') num ->
                timestamp e <= timestamp e'.

(** The resolution of the subject identifier, path by path. *)
Inductive Resolves (compositeText : Json -> string) (db : Db) (input : string)
  : option string -> Prop :=
| ResolvesUuid :
    isUUID input = true ->
    Resolves compositeText db input (Some input)
| ResolvesLive (s : Subject) :
    isUUID input = false ->
    In s (subjects db) -> number s = input ->
    Resolves compositeText db input (Some (id s))
| ResolvesHistory (e : AuditLog) (sid : string) :
    isUUID input = false ->
    (forall s, In s (subjects db) -> number s <> input) ->
    earliestMention compositeText db input e ->
    log_subjectId e = Some sid -> sid <> "" ->
    Resolves compositeText db input (Some sid)
| ResolvesOrphan (e : AuditLog) :
    isUUID input = false ->
    (forall s, In s (subjects db) -> number s <> input) ->
    earliestMention compositeText db input e ->
    (log_subjectId e = None \/ log_subjectId e = Some "") ->
    Resolves compositeText db input None
| ResolvesNothing :
    isUUID input = false ->
    (forall s, In s (subjects db) -> number s <> input) ->
    (forall e, In e (auditLogs db) -> ~ GivesNumber compositeText (diff e) input) ->
    Resolves compositeText db input None.

(** A digit of the canonical text of a uuid. *)
Definition isLowerHex (c : ascii) : bool :=
  isHex c && Ascii.eqb (Uuid.lowerHex c) c.

Fixpoint allLowerHex (s : string) : bool :=
  match s with
  | EmptyString => true
  | String c rest => isLowerHex c && allLowerHex rest
  end.

(** The state as the uuid columns type it: the identifier of every Subject
    and the subject reference of every audit entry is the canonical text of
    a uuid. *)
Definition uuidColumns (db : Db) : Prop :=
  (forall s, In s (subjects db) -> Uuid.uuid_in (id s) = Some (id s))
  /\ (forall e sid, In e (auditLogs db) -> log_subjectId e = Some sid ->
                    Uuid.uuid_in sid = Some sid).

(** Newest first. *)
Definition newestFirst (l : list AuditLog) : Prop :=
  StronglySorted (fun a b => timestamp b <= timestamp a) l.

(** Whether a result is the Conflict failure. *)
Definition isConflict {A : Type} (r : result A) : bool :=
  match r with
  | Err (ConflictException _) => true
  | _ => false
  end.






(** The order a boolean comparison decides. *)
Definition leOf {A : Type} (leb : A -> A -> bool) (a b : A) : Prop :=
  leb a b = true.

(** Unfolding of the monad's plumbing. *)
Ltac run := unfold bind, ret, throw, query in *; simpl in *.

(** The unique column of [subject]: no two rows share a [number]. *)
Definition uniqueNumbers (db : Db) : Prop := NoDup (map number (subjects db)).

(** [l'] is [l] with at most one entry appended. *)
Definition appendsAtMostOne (l l' : list AuditLog) : Prop :=
  l' = l \/ exists entry, l' = (l ++ [entry])%list.

(** ** Sample data *)

Module Sample.

Definition alice : string := "a0000000-0000-4000-8000-0000000000a1".
Definition bob : string := "b0000000-0000-4000-8000-0000000000b2".
Definition centerA : string := "c0000000-0000-4000-8000-00000000000a".
Definition centerB : string := "c0000000-0000-4000-8000-00000000000b".
Definition centerC : string := "c0000000-0000-4000-8000-00000000000c".

(** Alice belongs to centers A, B and C, Bob to none; center C has no row
    in the center table. *)
Definition db0 : Db :=
  mkDb [alice; bob]
       [mkUserCenter alice centerA; mkUserCenter alice centerB;
        mkUserCenter alice centerC]
       [mkCenter centerA "Center A"; mkCenter centerB "Center B"]
       [] [] 0 1000 [].

Definition johnDto : CreateSubjectDto :=
  mkCreateDto "SUB-001" "John Doe" "1990-01-15" centerA.

Definition johnId : string := "00000000-0000-0000-0000-000000000000".

Definition john : Subject :=
  mkSubject johnId "SUB-001" "John Doe" "1990-01-15" centerA.

Definition johnCreated : AuditLog :=
  mkAuditLog "00000000-0000-0000-0000-000000000001" (Some johnId) (Some alice)
    "CREATE"
    (JObj [("number", JStr "SUB-001"); ("name", JStr "John Doe");
           ("birthDate", JStr "1990-01-15"); ("centerId", JStr centerA)])
    1000.

(** The database after Alice created John. *)
Definition db1 : Db :=
  mkDb (users db0) (userCenters db0) (centers db0) [john] [johnCreated] 2 1001 [].

Definition subject2 : Subject :=
  mkSubject "00000000-0000-0000-0000-0000000000a2" "SUB-002" "Ann Poe"
            "1979-03-02" centerB.

Definition subject5 : Subject :=
  mkSubject "00000000-0000-0000-0000-0000000000a5" "SUB-005" "Max Moe"
            "2001-12-24" "c0000000-0000-4000-8000-00000000000d".

Definition subject10 : Subject :=
  mkSubject "00000000-0000-0000-0000-0000000000aa" "SUB-010" "Eve Loe"
            "1968-09-09" centerA.

(** Three more Subjects, stored out of order; the center of [subject5] is
    none of Alice's. *)
Definition db2 : Db :=
  mkDb (users db0) (userCenters db0) (centers db0)
       [subject10; subject5; john; subject2] [johnCreated] 2 1001 [].

(** Kim was created as SUB-007 and later renumbered SUB-008.  One more
    entry is what is left of a Subject that is gone: its subject reference
    is null and only its diff names the Subject. *)
Definition kimId : string := "00000000-0000-0000-0000-0000000000b7".

Definition kim : Subject :=
  mkSubject kimId "SUB-008" "Kim Noe" "1999-09-19" centerA.

Definition kimCreated : AuditLog :=
  mkAuditLog "00000000-0000-0000-0000-0000000000c1" (Some kimId) (Some alice)
    "CREATE"
    (JObj [("number", JStr "SUB-007"); ("name", JStr "Kim Noe");
           ("birthDate", JStr "1999-09-19"); ("centerId", JStr centerA)])
    10.

Definition kimRenumbered : AuditLog :=
  mkAuditLog "00000000-0000-0000-0000-0000000000c2" (Some kimId) (Some alice)
    "UPDATE"
    (JObj [("number", JObj [("old", JStr "SUB-007"); ("new", JStr "SUB-008")]);
           ("subjectId", JStr kimId)])
    20.

Definition goneId : string := "00000000-0000-0000-0000-0000000000b9".

Definition goneRenamed : AuditLog :=
  mkAuditLog "00000000-0000-0000-0000-0000000000c3" None (Some alice)
    "UPDATE"
    (JObj [("name", JObj [("old", JStr "Lee Roe"); ("new", JStr "Lee Poe")]);
           ("subjectId", JStr goneId)])
    30.

Definition db3 : Db :=
  mkDb (users db0) (userCenters db0) (centers db0) [john; kim]
       [johnCreated; kimRenumbered; goneRenamed; kimCreated] 2 1001 [].

(** A Subject whose number has the shape of a UUID, with its CREATE entry. *)
Definition uuidNumber : string := "abcdefab-1234-4321-8765-abcdefabcdef".

Definition odd : Subject :=
  mkSubject "00000000-0000-0000-0000-0000000000d1" uuidNumber "Odd Number"
            "1970-01-01" centerA.

Definition oddCreated : AuditLog :=
  mkAuditLog "00000000-0000-0000-0000-0000000000d2" (Some (id odd)) (Some alice)
    "CREATE"
    (JObj [("number", JStr uuidNumber); ("name", JStr "Odd Number");
           ("birthDate", JStr "1970-01-01"); ("centerId", JStr centerA)])
    40.

(** A Subject whose number is its own identifier in upper case, with its
    CREATE entry. *)
Definition twinId : string := "00000000-0000-0000-0000-0000000000d3".

Definition twinNumber : string := "00000000-0000-0000-0000-0000000000D3".

Definition twin : Subject :=
  mkSubject twinId twinNumber "Twin Number" "1970-01-01" centerA.

Definition twinCreated : AuditLog :=
  mkAuditLog "00000000-0000-0000-0000-0000000000d4" (Some twinId) (Some alice)
    "CREATE"
    (JObj [("number", JStr twinNumber); ("name", JStr "Twin Number");
           ("birthDate", JStr "1970-01-01"); ("centerId", JStr centerA)])
    50.

Definition db5 : Db :=
  mkDb (users db0) (userCenters db0) (centers db0) [john; odd; twin]
       [johnCreated; oddCreated; twinCreated] 2 1001 [].

(** Kim's identifier as a client may spell it. *)
Definition kimIdUpper : string := "00000000-0000-0000-0000-0000000000B7".

Definition kimIdBare : string := "{000000000000000000000000000000b7}".

(** A rendering of composite [jsonb] values and an access-control block
    that lets every call through, to run [getAuditLogs] with. *)
Definition noText : Json -> string := fun _ => "{}".

Definition letThrough : list string -> option string -> list AuditLog -> M unit :=
  fun _ _ _ => ret tt.


(** A user object that is a user name, with a rendering that [parseName]
    reads back. *)
Definition stringifyName (u : string) : string := "u:" ++ u.

Definition parseName (text : string) : option string :=
  match text with
  | String "u" (String ":" u) => Some u
  | _ => None
  end.

Definition aliceLogin : AuthService.AuthResponse string :=
  AuthService.mkAuthResponse "eyJhbGciOi.alice.token" "alice".

Definition signedOut : AuthService.State string :=
  AuthService.mkState [("theme", "light")] None.

Definition getSubjects : HttpRequest :=
  mkRequest "GET" "http://localhost:3000/api/subjects" [].


End Sample.

(** * Properties *)

(** ** Identifiers *)

Example isUUID_accepts :
  isUUID "123e4567-e89b-12d3-a456-426614174000" = true
  /\ isUUID "123E4567-E89B-12D3-A456-426614174000" = true
  /\ isUUID (uuidOfNat 255) = true.
Proof. vm_compute. repeat split. Qed.

Example isUUID_rejects :
  isUUID "SUB-001" = false
  /\ isUUID "123e4567-e89b-12d3-a456-42661417400" = false
  /\ isUUID "123e4567-e89b-12d3-a456-4266141740000" = false
  /\ isUUID "123e4567e89b12d3a456426614174000" = false
  /\ isUUID "g23e4567-e89b-12d3-a456-426614174000" = false.
Proof. vm_compute. repeat split. Qed.

Example uuidOfNat_layout :
  uuidOfNat 255 = "00000000-0000-0000-0000-0000000000ff".
Proof. vm_compute. reflexivity. Qed.

Lemma isUUID_inv (s : string) :
  isUUID s = true ->
  exists r1 r2 r3 r4 r5 r6 r7 r8,
    hexRun 8 s = Some r1 /\ dash r1 = Some r2 /\ hexRun 4 r2 = Some r3
    /\ dash r3 = Some r4 /\ hexRun 4 r4 = Some r5 /\ dash r5 = Some r6
    /\ hexRun 4 r6 = Some r7 /\ dash r7 = Some r8 /\ hexRun 12 r8 = Some "".
Proof.
  unfold isUUID, andThen.
  destruct (hexRun 8 s) as [r1|] eqn:E1; [|discriminate].
  destruct (dash r1) as [r2|] eqn:E2; [|discriminate].
  destruct (hexRun 4 r2) as [r3|] eqn:E3; [|discriminate].
  destruct (dash r3) as [r4|] eqn:E4; [|discriminate].
  destruct (hexRun 4 r4) as [r5|] eqn:E5; [|discriminate].
  destruct (dash r5) as [r6|] eqn:E6; [|discriminate].
  destruct (hexRun 4 r6) as [r7|] eqn:E7; [|discriminate].
  destruct (dash r7) as [r8|] eqn:E8; [|discriminate].
  destruct (hexRun 12 r8) as [[|c r9]|] eqn:E9; try discriminate.
  intros _. exists r1, r2, r3, r4, r5, r6, r7, r8. auto 12.
Qed.

(** *** The uuid input routine *)

Example uuid_in_accepts :
  Uuid.uuid_in "123e4567-e89b-12d3-a456-426614174000"
  = Some "123e4567-e89b-12d3-a456-426614174000"
  /\ Uuid.uuid_in "123E4567-E89B-12D3-A456-426614174000"
     = Some "123e4567-e89b-12d3-a456-426614174000"
  /\ Uuid.uuid_in "{123e4567-e89b-12d3-a456-426614174000}"
     = Some "123e4567-e89b-12d3-a456-426614174000"
  /\ Uuid.uuid_in "123e4567e89b12d3a456426614174000"
     = Some "123e4567-e89b-12d3-a456-426614174000"
  /\ Uuid.uuid_in "123e-4567-e89b-12d3-a456-4266-1417-4000"
     = Some "123e4567-e89b-12d3-a456-426614174000".
Proof. vm_compute. repeat split. Qed.

Example uuid_in_rejects :
  Uuid.uuid_in "no-such-id" = None
  /\ Uuid.uuid_in "SUB-001" = None
  /\ Uuid.uuid_in "" = None
  /\ Uuid.uuid_in "123e4567-e89b-12d3-a456-42661417400" = None
  /\ Uuid.uuid_in "123e4567-e89b-12d3-a456-426614174000-" = None
  /\ Uuid.uuid_in "12-3e4567-e89b-12d3-a456-426614174000" = None
  /\ Uuid.uuid_in "{123e4567-e89b-12d3-a456-426614174000" = None
  /\ Uuid.uuid_in "123e4567-e89b-12d3-a456-426614174000}" = None.
Proof. vm_compute. repeat split. Qed.

Lemma isHex_not_dash (c : ascii) : isHex c = true -> Ascii.eqb c "-" = false.
Proof.
  intros H. destruct (Ascii.eqb c "-") eqn:E; [|reflexivity].
  apply Ascii.eqb_eq in E. subst c. discriminate H.
Qed.

Lemma isHex_not_brace (c : ascii) : isHex c = true -> Ascii.eqb c "{" = false.
Proof.
  intros H. destruct (Ascii.eqb c "{") eqn:E; [|reflexivity].
  apply Ascii.eqb_eq in E. subst c. discriminate H.
Qed.

Lemma hexRun_group (k : nat) (s r : string) :
  hexRun (4 + k) s = Some r ->
  exists g s', Uuid.group s = Some (g, s') /\ hexRun k s' = Some r.
Proof.
  change (hexRun (4 + k) s)
    with (match s with
          | String a rest =>
              if isHex a then
                match rest with
                | String b rest =>
                    if isHex b then
                      match rest with
                      | String c rest =>
                          if isHex c then
                            match rest with
                            | String d rest => if isHex d then hexRun k rest else None
                            | EmptyString => None
                            end
                          else None
                      | EmptyString => None
                      end
                    else None
                | EmptyString => None
                end
              else None
          | EmptyString => None
          end).
  destruct s as [|a [|b [|c [|d rest]]]]; try discriminate;
    try (destruct (isHex a); discriminate);
    try (destruct (isHex a); destruct (isHex b); discriminate);
    try (destruct (isHex a); destruct (isHex b); destruct (isHex c); discriminate).
  unfold Uuid.group.
  destruct (isHex a); [|discriminate]. destruct (isHex b); [|discriminate].
  destruct (isHex c); [|discriminate]. destruct (isHex d); [|discriminate].
  intros H. simpl. eauto.
Qed.

Lemma hexRun_skipDash (k : nat) (s r : string) :
  hexRun (S k) s = Some r -> Uuid.skipDash s = s.
Proof.
  simpl. destruct s as [|c rest]; [discriminate|].
  destruct (isHex c) eqn:E; [|discriminate].
  intros _. unfold Uuid.skipDash. rewrite (isHex_not_dash _ E). reflexivity.
Qed.

Lemma dash_skipDash (s r : string) : dash s = Some r -> Uuid.skipDash s = r.
Proof.
  unfold dash, Uuid.skipDash. destruct s as [|c rest]; [discriminate|].
  destruct (Ascii.eqb c "-"); [|discriminate]. intros H. injection H as ->.
  reflexivity.
Qed.

Lemma moreGroups_step (n : nat) (s s' g rest : string) :
  Uuid.skipDash s = s' -> Uuid.group s' = Some (g, rest) ->
  Uuid.moreGroups (S n) s
  = match Uuid.moreGroups n rest with
    | Some (gs, tail) => Some (g :: gs, tail)
    | None => None
    end.
Proof. intros H1 H2. simpl. rewrite H1, H2. reflexivity. Qed.

(** Every text that the test of [getAuditLogs] takes for an identifier is
    one that the uuid columns read. *)
Lemma isUUID_uuid_in (s : string) :
  isUUID s = true -> exists value, Uuid.uuid_in s = Some value.
Proof.
  intros H. apply isUUID_inv in H.
  destruct H as [r1 [r2 [r3 [r4 [r5 [r6 [r7 [r8
                   [H1 [D1 [H2 [D2 [H3 [D3 [H4 [D4 H5]]]]]]]]]]]]]]]].
  assert (Hb : (match s with
                | String c rest =>
                    if Ascii.eqb c "{" then (true, rest) else (false, s)
                | EmptyString => (false, s)
                end) = (false, s)).
  { destruct s as [|c rest]; [reflexivity|]. simpl in H1.
    destruct (isHex c) eqn:E; [|discriminate].
    rewrite (isHex_not_brace _ E). reflexivity. }
  destruct (@hexRun_group 4 s r1 H1) as [g0 [s1 [G0 H1']]].
  pose proof (@hexRun_skipDash 3 s1 r1 H1') as S1.
  destruct (@hexRun_group 0 s1 r1 H1') as [g1 [s1' [G1 E1]]].
  simpl in E1. injection E1 as ->.
  pose proof (@dash_skipDash _ _ D1) as S2.
  destruct (@hexRun_group 0 r2 r3 H2) as [g2 [x2 [G2 E2]]].
  simpl in E2. injection E2 as ->.
  pose proof (@dash_skipDash _ _ D2) as S3.
  destruct (@hexRun_group 0 r4 r5 H3) as [g3 [x3 [G3 E3]]].
  simpl in E3. injection E3 as ->.
  pose proof (@dash_skipDash _ _ D3) as S4.
  destruct (@hexRun_group 0 r6 r7 H4) as [g4 [x4 [G4 E4]]].
  simpl in E4. injection E4 as ->.
  pose proof (@dash_skipDash _ _ D4) as S5.
  destruct (@hexRun_group 8 r8 "" H5) as [g5 [t1 [G5 H6]]].
  pose proof (@hexRun_skipDash 7 t1 "" H6) as S6.
  destruct (@hexRun_group 4 t1 "" H6) as [g6 [t2 [G6 H7]]].
  pose proof (@hexRun_skipDash 3 t2 "" H7) as S7.
  destruct (@hexRun_group 0 t2 "" H7) as [g7 [x7 [G7 E7]]].
  simpl in E7. injection E7 as ->.
  unfold Uuid.uuid_in. rewrite Hb, G0.
  rewrite (@moreGroups_step 6 _ _ _ _ S1 G1).
  rewrite (@moreGroups_step 5 _ _ _ _ S2 G2).
  rewrite (@moreGroups_step 4 _ _ _ _ S3 G3).
  rewrite (@moreGroups_step 3 _ _ _ _ S4 G4).
  rewrite (@moreGroups_step 2 _ _ _ _ S5 G5).
  rewrite (@moreGroups_step 1 _ _ _ _ S6 G6).
  rewrite (@moreGroups_step 0 _ _ _ _ S7 G7).
  simpl. eauto.
Qed.

(** *** Generated identifiers are canonical *)

Lemma hexDigit_lower (d : nat) : isLowerHex (hexDigit d) = true.
Proof. do 15 (destruct d as [|d]; [reflexivity|]). reflexivity. Qed.

Lemma append_assoc_string (a b c : string) : (a ++ b) ++ c = a ++ (b ++ c).
Proof. induction a as [|x a IH]; simpl; [reflexivity|rewrite IH; reflexivity]. Qed.

Lemma append_empty_r (a : string) : a ++ "" = a.
Proof. induction a as [|x a IH]; simpl; [reflexivity|rewrite IH; reflexivity]. Qed.

Lemma length_snoc (a : string) (c : ascii) :
  String.length (a ++ String c "") = S (String.length a).
Proof. induction a as [|x a IH]; simpl; [reflexivity|rewrite IH; reflexivity]. Qed.

Lemma allLowerHex_snoc (a : string) (c : ascii) :
  allLowerHex a = true -> isLowerHex c = true ->
  allLowerHex (a ++ String c "") = true.
Proof.
  intros Ha Hc. induction a as [|x a IH]; simpl in *.
  - rewrite Hc. reflexivity.
  - apply andb_true_iff in Ha. destruct Ha as [Hx Ha].
    rewrite Hx, (IH Ha). reflexivity.
Qed.

Lemma hexOfNat_shape (w : nat) :
  forall (n : nat) (acc : string),
    exists ds, hexOfNat w n acc = ds ++ acc
               /\ String.length ds = w /\ allLowerHex ds = true.
Proof.
  induction w as [|w IH]; intros n acc.
  - exists "". repeat split.
  - change (hexOfNat (S w) n acc)
      with (hexOfNat w (n / 16) (String (hexDigit (n mod 16)) acc)).
    destruct (IH (n / 16) (String (hexDigit (n mod 16)) acc)) as [ds [Hh [Hl Ha]]].
    exists (ds ++ String (hexDigit (n mod 16)) ""). split; [|split].
    + rewrite Hh, append_assoc_string. reflexivity.
    + rewrite length_snoc, Hl. reflexivity.
    + apply allLowerHex_snoc; [exact Ha|apply hexDigit_lower].
Qed.

Lemma isLowerHex_inv (c : ascii) :
  isLowerHex c = true ->
  isHex c = true /\ Uuid.lowerHex c = c
  /\ Ascii.eqb c "-" = false /\ Ascii.eqb c "{" = false.
Proof.
  unfold isLowerHex. intros H. apply andb_true_iff in H. destruct H as [Hh Hl].
  apply Ascii.eqb_eq in Hl.
  repeat split; auto using isHex_not_dash, isHex_not_brace.
Qed.

(** The text of a group of four canonical digits is read as itself. *)
Lemma group_lower (a b c d : ascii) (rest : string) :
  isLowerHex a = true -> isLowerHex b = true ->
  isLowerHex c = true -> isLowerHex d = true ->
  Uuid.group (String a (String b (String c (String d rest))))
  = Some (String a (String b (String c (String d ""))), rest).
Proof.
  intros Ha Hb Hc Hd.
  destruct (isLowerHex_inv _ Ha) as [A1 [A2 _]].
  destruct (isLowerHex_inv _ Hb) as [B1 [B2 _]].
  destruct (isLowerHex_inv _ Hc) as [C1 [C2 _]].
  destruct (isLowerHex_inv _ Hd) as [D1 [D2 _]].
  unfold Uuid.group. rewrite A1, B1, C1, D1, A2, B2, C2, D2. reflexivity.
Qed.

Lemma skipDash_lower (a : ascii) (rest : string) :
  isLowerHex a = true -> Uuid.skipDash (String a rest) = String a rest.
Proof.
  intros Ha. destruct (isLowerHex_inv _ Ha) as [_ [_ [A3 _]]].
  unfold Uuid.skipDash. rewrite A3. reflexivity.
Qed.

(** The canonical layout of thirty-two canonical digits is read as
    itself. *)
Lemma uuid_in_canonical (h : string) :
  String.length h = 32 -> allLowerHex h = true ->
  Uuid.uuid_in (substring 0 8 h ++ "-" ++ substring 8 4 h ++ "-"
                  ++ substring 12 4 h ++ "-" ++ substring 16 4 h ++ "-"
                  ++ substring 20 12 h)
  = Some (substring 0 8 h ++ "-" ++ substring 8 4 h ++ "-"
            ++ substring 12 4 h ++ "-" ++ substring 16 4 h ++ "-"
            ++ substring 20 12 h).
Proof.
  intros Hlen Hall.
  do 32 (destruct h as [|? h]; [discriminate Hlen|]).
  destruct h; [|discriminate Hlen]. clear Hlen.
  simpl in Hall.
  repeat match goal with
         | H : _ && _ = true |- _ => apply andb_true_iff in H; destruct H
         end.
  cbn [substring append].
  unfold Uuid.uuid_in.
  match goal with
  | H : isLowerHex ?c = true |- context [Ascii.eqb ?c "{"] =>
      destruct (isLowerHex_inv _ H) as [_ [_ [_ Hb]]]; rewrite Hb
  end.
  rewrite group_lower by assumption.
  cbn [Uuid.moreGroups].
  repeat (first [rewrite skipDash_lower by assumption
                |change (Uuid.skipDash (String "-" ?r)) with r];
          rewrite group_lower by assumption).
  reflexivity.
Qed.

Lemma uuidOfNat_canonical (n : nat) :
  Uuid.uuid_in (uuidOfNat n) = Some (uuidOfNat n).
Proof.
  unfold uuidOfNat. cbv zeta.
  destruct (hexOfNat_shape 32 n "") as [ds [Hh [Hl Ha]]].
  rewrite Hh, append_empty_r. apply uuid_in_canonical; assumption.
Qed.

(** ** Ordering *)

Section OrderByFacts.
Variable A : Type.
Variable leb : A -> A -> bool.
Hypothesis leb_total : forall a b, leb a b = true \/ leb b a = true.

Lemma insertBy_perm (x : A) (l : list A) :
  Permutation (insertBy leb x l) (x :: l).
Proof.
  induction l as [|y rest IH]; simpl.
  - apply Permutation_refl.
  - destruct (leb x y).
    + apply Permutation_refl.
    + apply perm_trans with (y :: x :: rest).
      * apply perm_skip. exact IH.
      * apply perm_swap.
Qed.

Lemma orderBy_perm (l : list A) : Permutation (orderBy leb l) l.
Proof.
  induction l as [|x rest IH]; simpl.
  - apply perm_nil.
  - apply perm_trans with (x :: orderBy leb rest).
    + apply insertBy_perm.
    + apply perm_skip. exact IH.
Qed.

Lemma insertBy_hd (x a : A) (l : list A) :
  HdRel (leOf leb) a l -> leOf leb a x -> HdRel (leOf leb) a (insertBy leb x l).
Proof.
  intros Hl Hax. destruct l as [|y rest]; simpl.
  - constructor. exact Hax.
  - destruct (leb x y); constructor.
    + exact Hax.
    + inversion Hl; assumption.
Qed.

Lemma insertBy_sorted (x : A) (l : list A) :
  Sorted (leOf leb) l -> Sorted (leOf leb) (insertBy leb x l).
Proof.
  induction 1 as [|y rest Hs IH Hhd]; simpl.
  - repeat constructor.
  - destruct (leb x y) eqn:E.
    + constructor.
      * constructor; assumption.
      * constructor. exact E.
    + constructor.
      * exact IH.
      * apply insertBy_hd; [exact Hhd|].
        destruct (leb_total x y) as [H|H]; [congruence|exact H].
Qed.

Lemma orderBy_sorted (l : list A) : Sorted (leOf leb) (orderBy leb l).
Proof.
  induction l as [|x rest IH]; simpl.
  - constructor.
  - apply insertBy_sorted. exact IH.
Qed.

Lemma orderBy_in (x : A) (l : list A) : In x (orderBy leb l) <-> In x l.
Proof.
  split; apply Permutation_in.
  - apply orderBy_perm.
  - apply Permutation_sym, orderBy_perm.
Qed.

Hypothesis leb_trans : forall a b c, leb a b = true -> leb b c = true -> leb a c = true.

Lemma orderBy_strongly_sorted (l : list A) : StronglySorted (leOf leb) (orderBy leb l).
Proof.
  apply Sorted_StronglySorted.
  - intros a b c; apply leb_trans.
  - apply orderBy_sorted.
Qed.

(** The head of an ordered result is below every element of the input. *)
Lemma orderBy_hd_least (l : list A) (e : A) :
  hd_error (orderBy leb l) = Some e ->
  In e l /\ forall e', In e' l -> leOf leb e e'.
Proof.
  intros Hhd.
  pose proof (orderBy_strongly_sorted l) as Hs.
  destruct (orderBy leb l) as [|h rest] eqn:E; simpl in Hhd; [discriminate|].
  injection Hhd as ->.
  assert (Hin : forall z, In z l <-> In z (e :: rest)).
  { intro z. rewrite <- E. symmetry. apply orderBy_in. }
  split.
  - apply Hin. left. reflexivity.
  - intros e' He'. apply Hin in He'. destruct He' as [<-|He'].
    + destruct (leb_total e e); assumption.
    + apply StronglySorted_inv in Hs. destruct Hs as [_ Hall].
      rewrite Forall_forall in Hall. apply Hall. exact He'.
Qed.

Lemma orderBy_hd_none (l : list A) :
  hd_error (orderBy leb l) = None -> l = [].
Proof.
  intros H. destruct l as [|x rest]; [reflexivity|].
  exfalso.
  assert (Hin : In x (orderBy leb (x :: rest))) by (apply orderBy_in; left; reflexivity).
  destruct (orderBy leb (x :: rest)); [contradiction|discriminate].
Qed.
End OrderByFacts.

(** ** Lookups *)

Lemma includes_In (xs : list string) (x : string) :
  Js.includes xs x = true <-> In x xs.
Proof.
  unfold Js.includes. rewrite existsb_exists. split.
  - intros [y [Hin Heq]]. apply String.eqb_eq in Heq. subst. exact Hin.
  - intros Hin. exists x. split; [exact Hin|apply String.eqb_refl].
Qed.

Lemma includes_not_In (xs : list string) (x : string) :
  ~ In x xs -> Js.includes xs x = false.
Proof.
  intros H. destruct (Js.includes xs x) eqn:E; [|reflexivity].
  apply includes_In in E. contradiction.
Qed.

Lemma find_id_none (l : list Subject) (sid : string) :
  (forall s, In s l -> id s <> sid) ->
  find (fun s => String.eqb (id s) sid) l = None.
Proof.
  induction l as [|x rest IH]; intros H; simpl; [reflexivity|].
  destruct (String.eqb (id x) sid) eqn:E.
  - apply String.eqb_eq in E. exfalso. apply (H x); [left; reflexivity|exact E].
  - apply IH. intros s Hs. apply H. right. exact Hs.
Qed.

Lemma find_id_unique (l : list Subject) (s : Subject) :
  NoDup (map id l) -> In s l ->
  find (fun x => String.eqb (id x) (id s)) l = Some s.
Proof.
  induction l as [|x rest IH]; intros Hnd Hin; simpl in *; [contradiction|].
  inversion Hnd as [|? ? Hnotin Hnd']; subst.
  destruct Hin as [->|Hin].
  - rewrite String.eqb_refl. reflexivity.
  - destruct (String.eqb (id x) (id s)) eqn:E.
    + apply String.eqb_eq in E. exfalso. apply Hnotin. rewrite E.
      apply in_map. exact Hin.
    + apply IH; assumption.
Qed.

Lemma findUserCenters_state (userId : string) (db : Db) :
  snd (UsersService.findUserCenters userId db) = db.
Proof.
  unfold UsersService.findUserCenters. destruct (Js.includes (users db) userId); reflexivity.
Qed.

Lemma findUserCenters_eq (userId : string) (db : Db) (scope : list string) :
  fst (UsersService.findUserCenters userId db) = Ok scope ->
  UsersService.findUserCenters userId db = (Ok scope, db).
Proof.
  intros H. pose proof (findUserCenters_state userId db) as Hs.
  destruct (UsersService.findUserCenters userId db) as [r d]. simpl in *. subst. reflexivity.
Qed.

(** ** findOne *)

(** The lookups of [findOne], by text and on the uuid column. *)
Lemma findOne_found (db : Db) (sid userId : string) (s : Subject)
      (scope : list string) :
  find (fun x => String.eqb (id x) sid) (subjects db) = Some s ->
  UsersService.findUserCenters userId db = (Ok scope, db) ->
  findOne sid userId db
  = if Js.includes scope (centerId s) then (Ok s, db)
    else (Err (ForbiddenException "Access denied to this subject"), db).
Proof.
  intros Hf Hs. unfold findOne, SubjectsRepository.findOneById. run.
  rewrite Hf, Hs. destruct (Js.includes scope (centerId s)); reflexivity.
Qed.

Lemma findOne_missing (db : Db) (sid userId : string) :
  find (fun x => String.eqb (id x) sid) (subjects db) = None ->
  findOne sid userId db
  = (Err (NotFoundException ("Subject with ID " ++ sid ++ " not found")), db).
Proof.
  intros Hf. unfold findOne, SubjectsRepository.findOneById. run.
  rewrite Hf. reflexivity.
Qed.

Lemma typed_findOne_found (db : Db) (sid value userId : string) (s : Subject)
      (scope : list string) :
  Uuid.uuid_in sid = Some value ->
  find (fun x => String.eqb (id x) value) (subjects db) = Some s ->
  UsersService.findUserCenters userId db = (Ok scope, db) ->
  UuidTyped.findOne sid userId db
  = if Js.includes scope (centerId s) then (Ok s, db)
    else (Err (ForbiddenException "Access denied to this subject"), db).
Proof.
  intros Hv Hf Hs. unfold UuidTyped.findOne, UuidTyped.findOneById. rewrite Hv. run.
  rewrite Hf, Hs. destruct (Js.includes scope (centerId s)); reflexivity.
Qed.

Lemma typed_findOne_missing (db : Db) (sid value userId : string) :
  Uuid.uuid_in sid = Some value ->
  find (fun x => String.eqb (id x) value) (subjects db) = None ->
  UuidTyped.findOne sid userId db
  = (Err (NotFoundException ("Subject with ID " ++ sid ++ " not found")), db).
Proof.
  intros Hv Hf. unfold UuidTyped.findOne, UuidTyped.findOneById. rewrite Hv. run.
  rewrite Hf. reflexivity.
Qed.

Lemma typed_findOne_malformed (db : Db) (sid userId : string) :
  Uuid.uuid_in sid = None ->
  UuidTyped.findOne sid userId db = (Err QueryFailedError, db).
Proof.
  intros Hv. unfold UuidTyped.findOne, UuidTyped.findOneById. rewrite Hv.
  reflexivity.
Qed.

(** On a canonical identifier the lookup on the uuid column is the lookup
    by text. *)
Lemma findOne_canonical (db : Db) (sid userId : string) :
  Uuid.uuid_in sid = Some sid ->
  UuidTyped.findOne sid userId db = findOne sid userId db.
Proof.
  intros Hv. unfold UuidTyped.findOne, UuidTyped.findOneById, findOne,
    SubjectsRepository.findOneById.
  rewrite Hv. reflexivity.
Qed.

(** C4 does not hold as stated.  The Subject table holds John only, so no
    Subject has the identifier [no-such-id]; [findOne] on it does not fail
    with NotFound: the text spells no uuid, the query on the uuid column is
    refused, and the call fails with the storage's error. *)
Lemma findOne_malformed_id_is_not_NotFound :
  map id (subjects Sample.db1) = [Sample.johnId]
  /\ String.eqb Sample.johnId "no-such-id" = false
  /\ UuidTyped.findOne "no-such-id" Sample.alice Sample.db1
     = (Err QueryFailedError, Sample.db1).
Proof. vm_compute. repeat split. Qed.

(** C4, amended.  [findOne(id, userId)] reads [id] as a uuid.  When the
    text spells none, the call fails with the storage's error.  When it
    spells one and no Subject has that uuid as its identifier, the call
    fails with NotFound, whatever the caller's scope is, because the lookup
    comes first; when a Subject has it and the [centerId] of that Subject
    is not among the centers [findUserCenters] gives for the caller, the
    call fails with Forbidden.  No failure writes anything. *)
Theorem findOne_uuid_not_found_then_forbidden :
  forall (db : Db) (sid userId : string),
    (Uuid.uuid_in sid = None ->
     UuidTyped.findOne sid userId db = (Err QueryFailedError, db))
    /\
    (forall value : string,
       Uuid.uuid_in sid = Some value ->
       (forall s, In s (subjects db) -> id s <> value) ->
       UuidTyped.findOne sid userId db
       = (Err (NotFoundException ("Subject with ID " ++ sid ++ " not found")), db))
    /\
    (forall (value : string) (s : Subject) (scope : list string),
       Uuid.uuid_in sid = Some value ->
       primaryKey db ->
       In s (subjects db) -> id s = value ->
       fst (UsersService.findUserCenters userId db) = Ok scope ->
       ~ In (centerId s) scope ->
       UuidTyped.findOne sid userId db
       = (Err (ForbiddenException "Access denied to this subject"), db)).
Proof.
  intros db sid userId. split; [|split].
  - apply typed_findOne_malformed.
  - intros value Hv Hnone. apply typed_findOne_missing with value; [exact Hv|].
    apply find_id_none. exact Hnone.
  - intros value s scope Hv Hpk Hin Hid Hscope Hout. subst value.
    apply findUserCenters_eq in Hscope.
    rewrite (@typed_findOne_found db sid (id s) userId s scope Hv
               (@find_id_unique _ _ Hpk Hin) Hscope).
    rewrite (@includes_not_In _ _ Hout). reflexivity.
Qed.

(** The theorem at the sample data: a text that spells no uuid; a uuid that
    no Subject has; and Bob, who has no center, asking for Kim by her
    identifier in upper case. *)
Lemma findOne_uuid_not_found_then_forbidden_witness :
  UuidTyped.findOne "no-such-id" Sample.bob Sample.db3
  = (Err QueryFailedError, Sample.db3)
  /\ UuidTyped.findOne Sample.goneId Sample.bob Sample.db3
     = (Err (NotFoundException
               "Subject with ID 00000000-0000-0000-0000-0000000000b9 not found"),
        Sample.db3)
  /\ UuidTyped.findOne Sample.kimIdUpper Sample.bob Sample.db3
     = (Err (ForbiddenException "Access denied to this subject"), Sample.db3).
Proof.
  split; [|split].
  - apply (proj1 (findOne_uuid_not_found_then_forbidden Sample.db3 "no-such-id"
                    Sample.bob)).
    reflexivity.
  - apply (proj1 (proj2 (findOne_uuid_not_found_then_forbidden Sample.db3
                           Sample.goneId Sample.bob)) Sample.goneId).
    + reflexivity.
    + intros s [<-|[<-|[]]]; discriminate.
  - apply (proj2 (proj2 (findOne_uuid_not_found_then_forbidden Sample.db3
                           Sample.kimIdUpper Sample.bob))
             Sample.kimId Sample.kim []).
    + reflexivity.
    + unfold primaryKey. simpl.
      repeat (constructor; [simpl; intuition discriminate|]). constructor.
    + right. left. reflexivity.
    + reflexivity.
    + reflexivity.
    + intros [].
Defined.

(** ** findAll *)

Lemma number_leb_total (a b : Subject) :
  String.leb (number a) (number b) = true \/ String.leb (number b) (number a) = true.
Proof. apply String.leb_total. Qed.

(** C5. [findAll(userId)] returns the empty sequence, and no failure, when
    the caller's scope is empty; in every case it returns exactly the
    Subjects whose [centerId] is in the scope, in ascending order of
    [number], and writes nothing. *)
Theorem findAll_scoped_and_ordered :
  forall (db : Db) (userId : string) (scope : list string),
    fst (UsersService.findUserCenters userId db) = Ok scope ->
    (scope = [] -> findAll userId db = (Ok [], db))
    /\ exists l : list Subject,
        findAll userId db = (Ok l, db)
        /\ Permutation l
             (filter (fun s => Js.includes scope (centerId s)) (subjects db))
        /\ (forall s, In s l <-> In s (subjects db) /\ In (centerId s) scope)
        /\ Sorted (fun a b => String.leb (number a) (number b) = true) l.
Proof.
  intros db userId scope Hscope.
  apply findUserCenters_eq in Hscope.
  unfold findAll, SubjectsRepository.findByCenters. run. rewrite Hscope.
  split.
  - intros ->. reflexivity.
  - destruct scope as [|c cs].
    + exists []. simpl. split; [reflexivity|]. split; [|split].
      * induction (subjects db) as [|x rest IH]; simpl; [constructor|exact IH].
      * intros s. split; [intros []|intros [_ []]].
      * constructor.
    + assert (Hlen : Nat.eqb (List.length (c :: cs)) 0 = false) by reflexivity.
      rewrite Hlen. eexists. split; [reflexivity|]. split; [|split].
      * apply orderBy_perm.
      * intros s. rewrite orderBy_in, filter_In, includes_In. reflexivity.
      * apply orderBy_sorted. intros a b. apply number_leb_total.
Qed.

(** ** What each write leaves behind *)

Lemma save_inv (s : Subject) (db db' : Db) (r : result Subject) :
  SubjectsRepository.save s db = (r, db') ->
  sameDirectory db db' /\ auditLogs db' = auditLogs db
  /\ ((r = Err QueryFailedError /\ subjects db' = subjects db)
      \/ (r = Ok s
          /\ subjects db'
             = if existsb (fun s' => String.eqb (id s') (id s)) (subjects db)
               then SubjectsRepository.replaceRow s (subjects db)
               else (subjects db ++ [s])%list)).
Proof.
  unfold SubjectsRepository.save, write, sameDirectory.
  destruct (faults db) as [|[|] rest]; simpl;
    repeat match goal with
           | |- context [if ?b then _ else _] => destruct b eqn:?
           end;
    intros H; inversion H; subst; simpl; auto 10.
Qed.

Lemma saveNew_inv (num nm bd cid : string) (db db' : Db) (r : result Subject) :
  SubjectsRepository.saveNew num nm bd cid db = (r, db') ->
  sameDirectory db db' /\ auditLogs db' = auditLogs db
  /\ ((r = Err QueryFailedError /\ subjects db' = subjects db)
      \/ (exists s, r = Ok s
          /\ number s = num /\ name s = nm /\ birthDate s = bd /\ centerId s = cid
          /\ subjects db' = (subjects db ++ [s])%list)).
Proof.
  unfold SubjectsRepository.saveNew, write, sameDirectory.
  destruct (faults db) as [|[|] rest]; simpl;
    repeat match goal with
           | |- context [if ?b then _ else _] => destruct b eqn:?
           end;
    intros H; inversion H; subst; simpl; eauto 12.
Qed.

Lemma createAuditLog_inv (userId sid act : string) (d : Json) (db db' : Db)
      (r : result unit) :
  createAuditLog userId sid act d db = (r, db') ->
  sameDirectory db db' /\ subjects db' = subjects db
  /\ ((r = Err QueryFailedError /\ auditLogs db' = auditLogs db)
      \/ (r = Ok tt
          /\ exists entry,
              auditLogs db' = (auditLogs db ++ [entry])%list
              /\ log_subjectId entry = Some sid /\ log_userId entry = Some userId
              /\ action entry = act /\ diff entry = Js.serialize d
              /\ timestamp entry = clock db)).
Proof.
  unfold createAuditLog, write, sameDirectory.
  destruct (faults db) as [|[|] rest]; simpl;
    repeat match goal with
           | |- context [if ?b then _ else _] => destruct b eqn:?
           end;
    intros H; inversion H; subst; simpl; eauto 15.
Qed.

Lemma find_some_id (l : list Subject) (sid : string) (s : Subject) :
  find (fun x => String.eqb (id x) sid) l = Some s ->
  In s l /\ id s = sid
  /\ existsb (fun x => String.eqb (id x) (id s)) l = true.
Proof.
  intros H. apply find_some in H. destruct H as [Hin Heq].
  apply String.eqb_eq in Heq. repeat split; try assumption.
  apply existsb_exists. exists s. split; [exact Hin|apply String.eqb_refl].
Qed.

Lemma findOne_inv (sid userId : string) (db db' : Db) (r : result Subject) :
  findOne sid userId db = (r, db') ->
  db' = db
  /\ forall s, r = Ok s ->
       find (fun x => String.eqb (id x) sid) (subjects db) = Some s
       /\ exists scope,
           UsersService.findUserCenters userId db = (Ok scope, db)
           /\ Js.includes scope (centerId s) = true.
Proof.
  unfold findOne, SubjectsRepository.findOneById. run.
  destruct (find (fun x => String.eqb (id x) sid) (subjects db)) as [s0|] eqn:Ef.
  - pose proof (findUserCenters_state userId db) as Hst.
    destruct (UsersService.findUserCenters userId db) as [[scope|e] d] eqn:Eu;
      simpl in Hst; subst d.
    + destruct (Js.includes scope (centerId s0)) eqn:Ei; simpl;
        intros H; inversion H; subst; split; try reflexivity;
          intros s Hs; inversion Hs; subst.
      split; [reflexivity|]. exists scope. split; [reflexivity|exact Ei].
    + intros H; inversion H; subst. split; [reflexivity|]. intros s Hs; discriminate.
  - intros H; inversion H; subst. split; [reflexivity|]. intros s Hs; discriminate.
Qed.

Lemma centerDiff_run (oldData : Subject) (dto : UpdateSubjectDto)
      (userId : string) (db : Db) :
  centerDiff oldData dto userId (scalarDiff oldData dto) db
  = (Ok (diffOf (centers db) oldData dto), db).
Proof.
  unfold centerDiff, diffOf, CentersService.findOne, lookupCenter.
  destruct (u_centerId dto) as [c|]; [|reflexivity].
  destruct (Js.truthy (Some c) && Js.strictNeq (Some c) (centerId oldData));
    reflexivity.
Qed.

Lemma joinedCenter_run (s : Subject) (db : Db) :
  SubjectsRepository.joinedCenter s db
  = (Ok (lookupCenter (centers db) (centerId s)), db).
Proof. reflexivity. Qed.

Lemma lookupCenter_id (cs : list Center) (cid : string) (c : Center) :
  lookupCenter cs cid = Some c -> center_id c = cid.
Proof.
  unfold lookupCenter. intros H. apply find_some in H.
  destruct H as [_ H]. apply String.eqb_eq. exact H.
Qed.

Lemma rowWritten_id (cs : list Center) (s : Subject) (dto : UpdateSubjectDto) :
  id (rowWritten cs s dto) = id s.
Proof.
  unfold rowWritten, SubjectsRepository.rowOf.
  destruct (lookupCenter cs (centerId s)); reflexivity.
Qed.

Lemma rowWritten_number (cs : list Center) (s : Subject) (dto : UpdateSubjectDto) :
  number (rowWritten cs s dto) = number (assign s dto).
Proof.
  unfold rowWritten, SubjectsRepository.rowOf.
  destruct (lookupCenter cs (centerId s)); reflexivity.
Qed.

Lemma rowWritten_name (cs : list Center) (s : Subject) (dto : UpdateSubjectDto) :
  name (rowWritten cs s dto) = name (assign s dto).
Proof.
  unfold rowWritten, SubjectsRepository.rowOf.
  destruct (lookupCenter cs (centerId s)); reflexivity.
Qed.

Lemma rowWritten_birthDate (cs : list Center) (s : Subject) (dto : UpdateSubjectDto) :
  birthDate (rowWritten cs s dto) = birthDate (assign s dto).
Proof.
  unfold rowWritten, SubjectsRepository.rowOf.
  destruct (lookupCenter cs (centerId s)); reflexivity.
Qed.

(** With its center joined, the row keeps its center whatever the payload
    names. *)
Lemma rowWritten_center_joined (cs : list Center) (s : Subject)
      (dto : UpdateSubjectDto) (c : Center) :
  lookupCenter cs (centerId s) = Some c ->
  centerId (rowWritten cs s dto) = centerId s.
Proof.
  intros H. unfold rowWritten, SubjectsRepository.rowOf. rewrite H. simpl.
  apply lookupCenter_id with cs. exact H.
Qed.

(** A payload without [centerId] writes what [Object.assign] gives. *)
Lemma rowWritten_no_center (cs : list Center) (s : Subject) (dto : UpdateSubjectDto) :
  u_centerId dto = None -> rowWritten cs s dto = assign s dto.
Proof.
  intros H. unfold rowWritten, SubjectsRepository.rowOf.
  destruct (lookupCenter cs (centerId s)) as [c|] eqn:E; [|reflexivity].
  apply lookupCenter_id in E. unfold assign. rewrite H, E. reflexivity.
Qed.

(** [update], step by step. *)
Lemma update_steps (sid userId : string) (dto : UpdateSubjectDto) (db : Db) :
  update sid dto userId db
  = let (r0, d0) := findOne sid userId db in
    match r0 with
    | Err e => (Err e, d0)
    | Ok s =>
        let (r1, d1) := SubjectsRepository.save (rowWritten (centers d0) s dto) d0 in
        match r1 with
        | Err e => (Err e, d1)
        | Ok _ =>
            if Js.truthy (u_birthDate dto)
            then (Err (ReferenceError "oldBirthDate is not defined"), d1)
            else
              let (r2, d2) := centerDiff s dto userId (scalarDiff s dto) d1 in
              match r2 with
              | Err e => (Err e, d2)
              | Ok diff =>
                  let (r3, d3) :=
                    (if Nat.ltb 0 (List.length (Js.keys diff))
                     then createAuditLog userId sid "UPDATE"
                            (JObj (Js.setField "subjectId" (JStr sid) diff))
                     else ret tt) d2 in
                  match r3 with
                  | Err e => (Err e, d3)
                  | Ok _ => (Ok (assign s dto), d3)
                  end
              end
        end
    end.
Proof.
  unfold update, birthDateDiff. unfold bind at 1.
  destruct (findOne sid userId db) as [[s|e] d0]; [|reflexivity].
  unfold bind at 1. rewrite joinedCenter_run. unfold bind at 1.
  fold (rowWritten (centers d0) s dto).
  destruct (SubjectsRepository.save (rowWritten (centers d0) s dto) d0)
    as [[u|e] d1]; [|reflexivity].
  destruct (Js.truthy (u_birthDate dto)); reflexivity.
Qed.

(** The outcomes of [update]: it fails with nothing written; or the row of
    the Subject is written and then either the birth-date block throws, or
    there is no diff, or the UPDATE entry is appended, or the audit write
    is refused and the call fails. *)
Lemma update_inv (sid userId : string) (dto : UpdateSubjectDto) (db db' : Db)
      (r : result Subject) :
  update sid dto userId db = (r, db') ->
  sameDirectory db db'
  /\ ((exists e, r = Err e /\ subjects db' = subjects db
                 /\ auditLogs db' = auditLogs db)
      \/ exists s,
          findOne sid userId db = (Ok s, db)
          /\ subjects db'
             = SubjectsRepository.replaceRow (rowWritten (centers db) s dto)
                 (subjects db)
          /\ ((r = Err (ReferenceError "oldBirthDate is not defined")
               /\ Js.truthy (u_birthDate dto) = true
               /\ auditLogs db' = auditLogs db)
              \/ (r = Ok (assign s dto) /\ Js.truthy (u_birthDate dto) = false
                  /\ diffOf (centers db) s dto = []
                  /\ auditLogs db' = auditLogs db)
              \/ (r = Ok (assign s dto) /\ Js.truthy (u_birthDate dto) = false
                  /\ diffOf (centers db) s dto <> []
                  /\ exists entry,
                      auditLogs db' = (auditLogs db ++ [entry])%list
                      /\ log_subjectId entry = Some sid
                      /\ log_userId entry = Some userId
                      /\ action entry = "UPDATE"
                      /\ diff entry
                         = Js.serialize
                             (JObj (Js.setField "subjectId" (JStr sid)
                                      (diffOf (centers db) s dto))))
              \/ (r = Err QueryFailedError /\ Js.truthy (u_birthDate dto) = false
                  /\ diffOf (centers db) s dto <> []
                  /\ auditLogs db' = auditLogs db))).
Proof.
  rewrite update_steps.
  destruct (findOne sid userId db) as [[s|e] d0] eqn:Efind;
    pose proof (findOne_inv _ _ _ Efind) as [-> Hok].
  2:{ intros H; inversion H; subst. split; [repeat split|]. left. eauto. }
  destruct (Hok s eq_refl) as [Hf _]. apply find_some_id in Hf.
  destruct Hf as [Hin [Hid Hex]].
  destruct (SubjectsRepository.save (rowWritten (centers db) s dto) db)
    as [[u|e] d1] eqn:Esave;
    pose proof (save_inv _ _ Esave) as [Hdir [Hlogs Hsave]].
  2:{ intros H; inversion H; subst.
      destruct Hsave as [[_ Hs]|[Hcontra _]]; [|discriminate].
      split; [exact Hdir|]. left. eauto. }
  destruct Hsave as [[Hcontra _]|[Hu Hs]]; [discriminate|].
  rewrite rowWritten_id, Hex in Hs.
  destruct (Js.truthy (u_birthDate dto)) eqn:Ebd.
  { intros H; inversion H; subst. split; [exact Hdir|]. right. exists s.
    split; [reflexivity|]. split; [exact Hs|]. left. auto. }
  rewrite centerDiff_run.
  assert (Hc : centers d1 = centers db) by (destruct Hdir as [_ [_ H]]; exact H).
  rewrite Hc.
  destruct (diffOf (centers db) s dto) as [|kv rest] eqn:Ediff.
  - unfold ret; simpl Nat.ltb; cbv iota. intros H; inversion H; subst.
    split; [exact Hdir|]. right. exists s.
    split; [reflexivity|]. split; [exact Hs|]. right. left. auto.
  - assert (Hlt : Nat.ltb 0 (List.length (Js.keys (kv :: rest))) = true) by reflexivity.
    rewrite Hlt.
    destruct (createAuditLog userId sid "UPDATE"
                (JObj (Js.setField "subjectId" (JStr sid) (kv :: rest))) d1)
      as [[[]|e] d2] eqn:Eaudit;
      pose proof (createAuditLog_inv _ _ _ _ _ Eaudit) as [Hdir2 [Hsub2 Haudit]];
      intros H; inversion H; subst; clear H.
    + destruct Haudit as [[Hcontra _]|[_ [entry [Ha [H1 [H2 [H3 [H4 _]]]]]]]];
        [discriminate|].
      split.
      * unfold sameDirectory in *. intuition congruence.
      * right. exists s. split; [reflexivity|].
        split; [congruence|]. right. right. left. split; [reflexivity|].
        split; [reflexivity|]. rewrite Ediff. split; [discriminate|].
        exists entry. rewrite Ha, Hlogs. tauto.
    + destruct Haudit as [[He Ha]|[Hcontra _]]; [|discriminate].
      injection He as ->.
      split.
      * unfold sameDirectory in *. intuition congruence.
      * right. exists s. split; [reflexivity|].
        split; [congruence|]. right. right. right.
        split; [reflexivity|]. split; [reflexivity|]. rewrite Ediff.
        split; [discriminate|congruence].
Qed.

(** The two writes of [create], as both listings issue them. *)
Lemma create_writes_inv (num nm bd cid userId : string) (db db' : Db)
      (r : result Subject) :
  (savedSubject <- SubjectsRepository.saveNew num nm bd cid ;;
   createAuditLog userId (id savedSubject) "CREATE" (createDiff savedSubject) ;;;
   ret savedSubject) db = (r, db') ->
  sameDirectory db db' /\ isConflict r = false
  /\ ((r = Err QueryFailedError /\ subjects db' = subjects db
       /\ auditLogs db' = auditLogs db)
      \/ exists s,
          number s = num /\ name s = nm /\ birthDate s = bd /\ centerId s = cid
          /\ subjects db' = (subjects db ++ [s])%list
          /\ ((r = Ok s
               /\ exists entry,
                   auditLogs db' = (auditLogs db ++ [entry])%list
                   /\ log_subjectId entry = Some (id s)
                   /\ log_userId entry = Some userId
                   /\ action entry = "CREATE"
                   /\ diff entry = Js.serialize (createDiff s))
              \/ (r = Err QueryFailedError /\ auditLogs db' = auditLogs db))).
Proof.
  unfold bind at 1.
  destruct (SubjectsRepository.saveNew num nm bd cid db) as [[s|e] d1] eqn:Esave;
    pose proof (saveNew_inv _ _ _ _ _ Esave) as [Hdir [Hlogs Hsave]].
  2:{ intros H; inversion H; subst.
      destruct Hsave as [[He Hs]|[s [Hcontra _]]]; [|discriminate].
      injection He as ->. split; [exact Hdir|]. split; [reflexivity|]. left. auto. }
  destruct Hsave as [[Hcontra _]|[s' [Hs' [Hn [Hnm [Hbd [Hcid Hsub]]]]]]];
    [discriminate|].
  injection Hs' as <-.
  unfold bind at 1.
  destruct (createAuditLog userId (id s) "CREATE" (createDiff s) d1)
    as [[[]|e] d2] eqn:Eaudit;
    pose proof (createAuditLog_inv _ _ _ _ _ Eaudit) as [Hdir2 [Hsub2 Haudit]];
    unfold ret; intros H; inversion H; subst r d2; clear H.
  - destruct Haudit as [[Hcontra _]|[_ [entry [Ha [H1 [H2 [H3 [H4 _]]]]]]]];
      [discriminate|].
    split; [unfold sameDirectory in *; intuition congruence|].
    split; [reflexivity|]. right. exists s.
    repeat (split; [assumption || congruence|]).
    left. split; [reflexivity|]. exists entry. rewrite Ha, Hlogs. tauto.
  - destruct Haudit as [[He Ha]|[Hcontra _]]; [|discriminate].
    injection He as ->.
    split; [unfold sameDirectory in *; intuition congruence|].
    split; [reflexivity|]. right. exists s.
    repeat (split; [assumption || congruence|]).
    right. split; [reflexivity|congruence].
Qed.

Lemma sameDirectory_refl (db : Db) : sameDirectory db db.
Proof. unfold sameDirectory. auto. Qed.

(** The outcomes of [create] (Section 1.3). *)
Lemma create_inv (dto : CreateSubjectDto) (userId : string) (db db' : Db)
      (r : result Subject) :
  create dto userId db = (r, db') ->
  sameDirectory db db' /\ isConflict r = false
  /\ ((exists e, r = Err e /\ subjects db' = subjects db
                 /\ auditLogs db' = auditLogs db)
      \/ exists s,
          number s = c_number dto /\ name s = c_name dto
          /\ birthDate s = dateColumn (c_birthDate dto)
          /\ centerId s = c_centerId dto
          /\ subjects db' = (subjects db ++ [s])%list
          /\ ((r = Ok s
               /\ exists entry,
                   auditLogs db' = (auditLogs db ++ [entry])%list
                   /\ log_subjectId entry = Some (id s)
                   /\ log_userId entry = Some userId
                   /\ action entry = "CREATE"
                   /\ diff entry = Js.serialize (createDiff s))
              \/ (r = Err QueryFailedError /\ auditLogs db' = auditLogs db))).
Proof.
  unfold create. unfold bind at 1.
  pose proof (findUserCenters_state userId db) as Hst.
  destruct (UsersService.findUserCenters userId db) as [[scope|e] d] eqn:Eu;
    simpl in Hst; subst d.
  2:{ unfold UsersService.findUserCenters in Eu.
      destruct (Js.includes (users db) userId); inversion Eu; subst.
      intros H; inversion H; subst.
      split; [apply sameDirectory_refl|]. split; [reflexivity|]. left. eauto. }
  destruct (negb (Js.includes scope (c_centerId dto))).
  - unfold throw. intros H; inversion H; subst.
    split; [apply sameDirectory_refl|]. split; [reflexivity|]. left. eauto.
  - unfold bind at 1, SubjectsRepository.findOneByNumber, query.
    intros H. apply create_writes_inv in H.
    destruct H as [Hdir [Hc H]]. split; [exact Hdir|]. split; [exact Hc|].
    destruct H as [[-> [Hs Ha]]|H]; [left; eauto|right; exact H].
Qed.


(** ** create and update are two writes, not one transaction *)

Example create_john : create Sample.johnDto Sample.alice Sample.db0
                      = (Ok Sample.john, Sample.db1).
Proof. vm_compute. reflexivity. Qed.







(** ** create and a number that is taken *)

(** C1, the code at the failing input.  Alice creates a second Subject
    with John's number in another center.  The lookup finds John and its
    result is not read: the call goes on to the INSERT, which the unique
    column refuses, so the failure is the storage's and not a Conflict; no
    run of [create] ends in a Conflict.  No Subject is added. *)
Theorem create_taken_number_is_not_conflict :
  fst (SubjectsRepository.findOneByNumber "SUB-001" Sample.db1) = Ok (Some Sample.john)
  /\ fst (create (mkCreateDto "SUB-001" "Jim Roe" "1985-06-30" Sample.centerB)
            Sample.alice Sample.db1)
     = Err QueryFailedError
  /\ subjects (snd (create (mkCreateDto "SUB-001" "Jim Roe" "1985-06-30"
                              Sample.centerB)
                      Sample.alice Sample.db1))
     = [Sample.john]
  /\ forall (db : Db) (dto : CreateSubjectDto) (userId : string),
      isConflict (fst (create dto userId db)) = false.
Proof.
  split; [vm_compute; reflexivity|].
  split; [vm_compute; reflexivity|].
  split; [vm_compute; reflexivity|].
  intros db dto userId.
  destruct (create dto userId db) as [r db'] eqn:E.
  apply create_inv in E. simpl. tauto.
Qed.

(** ** update and the fields the payload does not have *)

(** C2, the code at the failing input.  Alice updates John with
    [{ name: "John Doe" }], the stored name.  No supplied field differs, yet
    the test on [number] compares [undefined] with the stored number, so the
    diff has a [number] entry and an UPDATE entry is written.  Whenever the
    payload has no [number], the diff has one. *)
Theorem update_absent_number_enters_diff :
  scalarDiff Sample.john (mkUpdateDto None (Some "John Doe") None None)
  = [("number", JObj [("old", JStr "SUB-001"); ("new", JUndefined)])]
  /\ (let out := update Sample.johnId (mkUpdateDto None (Some "John Doe") None None)
                   Sample.alice Sample.db1 in
      fst out = Ok Sample.john
      /\ map (fun e => (action e, diff e)) (auditLogs (snd out))
         = [("CREATE", diff Sample.johnCreated);
            ("UPDATE", JObj [("number", JObj [("old", JStr "SUB-001")]);
                             ("subjectId", JStr Sample.johnId)])])
  /\ forall (oldData : Subject) (nm bd cid : option string),
      Js.getField "number" (scalarDiff oldData (mkUpdateDto None nm bd cid))
      = Some (JObj [("old", JStr (number oldData)); ("new", JUndefined)]).
Proof.
  split; [vm_compute; reflexivity|].
  split; [vm_compute; split; reflexivity|].
  intros oldData nm bd cid. unfold scalarDiff. simpl.
  destruct (Js.strictNeq nm (name oldData)); reflexivity.
Qed.

(** ** update with a name only *)

Lemma replaceRow_in (s s' : Subject) (rows : list Subject) :
  In s rows -> id s = id s' -> In s' (SubjectsRepository.replaceRow s' rows).
Proof.
  intros Hin Hid. unfold SubjectsRepository.replaceRow.
  apply in_map_iff. exists s. split; [|exact Hin].
  rewrite Hid, String.eqb_refl. reflexivity.
Qed.

Lemma replaceRow_only (s' t : Subject) (rows : list Subject) :
  In t (SubjectsRepository.replaceRow s' rows) -> id t = id s' -> t = s'.
Proof.
  unfold SubjectsRepository.replaceRow. intros Hin Hid.
  apply in_map_iff in Hin. destruct Hin as [x [Hx _]].
  destruct (String.eqb (id x) (id s')) eqn:E.
  - symmetry. exact Hx.
  - subst t. apply String.eqb_neq in E. contradiction.
Qed.

(** C9. After [update] with the payload [{ name: X }] on an existing
    Subject, however the call ends, the table still has exactly one row
    with that identifier and its [number], [birthDate] and [centerId] are
    the stored ones; when the call returns, it returns that row and its
    [name] is X. *)
Theorem update_name_only_keeps_other_fields :
  forall (db db' : Db) (sid userId X : string) (s : Subject) (r : result Subject),
    primaryKey db ->
    In s (subjects db) -> id s = sid ->
    update sid (mkUpdateDto None (Some X) None None) userId db = (r, db') ->
    exists s',
      In s' (subjects db') /\ id s' = sid
      /\ (forall t, In t (subjects db') -> id t = sid -> t = s')
      /\ number s' = number s /\ birthDate s' = birthDate s
      /\ centerId s' = centerId s
      /\ (forall u, r = Ok u -> u = s' /\ name s' = X).
Proof.
  intros db db' sid userId X s r Hpk Hin Hid Hup.
  unfold primaryKey in Hpk.
  apply update_inv in Hup. destruct Hup as [_ Hup].
  assert (Huniq : forall t, In t (subjects db) -> id t = sid -> t = s).
  { intros t Ht Hidt. subst sid.
    pose proof (@find_id_unique _ _ Hpk Hin) as F1.
    rewrite <- Hidt in F1. pose proof (@find_id_unique _ _ Hpk Ht) as F2.
    congruence. }
  destruct Hup as [[e [-> [Hs _]]]|[s0 [Hfind [Hs Hcases]]]].
  - exists s. rewrite Hs.
    split; [exact Hin|]. split; [exact Hid|]. split; [exact Huniq|].
    repeat (split; [reflexivity|]). intros u Hu; discriminate.
  - apply findOne_inv in Hfind. destruct Hfind as [_ Hfind].
    destruct (Hfind s0 eq_refl) as [Hf _].
    apply find_some_id in Hf. destruct Hf as [Hin0 [Hid0 _]].
    assert (s0 = s) by (apply Huniq; assumption). subst s0.
    set (dto := mkUpdateDto None (Some X) None None) in *.
    rewrite (@rowWritten_no_center (centers db) s dto eq_refl) in Hs.
    exists (assign s dto). rewrite Hs.
    split; [apply replaceRow_in with s; [exact Hin|reflexivity]|].
    split; [exact Hid|].
    split; [intros t Ht Hidt; apply replaceRow_only with (subjects db);
            [exact Ht|simpl; congruence]|].
    repeat (split; [reflexivity|]).
    intros u Hu. split; [|reflexivity].
    destruct Hcases as [[-> _]|[[-> _]|[[-> _]|[-> _]]]]; congruence.
Qed.

(** The theorem at Alice renaming John: the call returns, and the row keeps
    its number, birth date and center. *)
Lemma update_name_only_keeps_other_fields_witness :
  exists s',
    In s' (subjects (snd (update Sample.johnId
                            (mkUpdateDto None (Some "Jane Doe") None None)
                            Sample.alice Sample.db1)))
    /\ id s' = Sample.johnId
    /\ (forall t,
          In t (subjects (snd (update Sample.johnId
                                 (mkUpdateDto None (Some "Jane Doe") None None)
                                 Sample.alice Sample.db1))) ->
          id t = Sample.johnId -> t = s')
    /\ number s' = "SUB-001" /\ birthDate s' = "1990-01-15"
    /\ centerId s' = Sample.centerA
    /\ (forall u,
          fst (update Sample.johnId (mkUpdateDto None (Some "Jane Doe") None None)
                 Sample.alice Sample.db1) = Ok u ->
          u = s' /\ name s' = "Jane Doe").
Proof.
  apply (@update_name_only_keeps_other_fields Sample.db1 _ Sample.johnId
           Sample.alice "Jane Doe" Sample.john _).
  - unfold primaryKey. simpl. constructor; [intros []|constructor].
  - simpl. left. reflexivity.
  - reflexivity.
  - apply surjective_pairing.
Defined.

(** The [findAll] theorem at the sample data: Bob has no center and gets the
    empty sequence; Alice gets the Subjects of her centers by number. *)
Lemma findAll_scoped_and_ordered_witness :
  findAll Sample.bob Sample.db2 = (Ok [], Sample.db2)
  /\ exists l : list Subject,
      findAll Sample.alice Sample.db2 = (Ok l, Sample.db2)
      /\ Permutation l [Sample.subject10; Sample.john; Sample.subject2]
      /\ (forall s, In s l <->
                    In s (subjects Sample.db2)
                    /\ In (centerId s) [Sample.centerA; Sample.centerB; Sample.centerC])
      /\ Sorted (fun a b => String.leb (number a) (number b) = true) l.
Proof.
  split.
  - apply (proj1 (@findAll_scoped_and_ordered Sample.db2 Sample.bob [] eq_refl)).
    reflexivity.
  - exact (proj2 (@findAll_scoped_and_ordered Sample.db2 Sample.alice
                    [Sample.centerA; Sample.centerB; Sample.centerC] eq_refl)).
Defined.

Example findAll_alice :
  fst (findAll Sample.alice Sample.db2)
  = Ok [Sample.john; Sample.subject2; Sample.subject10].
Proof. vm_compute. reflexivity. Qed.

(** ** The diff of update *)










Lemma save_setCenters (s : Subject) (cs : list Center) (db : Db) :
  SubjectsRepository.save s (setCenters cs db)
  = (fst (SubjectsRepository.save s db),
     setCenters cs (snd (SubjectsRepository.save s db))).
Proof.
  destruct db as [us ucs cs0 ss ls seed clk fs].
  unfold SubjectsRepository.save, write, setCenters, setFaults, setSubjects. simpl.
  destruct fs as [|[|] rest]; simpl;
    repeat match goal with
           | |- context [if ?b then _ else _] => destruct b
           end; reflexivity.
Qed.

Lemma createAuditLog_result (userId sid act : string) (d d' : Json)
      (cs : list Center) (db : Db) :
  fst (createAuditLog userId sid act d (setCenters cs db))
  = fst (createAuditLog userId sid act d' db).
Proof.
  destruct db as [us ucs cs0 ss ls seed clk fs].
  unfold createAuditLog, write, setCenters, setFaults, setAuditLogs, bumpSeed, tick.
  simpl.
  destruct fs as [|[|] rest]; simpl;
    repeat match goal with
           | |- context [if ?b then _ else _] => destruct b
           end; reflexivity.
Qed.



Lemma findOne_loads (db : Db) (sid userId : string) (s s0 : Subject) :
  primaryKey db -> In s (subjects db) -> id s = sid ->
  findOne sid userId db = (Ok s0, db) -> s0 = s.
Proof.
  unfold primaryKey. intros Hpk Hin Hid Hfind. subst sid.
  apply findOne_inv in Hfind. destruct Hfind as [_ Hfind].
  destruct (Hfind s0 eq_refl) as [Hf _].
  rewrite (@find_id_unique _ _ Hpk Hin) in Hf. congruence.
Qed.





(** ** getAuditLogs *)

Lemma StronglySorted_weaken (A : Type) (R R' : A -> A -> Prop) (l : list A) :
  (forall a b, R a b -> R' a b) -> StronglySorted R l -> StronglySorted R' l.
Proof.
  intros Himp. induction 1 as [|a l Hs IH Hall]; constructor.
  - exact IH.
  - eapply Forall_impl; [|exact Hall]. intros b. apply Himp.
Qed.

Section GetAuditLogsFacts.
Variable compositeText : Json -> string.

Lemma find_number_none (l : list Subject) (num : string) :
  find (fun s => String.eqb (number s) num) l = None ->
  forall s, In s l -> number s <> num.
Proof.
  intros Hf s Hin Heq.
  pose proof (find_none _ _ Hf s Hin) as Hn. simpl in Hn.
  apply String.eqb_neq in Hn. contradiction.
Qed.

Lemma asText_TextOf (j : option Json) (t : string) :
  asText compositeText j = Some t
  <-> exists v, j = Some v /\ TextOf compositeText v t.
Proof.
  split.
  - destruct j as [[| |x|f]|]; simpl; try discriminate;
      intros H; injection H as <-; eexists; (split; [reflexivity|constructor]).
  - intros [v [-> H]]. destruct H; reflexivity.
Qed.

Lemma sqlEq_true (column : option string) (param : string) :
  sqlEq column param = true <-> column = Some param.
Proof.
  unfold sqlEq. destruct column as [v|].
  - rewrite String.eqb_eq. split; [intros ->; reflexivity|intros H; congruence].
  - split; discriminate.
Qed.

(** The first query finds the entries whose diff gives the number, in
    either of the two shapes. *)
Lemma mentionsNumber_iff (num : string) (e : AuditLog) :
  mentionsNumber compositeText num e = true
  <-> GivesNumber compositeText (diff e) num.
Proof.
  unfold mentionsNumber, GivesNumber, arrowText.
  rewrite orb_true_iff, !sqlEq_true, !asText_TextOf. split.
  - intros [[v [Ha Ht]]|[w [Ha Ht]]]; unfold arrow in Ha;
      destruct (diff e) as [| | |fields]; try discriminate.
    + exists fields, v. auto.
    + destruct (Js.getField "number" fields) as [[| | |halves]|] eqn:En;
        try discriminate.
      exists fields, (JObj halves). split; [reflexivity|]. split; [exact En|].
      right. exists halves, w. auto.
  - intros [fields [v [Hd [Hg [Ht|[halves [w [-> [Hn Ht]]]]]]]]];
      rewrite Hd; simpl; rewrite Hg.
    + left. exists v. auto.
    + right. exists w. auto.
Qed.

Lemma anyLogWithNumber_some (db : Db) (num : string) (e : AuditLog) :
  fst (anyLogWithNumber compositeText num db) = Ok (Some e) ->
  earliestMention compositeText db num e.
Proof.
  unfold anyLogWithNumber, query. simpl. intros H. injection H as H.
  apply orderBy_hd_least in H.
  - destruct H as [Hin Hmin]. apply filter_In in Hin. destruct Hin as [Hin Hm].
    split; [exact Hin|]. split; [apply mentionsNumber_iff; exact Hm|].
    intros e' Hin' Hm'. apply Nat.leb_le. apply Hmin.
    apply filter_In. split; [exact Hin'|apply mentionsNumber_iff; exact Hm'].
  - intros a b. destruct (Nat.leb_spec (timestamp a) (timestamp b)); [left|right].
    + reflexivity.
    + apply Nat.leb_le. lia.
  - intros a b c Hab Hbc. apply Nat.leb_le in Hab, Hbc. apply Nat.leb_le. lia.
Qed.

Lemma anyLogWithNumber_none (db : Db) (num : string) :
  fst (anyLogWithNumber compositeText num db) = Ok None ->
  forall e, In e (auditLogs db) -> ~ GivesNumber compositeText (diff e) num.
Proof.
  unfold anyLogWithNumber, query. simpl. intros H. injection H as H.
  apply orderBy_hd_none in H. intros e Hin Hg.
  apply mentionsNumber_iff in Hg.
  assert (Hf : In e (filter (mentionsNumber compositeText num) (auditLogs db))).
  { apply filter_In. split; assumption. }
  rewrite H in Hf. contradiction.
Qed.

(** The identifier the listing has when it reaches the query follows the
    paths of [Resolves]; nothing is written on the way. *)
Lemma resolveSubjectId_spec (db : Db) (input : string) :
  exists r, resolveSubjectId compositeText input db = (Ok r, db)
            /\ Resolves compositeText db input r.
Proof.
  unfold resolveSubjectId.
  destruct (isUUID input) eqn:Eu.
  - exists (Some input). split; [reflexivity|]. constructor. exact Eu.
  - unfold bind at 1, SubjectsRepository.findOneByNumber, query.
    destruct (find (fun s => String.eqb (number s) input) (subjects db)) as [s|] eqn:Ef.
    + exists (Some (id s)). split; [reflexivity|].
      apply find_some in Ef. destruct Ef as [Hin Heq]. apply String.eqb_eq in Heq.
      apply ResolvesLive; assumption.
    + pose proof (@find_number_none _ _ Ef) as Hnone.
      unfold bind.
      destruct (anyLogWithNumber compositeText input db) as [ra da] eqn:Ea.
      assert (Hda : da = db) by (unfold anyLogWithNumber, query in Ea; congruence).
      subst da.
      assert (Hfst : fst (anyLogWithNumber compositeText input db) = ra)
        by (rewrite Ea; reflexivity).
      destruct ra as [[e|]|err].
      * apply anyLogWithNumber_some in Hfst.
        destruct (Js.truthy (log_subjectId e)) eqn:Et.
        -- destruct (log_subjectId e) as [sid|] eqn:Es; [|discriminate].
           exists (Some sid). split; [reflexivity|].
           eapply ResolvesHistory; eauto.
           intros ->. discriminate.
        -- exists None. split; [reflexivity|].
           eapply ResolvesOrphan; eauto.
           destruct (log_subjectId e) as [[|c rest]|]; auto. discriminate.
      * exists None. split; [reflexivity|].
        apply ResolvesNothing; try assumption.
        apply anyLogWithNumber_none. exact Hfst.
      * unfold anyLogWithNumber, query in Ea. discriminate.
Qed.

(** The second query on the uuid column finds the entries that reference
    the subject. *)
Lemma references_iff (value text : string) (e : AuditLog) :
  UuidTyped.references compositeText value text e = true
  <-> RefersTo compositeText value text e.
Proof.
  unfold UuidTyped.references, RefersTo, DiffNames, arrowText.
  rewrite orb_true_iff, !sqlEq_true, asText_TextOf. split.
  - intros [H|[v [Ha Ht]]]; [left; exact H|right].
    unfold arrow in Ha. destruct (diff e) as [| | |fields]; try discriminate.
    exists fields, v. auto.
  - intros [H|[fields [v [Hd [Hg Ht]]]]]; [left; exact H|right].
    rewrite Hd. exists v. auto.
Qed.

Lemma typed_logsOfSubject_spec (shared : bool) (db : Db) (sid value : string) :
  Uuid.uuid_in sid = Some value ->
  exists l, UuidTyped.logsOfSubject compositeText shared sid db = (Ok l, db)
            /\ Permutation l
                 (filter (UuidTyped.references compositeText value
                            (UuidTyped.boundText shared value sid))
                         (auditLogs db))
            /\ (forall e, In e l <->
                          In e (auditLogs db)
                          /\ RefersTo compositeText value
                               (if shared then value else sid) e)
            /\ (NoDup (auditLogs db) -> NoDup l)
            /\ newestFirst l.
Proof.
  intros Hv. unfold UuidTyped.logsOfSubject. rewrite Hv. unfold query.
  eexists. split; [reflexivity|]. split; [apply orderBy_perm|]. split; [|split].
  - intros e. rewrite orderBy_in, filter_In, references_iff. reflexivity.
  - intros Hnd. eapply Permutation_NoDup.
    + apply Permutation_sym. apply orderBy_perm.
    + apply NoDup_filter. exact Hnd.
  - unfold newestFirst.
    apply StronglySorted_weaken
      with (R := fun a b => Nat.leb (timestamp b) (timestamp a) = true).
    + intros a b H. apply Nat.leb_le. exact H.
    + apply orderBy_strongly_sorted.
      * intros a b. destruct (Nat.leb_spec (timestamp b) (timestamp a)); [left|right].
        -- reflexivity.
        -- apply Nat.leb_le. lia.
      * intros a b c Hab Hbc. apply Nat.leb_le in Hab, Hbc. apply Nat.leb_le. lia.
Qed.

Lemma logsOfSubject_spec (db : Db) (sid : string) :
  exists l, logsOfSubject compositeText sid db = (Ok l, db)
            /\ Permutation l (filter (references compositeText sid) (auditLogs db))
            /\ newestFirst l.
Proof.
  unfold logsOfSubject, query. eexists. split; [reflexivity|]. split.
  - apply orderBy_perm.
  - unfold newestFirst.
    apply StronglySorted_weaken
      with (R := fun a b => Nat.leb (timestamp b) (timestamp a) = true).
    + intros a b H. apply Nat.leb_le. exact H.
    + apply orderBy_strongly_sorted.
      * intros a b. destruct (Nat.leb_spec (timestamp b) (timestamp a)); [left|right].
        -- reflexivity.
        -- apply Nat.leb_le. lia.
      * intros a b c Hab Hbc. apply Nat.leb_le in Hab, Hbc. apply Nat.leb_le. lia.
Qed.

End GetAuditLogsFacts.

Lemma getAuditLogs_steps (compositeText : Json -> string)
      (accessControl : list string -> option string -> list AuditLog -> M unit)
      (db : Db) (input userId : string) (scope : list string)
      (r : option string) (l : list AuditLog) :
  resolveSubjectId compositeText input db = (Ok r, db) ->
  match r with
  | Some sid => if Js.truthy (Some sid) then logsOfSubject compositeText sid
                else ret []
  | None => ret []
  end db = (Ok l, db) ->
  UsersService.findUserCenters userId db = (Ok scope, db) ->
  getAuditLogs compositeText accessControl input userId db
  = match accessControl scope r l db with
    | (Ok _, db') => (Ok l, db')
    | (Err e, db') => (Err e, db')
    end.
Proof.
  intros Hr Hl Hs. unfold getAuditLogs. unfold bind at 1. rewrite Hr.
  unfold bind at 1. rewrite Hl. unfold bind at 1. rewrite Hs.
  unfold bind, ret. reflexivity.
Qed.

Lemma typed_getAuditLogs_steps (compositeText : Json -> string)
      (accessControl : list string -> option string -> list AuditLog -> M unit)
      (shared : bool) (db : Db) (input userId : string) (scope : list string)
      (r : option string) (l : list AuditLog) :
  resolveSubjectId compositeText input db = (Ok r, db) ->
  match r with
  | Some sid => if Js.truthy (Some sid)
                then UuidTyped.logsOfSubject compositeText shared sid
                else ret []
  | None => ret []
  end db = (Ok l, db) ->
  UsersService.findUserCenters userId db = (Ok scope, db) ->
  UuidTyped.getAuditLogs compositeText accessControl shared input userId db
  = match accessControl scope r l db with
    | (Ok _, db') => (Ok l, db')
    | (Err e, db') => (Err e, db')
    end.
Proof.
  intros Hr Hl Hs. unfold UuidTyped.getAuditLogs. unfold bind at 1. rewrite Hr.
  unfold bind at 1. rewrite Hl. unfold bind at 1. rewrite Hs.
  unfold bind, ret. reflexivity.
Qed.

(** In a state that the uuid columns type, every identifier that is
    resolved is one that the second query reads. *)
Lemma resolved_is_uuid (compositeText : Json -> string) (db : Db)
      (input sid : string) :
  uuidColumns db ->
  Resolves compositeText db input (Some sid) ->
  exists value, Uuid.uuid_in sid = Some value.
Proof.
  intros [Hsub Hlog] Hres.
  remember (Some sid) as r eqn:Er.
  destruct Hres as [Hu|s Hu Hin Hnum|e sid' Hu Hnone [Hin _] Hsid Hne|e Hu Hnone He Ho
                   |Hu Hnone Hno]; try discriminate.
  - injection Er as <-. apply isUUID_uuid_in. exact Hu.
  - injection Er as <-. exists (id s). apply Hsub. exact Hin.
  - injection Er as <-. exists sid'. apply (Hlog e); assumption.
Qed.

(** On a canonical identifier the second query on the uuid column is the
    query by text, and so is the whole of [getAuditLogs] in a state that
    the uuid columns type. *)
Lemma logsOfSubject_canonical (compositeText : Json -> string) (shared : bool)
      (sid : string) (db : Db) :
  Uuid.uuid_in sid = Some sid ->
  UuidTyped.logsOfSubject compositeText shared sid db
  = logsOfSubject compositeText sid db.
Proof.
  intros Hv. unfold UuidTyped.logsOfSubject, logsOfSubject. rewrite Hv.
  unfold UuidTyped.boundText, UuidTyped.references, references.
  destruct shared; reflexivity.
Qed.

Lemma getAuditLogs_canonical (compositeText : Json -> string)
      (accessControl : list string -> option string -> list AuditLog -> M unit)
      (shared : bool) (db : Db) (input userId : string) :
  uuidColumns db ->
  (isUUID input = true -> Uuid.uuid_in input = Some input) ->
  UuidTyped.getAuditLogs compositeText accessControl shared input userId db
  = getAuditLogs compositeText accessControl input userId db.
Proof.
  intros [Hsub Hlog] Hin. unfold UuidTyped.getAuditLogs, getAuditLogs.
  destruct (resolveSubjectId_spec compositeText db input) as [r [Hr Hres]].
  unfold bind. rewrite Hr.
  destruct r as [[|ch rest]|]; try reflexivity.
  assert (Hv : Uuid.uuid_in (String ch rest) = Some (String ch rest)).
  { remember (Some (String ch rest)) as r eqn:Er.
    destruct Hres as [Hu|s Hu Hs Hnum|e sid' Hu Hnone [He _] Hsid Hne|e Hu Hnone He Ho
                     |Hu Hnone Hno]; try discriminate.
    - injection Er as ->. apply Hin. exact Hu.
    - injection Er as <-. apply Hsub. exact Hs.
    - injection Er as <-. apply (Hlog e); assumption. }
  change (Js.truthy (Some (String ch rest))) with true. cbv iota.
  rewrite (logsOfSubject_canonical compositeText shared db Hv).
  reflexivity.
Qed.

(** C7. [getAuditLogs] resolves the subject identifier by the paths of
    [Resolves]: a UUID-shaped input is the identifier; else the identifier
    of a live Subject with that number; else the subject reference of an
    earliest audit entry whose diff gives that number, as the text of
    [number] or of the [new] half of [number]; else nothing.  With nothing
    resolved the entries found are the empty sequence.  With an identifier
    they are exactly the entries that reference it: those whose subject
    column holds that uuid, and those whose diff has it as the text of
    [subjectId]; they come newest first.  That sequence is what the call
    returns once the elided access-control block has let it through; if the
    block throws, the call throws the same.  All of it holds whichever way
    the parameter of the second query is bound. *)
Theorem getAuditLogs_resolution_and_history :
  forall (compositeText : Json -> string)
         (accessControl : list string -> option string -> list AuditLog -> M unit)
         (shared : bool)
         (db : Db) (input userId : string) (scope : list string),
    uuidColumns db ->
    fst (UsersService.findUserCenters userId db) = Ok scope ->
    exists (r : option string) (l : list AuditLog),
      Resolves compositeText db input r
      /\ (r = None \/ r = Some "" -> l = [])
      /\ (forall sid, r = Some sid -> sid <> "" ->
            exists value,
              Uuid.uuid_in sid = Some value
              /\ (forall e, In e l <->
                            In e (auditLogs db)
                            /\ RefersTo compositeText value
                                 (if shared then value else sid) e)
              /\ (NoDup (auditLogs db) -> NoDup l)
              /\ newestFirst l)
      /\ (forall db', accessControl scope r l db = (Ok tt, db') ->
            UuidTyped.getAuditLogs compositeText accessControl shared input userId db
            = (Ok l, db'))
      /\ (forall e db', accessControl scope r l db = (Err e, db') ->
            UuidTyped.getAuditLogs compositeText accessControl shared input userId db
            = (Err e, db')).
Proof.
  intros compositeText accessControl shared db input userId scope Htyped Hscope.
  apply findUserCenters_eq in Hscope.
  destruct (resolveSubjectId_spec compositeText db input) as [r [Hr Hres]].
  assert (Hl : exists l,
             match r with
             | Some sid => if Js.truthy (Some sid)
                           then UuidTyped.logsOfSubject compositeText shared sid
                           else ret []
             | None => ret []
             end db = (Ok l, db)
             /\ (r = None \/ r = Some "" -> l = [])
             /\ (forall sid, r = Some sid -> sid <> "" ->
                   exists value,
                     Uuid.uuid_in sid = Some value
                     /\ (forall e, In e l <->
                                   In e (auditLogs db)
                                   /\ RefersTo compositeText value
                                        (if shared then value else sid) e)
                     /\ (NoDup (auditLogs db) -> NoDup l)
                     /\ newestFirst l)).
  { destruct r as [sid|].
    - destruct sid as [|ch rest].
      + exists []. split; [reflexivity|]. split; [reflexivity|].
        intros sid Hs Hne. injection Hs as <-. congruence.
      + destruct (@resolved_is_uuid compositeText db input (String ch rest)
                    Htyped Hres) as [value Hv].
        destruct (@typed_logsOfSubject_spec compositeText shared db (String ch rest)
                    value Hv) as [l [Hq [_ [Hi [Hnd Hn]]]]].
        exists l. split; [exact Hq|]. split.
        * intros [H|H]; discriminate.
        * intros sid Hs _. injection Hs as <-. exists value. auto.
    - exists []. split; [reflexivity|]. split; [reflexivity|].
      intros sid Hs. discriminate. }
  destruct Hl as [l [Hq [Hempty Hfull]]].
  exists r, l. split; [exact Hres|]. split; [exact Hempty|]. split; [exact Hfull|].
  pose proof (typed_getAuditLogs_steps compositeText accessControl shared input userId
                Hr Hq Hscope) as Hsteps.
  split.
  - intros db' Hac. rewrite Hsteps, Hac. reflexivity.
  - intros e db' Hac. rewrite Hsteps, Hac. reflexivity.
Qed.

Lemma sample_db3_uuidColumns : uuidColumns Sample.db3.
Proof.
  split.
  - intros s [<-|[<-|[]]]; reflexivity.
  - intros e sid [<-|[<-|[<-|[<-|[]]]]] H; simpl in H;
      try discriminate; injection H as <-; reflexivity.
Qed.

(** The theorem at Alice asking for the history of SUB-007, the number Kim
    was created with and no live Subject has. *)
Lemma getAuditLogs_resolution_and_history_witness :
  exists (r : option string) (l : list AuditLog),
    Resolves Sample.noText Sample.db3 "SUB-007" r
    /\ (r = None \/ r = Some "" -> l = [])
    /\ (forall sid, r = Some sid -> sid <> "" ->
          exists value,
            Uuid.uuid_in sid = Some value
            /\ (forall e, In e l <->
                          In e (auditLogs Sample.db3)
                          /\ RefersTo Sample.noText value
                               (if true then value else sid) e)
            /\ (NoDup (auditLogs Sample.db3) -> NoDup l)
            /\ newestFirst l)
    /\ (forall db',
          Sample.letThrough
            [Sample.centerA; Sample.centerB; Sample.centerC] r l Sample.db3
          = (Ok tt, db') ->
          UuidTyped.getAuditLogs Sample.noText Sample.letThrough true "SUB-007"
            Sample.alice Sample.db3
          = (Ok l, db'))
    /\ (forall e db',
          Sample.letThrough
            [Sample.centerA; Sample.centerB; Sample.centerC] r l Sample.db3
          = (Err e, db') ->
          UuidTyped.getAuditLogs Sample.noText Sample.letThrough true "SUB-007"
            Sample.alice Sample.db3
          = (Err e, db')).
Proof.
  apply (@getAuditLogs_resolution_and_history Sample.noText Sample.letThrough true
           Sample.db3 "SUB-007" Sample.alice
           [Sample.centerA; Sample.centerB; Sample.centerC]).
  - exact sample_db3_uuidColumns.
  - reflexivity.
Defined.

(** Kim's history by her former number and by her identifier in upper
    case; the entry of the Subject that is gone, by its identifier; and a
    number nothing gives.  An identifier in upper case finds the entry that
    names the Subject only in its diff when the two occurrences of the
    parameter are one. *)
Example getAuditLogs_kim :
  (forall shared,
      fst (UuidTyped.getAuditLogs Sample.noText Sample.letThrough shared "SUB-007"
             Sample.alice Sample.db3)
      = Ok [Sample.kimRenumbered; Sample.kimCreated]
      /\ fst (UuidTyped.getAuditLogs Sample.noText Sample.letThrough shared
                Sample.kimIdUpper Sample.alice Sample.db3)
         = Ok [Sample.kimRenumbered; Sample.kimCreated]
      /\ fst (UuidTyped.getAuditLogs Sample.noText Sample.letThrough shared
                Sample.goneId Sample.alice Sample.db3)
         = Ok [Sample.goneRenamed]
      /\ fst (UuidTyped.getAuditLogs Sample.noText Sample.letThrough shared "SUB-404"
                Sample.alice Sample.db3)
         = Ok [])
  /\ fst (UuidTyped.getAuditLogs Sample.noText Sample.letThrough true
            "00000000-0000-0000-0000-0000000000B9" Sample.alice Sample.db3)
     = Ok [Sample.goneRenamed]
  /\ fst (UuidTyped.getAuditLogs Sample.noText Sample.letThrough false
            "00000000-0000-0000-0000-0000000000B9" Sample.alice Sample.db3)
     = Ok [].
Proof.
  split; [intros []; vm_compute; repeat split|vm_compute; split; reflexivity].
Qed.

(** With the access-control block of the spec in the elided place, an input
    that resolves to nothing gives the empty sequence and no failure. *)
Lemma getAuditLogs_unresolved_is_empty (compositeText : Json -> string)
      (historicalCenter : list AuditLog -> option string)
      (db : Db) (input userId : string) (scope : list string) :
  fst (UsersService.findUserCenters userId db) = Ok scope ->
  fst (resolveSubjectId compositeText input db) = Ok None ->
  getAuditLogs compositeText (scopedAccessControl historicalCenter) input userId db
  = (Ok [], db).
Proof.
  intros Hscope Hres. apply findUserCenters_eq in Hscope.
  destruct (resolveSubjectId_spec compositeText db input) as [r [Hr _]].
  rewrite Hr in Hres. simpl in Hres. injection Hres as ->.
  rewrite (@getAuditLogs_steps compositeText (scopedAccessControl historicalCenter)
             db input userId scope None [] Hr eq_refl Hscope).
  reflexivity.
Qed.

(** ** getAuditLogs and the caller's scope *)



(** ** getAuditLogs and a UUID-shaped input *)

Lemma findUserCenters_setSubjects (userId : string) (ss : list Subject) (db : Db) :
  UsersService.findUserCenters userId (setSubjects ss db)
  = (fst (UsersService.findUserCenters userId db), setSubjects ss db).
Proof.
  destruct db as [us ucs cs0 ss0 ls seed clk fs].
  unfold UsersService.findUserCenters, setSubjects. simpl.
  destruct (Js.includes us userId); reflexivity.
Qed.

Lemma typed_logsOfSubject_setSubjects (compositeText : Json -> string)
      (shared : bool) (sid : string) (ss : list Subject) (db : Db) :
  UuidTyped.logsOfSubject compositeText shared sid (setSubjects ss db)
  = (fst (UuidTyped.logsOfSubject compositeText shared sid db), setSubjects ss db).
Proof.
  unfold UuidTyped.logsOfSubject.
  destruct (Uuid.uuid_in sid); destruct db; reflexivity.
Qed.

(** C10 does not hold as stated.  The number of [twin] is UUID-shaped and
    is not the text of its identifier, and [getAuditLogs] on that number
    returns the history of that Subject: the number spells the uuid that
    identifies the Subject, in upper case, and the subject column is
    compared by value. *)
Lemma uuid_shaped_number_resolves_own_history :
  isUUID (number Sample.twin) = true
  /\ String.eqb (number Sample.twin) (id Sample.twin) = false
  /\ log_subjectId Sample.twinCreated = Some (id Sample.twin)
  /\ fst (UuidTyped.getAuditLogs Sample.noText Sample.letThrough true
            (number Sample.twin) Sample.alice Sample.db5)
     = Ok [Sample.twinCreated]
  /\ fst (UuidTyped.getAuditLogs Sample.noText Sample.letThrough false
            (number Sample.twin) Sample.alice Sample.db5)
     = Ok [Sample.twinCreated].
Proof. vm_compute. repeat split. Qed.

(** C10, amended.  A UUID-shaped input is the subject identifier as it
    stands: no lookup by number is made, and the identifier resolved and the
    entries returned are the same whatever the Subject table holds.  The
    entries returned are those that reference the uuid which the input
    spells, in the subject column, or that have it as [subjectId] in
    their diff.  So for a Subject whose number is that input, an entry that
    references the Subject by its identifier is returned exactly when the
    number spells that identifier or the diff of the entry names the
    subject asked for. *)
Theorem getAuditLogs_uuid_input_is_the_identifier :
  forall (compositeText : Json -> string)
         (accessControl : list string -> option string -> list AuditLog -> M unit)
         (shared : bool)
         (db : Db) (input userId : string) (scope : list string),
    isUUID input = true ->
    fst (UsersService.findUserCenters userId db) = Ok scope ->
    (forall ss, resolveSubjectId compositeText input (setSubjects ss db)
                = (Ok (Some input), setSubjects ss db))
    /\ exists (value : string) (l : list AuditLog),
        Uuid.uuid_in input = Some value
        /\ (forall e, In e l <->
                      In e (auditLogs db)
                      /\ RefersTo compositeText value
                           (if shared then value else input) e)
        /\ (NoDup (auditLogs db) -> NoDup l)
        /\ newestFirst l
        /\ (forall ss db',
              accessControl scope (Some input) l (setSubjects ss db) = (Ok tt, db') ->
              UuidTyped.getAuditLogs compositeText accessControl shared input userId
                (setSubjects ss db) = (Ok l, db'))
        /\ (forall s e,
              In s (subjects db) -> number s = input ->
              In e (auditLogs db) -> log_subjectId e = Some (id s) ->
              (In e l <->
               id s = value
               \/ DiffNames compositeText (if shared then value else input) e)).
Proof.
  intros compositeText accessControl shared db input userId scope Hu Hscope.
  assert (Hres : forall d, resolveSubjectId compositeText input d = (Ok (Some input), d)).
  { intros d. unfold resolveSubjectId. rewrite Hu. reflexivity. }
  split; [intros ss; apply Hres|].
  destruct (isUUID_uuid_in _ Hu) as [value Hv].
  destruct (@typed_logsOfSubject_spec compositeText shared db input value Hv)
    as [l [Hq [_ [Hi [Hnd Hn]]]]].
  exists value, l. split; [exact Hv|]. split; [exact Hi|]. split; [exact Hnd|].
  split; [exact Hn|]. split.
  - intros ss db' Hac.
    assert (Hq' : match Some input with
                  | Some sid0 => if Js.truthy (Some sid0)
                                 then UuidTyped.logsOfSubject compositeText shared sid0
                                 else ret []
                  | None => ret []
                  end (setSubjects ss db) = (Ok l, setSubjects ss db)).
    { destruct input; [discriminate Hu|].
      simpl. rewrite typed_logsOfSubject_setSubjects, Hq. reflexivity. }
    assert (Hs : UsersService.findUserCenters userId (setSubjects ss db)
                 = (Ok scope, setSubjects ss db)).
    { rewrite findUserCenters_setSubjects, Hscope. reflexivity. }
    rewrite (typed_getAuditLogs_steps compositeText accessControl shared input userId
               (Hres (setSubjects ss db)) Hq' Hs).
    rewrite Hac. reflexivity.
  - intros s e Hin Hnum Hel Hcol. rewrite Hi. unfold RefersTo. rewrite Hcol. split.
    + intros [_ [H|H]]; [left; congruence|right; exact H].
    + intros [H|H]; (split; [exact Hel|]); [left; congruence|right; exact H].
Qed.

(** The theorem at Alice asking for the history of the Subject whose
    number is its identifier in upper case, by that number. *)
Lemma getAuditLogs_uuid_input_is_the_identifier_witness :
  (forall ss, resolveSubjectId Sample.noText Sample.twinNumber
                (setSubjects ss Sample.db5)
              = (Ok (Some Sample.twinNumber), setSubjects ss Sample.db5))
  /\ exists (value : string) (l : list AuditLog),
      Uuid.uuid_in Sample.twinNumber = Some value
      /\ (forall e, In e l <->
                    In e (auditLogs Sample.db5)
                    /\ RefersTo Sample.noText value
                         (if true then value else Sample.twinNumber) e)
      /\ (NoDup (auditLogs Sample.db5) -> NoDup l)
      /\ newestFirst l
      /\ (forall ss db',
            Sample.letThrough [Sample.centerA; Sample.centerB; Sample.centerC]
              (Some Sample.twinNumber) l (setSubjects ss Sample.db5) = (Ok tt, db') ->
            UuidTyped.getAuditLogs Sample.noText Sample.letThrough true
              Sample.twinNumber Sample.alice (setSubjects ss Sample.db5)
            = (Ok l, db'))
      /\ (forall s e,
            In s (subjects Sample.db5) -> number s = Sample.twinNumber ->
            In e (auditLogs Sample.db5) -> log_subjectId e = Some (id s) ->
            (In e l <->
             id s = value
             \/ DiffNames Sample.noText
                  (if true then value else Sample.twinNumber) e)).
Proof.
  apply (@getAuditLogs_uuid_input_is_the_identifier Sample.noText Sample.letThrough
           true Sample.db5 Sample.twinNumber Sample.alice
           [Sample.centerA; Sample.centerB; Sample.centerC]).
  - reflexivity.
  - reflexivity.
Defined.

(** The Subject whose UUID-shaped number spells another uuid than its
    identifier: its number finds nothing, its identifier finds its entry. *)
Example getAuditLogs_uuid_shaped_number :
  forall shared,
    fst (UuidTyped.getAuditLogs Sample.noText Sample.letThrough shared
           Sample.uuidNumber Sample.alice Sample.db5) = Ok []
    /\ fst (UuidTyped.getAuditLogs Sample.noText Sample.letThrough shared
              (id Sample.odd) Sample.alice Sample.db5) = Ok [Sample.oddCreated].
Proof. intros []; vm_compute; split; reflexivity. Qed.

(** * Further properties of the backend service *)

(** ** create *)

Lemma existsb_false_all (A : Type) (f : A -> bool) (l : list A) :
  existsb f l = false -> forall x, In x l -> f x = false.
Proof.
  intros H x Hin. destruct (f x) eqn:E; [|reflexivity].
  assert (existsb f l = true) by (apply existsb_exists; exists x; auto).
  congruence.
Qed.

Lemma append_dash_not_empty (a b : string) : (a ++ ("-" ++ b)) <> "".
Proof. destruct a; simpl; discriminate. Qed.

Lemma uuidOfNat_not_empty (n : nat) : uuidOfNat n <> "".
Proof. unfold uuidOfNat. cbv zeta. apply append_dash_not_empty. Qed.

Lemma findUserCenters_directory (userId : string) (db db' : Db) :
  sameDirectory db db' ->
  fst (UsersService.findUserCenters userId db')
  = fst (UsersService.findUserCenters userId db).
Proof.
  intros [Hu [Huc _]]. unfold UsersService.findUserCenters. rewrite Hu, Huc.
  destruct (Js.includes (users db) userId); reflexivity.
Qed.

Lemma findUserCenters_after (userId : string) (db db' : Db) (scope : list string) :
  sameDirectory db db' ->
  UsersService.findUserCenters userId db = (Ok scope, db) ->
  UsersService.findUserCenters userId db' = (Ok scope, db').
Proof.
  intros Hdir H. apply findUserCenters_eq.
  rewrite (findUserCenters_directory userId Hdir), H. reflexivity.
Qed.

(** What a returning [saveNew] has checked and done. *)
Lemma saveNew_ok (num nm bd cid : string) (db db' : Db) (s : Subject) :
  SubjectsRepository.saveNew num nm bd cid db = (Ok s, db') ->
  id s <> "" /\ number s = num /\ name s = nm /\ birthDate s = bd
  /\ centerId s = cid
  /\ (forall t, In t (subjects db) -> id t <> id s /\ number t <> num)
  /\ subjects db' = (subjects db ++ [s])%list.
Proof.
  destruct db as [us ucs cs ss ls seed clk fs].
  unfold SubjectsRepository.saveNew, write, setFaults, bumpSeed, setSubjects.
  simpl.
  destruct fs as [|[|] rest]; simpl; try discriminate;
    destruct (existsb (fun s' => String.eqb (id s') (uuidOfNat seed)) ss
              || existsb (fun s' => String.eqb (number s') num) ss) eqn:E;
    intros H; try discriminate; injection H as <- <-; simpl;
    apply orb_false_elim in E; destruct E as [E1 E2];
    (split; [apply uuidOfNat_not_empty|]);
    repeat (split; [reflexivity|]);
    (split; [|reflexivity]);
    intros t Ht; split; apply String.eqb_neq;
    [apply (existsb_false_all _ _ E1 t Ht)|apply (existsb_false_all _ _ E2 t Ht)
    |apply (existsb_false_all _ _ E1 t Ht)|apply (existsb_false_all _ _ E2 t Ht)].
Qed.

(** What a returning [create] has checked and done. *)
Lemma create_ok (dto : CreateSubjectDto) (userId : string) (db db' : Db)
      (s : Subject) :
  create dto userId db = (Ok s, db') ->
  sameDirectory db db'
  /\ (exists scope, UsersService.findUserCenters userId db = (Ok scope, db)
                    /\ In (c_centerId dto) scope)
  /\ id s <> "" /\ number s = c_number dto /\ name s = c_name dto
  /\ birthDate s = dateColumn (c_birthDate dto)
  /\ centerId s = c_centerId dto
  /\ (forall t, In t (subjects db) -> id t <> id s /\ number t <> c_number dto)
  /\ subjects db' = (subjects db ++ [s])%list
  /\ exists entry,
      auditLogs db' = (auditLogs db ++ [entry])%list
      /\ log_subjectId entry = Some (id s) /\ action entry = "CREATE".
Proof.
  intros Hc. pose proof (create_inv _ _ _ Hc) as [Hdir [_ Hinv]].
  split; [exact Hdir|].
  unfold create in Hc. unfold bind at 1 in Hc.
  pose proof (findUserCenters_state userId db) as Hst.
  destruct (UsersService.findUserCenters userId db) as [[scope|e] d] eqn:Eu;
    simpl in Hst; subst d; [|discriminate].
  destruct (Js.includes scope (c_centerId dto)) eqn:Ei; simpl in Hc; [|discriminate].
  split; [exists scope; split; [reflexivity|apply includes_In; exact Ei]|].
  unfold bind at 1, SubjectsRepository.findOneByNumber, query in Hc.
  unfold bind at 1 in Hc.
  destruct (SubjectsRepository.saveNew (c_number dto) (c_name dto)
              (dateColumn (c_birthDate dto)) (c_centerId dto) db)
    as [[s0|e] d1] eqn:Esave; [|discriminate].
  assert (s0 = s).
  { unfold bind, ret in Hc.
    destruct (createAuditLog userId (id s0) "CREATE" (createDiff s0) d1)
      as [[[]|e] d2]; congruence. }
  subst s0. apply saveNew_ok in Esave.
  destruct Esave as [H1 [H2 [H3 [H4 [H5 [H6 H7]]]]]].
  repeat (split; [assumption|]).
  destruct Hinv as [[e [He _]]|[s1 [_ [_ [_ [_ [Hs1 [[Hr [entry Hentry]]|[He _]]]]]]]]];
    try discriminate.
  injection Hr as <-. split.
  - exact Hs1.
  - exists entry. tauto.
Qed.

(** X1. [create] for a center that is not among the caller's centers fails
    with Forbidden before anything is looked up or written. *)
Theorem create_outside_scope_forbidden :
  forall (db : Db) (dto : CreateSubjectDto) (userId : string)
         (scope : list string),
    fst (UsersService.findUserCenters userId db) = Ok scope ->
    ~ In (c_centerId dto) scope ->
    create dto userId db = (Err (ForbiddenException "Access denied"), db).
Proof.
  intros db dto userId scope Hscope Hout. apply findUserCenters_eq in Hscope.
  unfold create. unfold bind at 1. rewrite Hscope.
  rewrite (@includes_not_In _ _ Hout). reflexivity.
Qed.

Lemma create_outside_scope_forbidden_witness :
  create (mkCreateDto "SUB-900" "Out Sider" "1990-01-01" Sample.centerA)
    Sample.bob Sample.db1
  = (Err (ForbiddenException "Access denied"), Sample.db1).
Proof.
  apply (@create_outside_scope_forbidden Sample.db1 _ Sample.bob []).
  - reflexivity.
  - intros [].
Defined.

Lemma find_app_fresh (rows : list Subject) (s : Subject) :
  (forall t, In t rows -> id t <> id s) ->
  find (fun x => String.eqb (id x) (id s)) (rows ++ [s])%list = Some s.
Proof.
  induction rows as [|x rest IH]; intros Hfresh; simpl.
  - rewrite String.eqb_refl. reflexivity.
  - destruct (String.eqb (id x) (id s)) eqn:E.
    + apply String.eqb_eq in E. exfalso. apply (Hfresh x); [left; reflexivity|exact E].
    + apply IH. intros t Ht. apply Hfresh. right. exact Ht.
Qed.

(** X2. A Subject that [create] returns can be read back: [findOne] with
    the returned identifier, by the same caller, returns the Subject stored
    under that identifier, which has the number, the name and the center of
    the payload. *)
Theorem create_then_findOne :
  forall (db db' : Db) (dto : CreateSubjectDto) (userId : string) (s : Subject),
    create dto userId db = (Ok s, db') ->
    exists row,
      findOne (id s) userId db' = (Ok row, db')
      /\ id row = id s
      /\ number row = c_number dto /\ name row = c_name dto
      /\ centerId row = c_centerId dto.
Proof.
  intros db db' dto userId s Hc. apply create_ok in Hc.
  destruct Hc as [Hdir [[scope [Hscope Hin]] [_ [Hn [Hnm [_ [Hcid [Hfresh [Hsub _]]]]]]]]].
  exists s. split; [|auto].
  unfold findOne, SubjectsRepository.findOneById. run. rewrite Hsub.
  rewrite find_app_fresh by (intros t Ht; apply (Hfresh t Ht)).
  rewrite (findUserCenters_after userId Hdir Hscope).
  rewrite Hcid. apply includes_In in Hin. rewrite Hin. reflexivity.
Qed.

Lemma create_then_findOne_witness :
  exists row,
    findOne (id Sample.john) Sample.alice Sample.db1 = (Ok row, Sample.db1)
    /\ id row = id Sample.john
    /\ number row = c_number Sample.johnDto
    /\ name row = c_name Sample.johnDto
    /\ centerId row = c_centerId Sample.johnDto.
Proof.
  apply (@create_then_findOne Sample.db0 Sample.db1 Sample.johnDto Sample.alice
           Sample.john).
  vm_compute. reflexivity.
Defined.

(** ** The constraints of the Subject table *)

Lemma NoDup_snoc (A : Type) (l : list A) (x : A) :
  NoDup l -> ~ In x l -> NoDup (l ++ [x])%list.
Proof.
  induction l as [|y rest IH]; intros Hnd Hx; simpl.
  - constructor; [intros []|constructor].
  - inversion Hnd as [|? ? Hy Hrest]; subst. constructor.
    + intros Hin. apply in_app_or in Hin. destruct Hin as [Hin|[->|[]]].
      * contradiction.
      * apply Hx. left. reflexivity.
    + apply IH; [exact Hrest|]. intros Hin. apply Hx. right. exact Hin.
Qed.

Lemma replaceRow_ids (s' : Subject) (rows : list Subject) :
  map id (SubjectsRepository.replaceRow s' rows) = map id rows.
Proof.
  unfold SubjectsRepository.replaceRow. induction rows as [|x rest IH]; simpl;
    [reflexivity|].
  rewrite IH. destruct (String.eqb (id x) (id s')) eqn:E; [|reflexivity].
  apply String.eqb_eq in E. rewrite E. reflexivity.
Qed.

Lemma replaceRow_elements (s' y : Subject) (rows : list Subject) :
  In y (SubjectsRepository.replaceRow s' rows) -> y = s' \/ In y rows.
Proof.
  unfold SubjectsRepository.replaceRow. intros H. apply in_map_iff in H.
  destruct H as [x [Hx Hin]]. destruct (String.eqb (id x) (id s')).
  - left. symmetry. exact Hx.
  - right. subst y. exact Hin.
Qed.

Lemma replaceRow_absent (s' : Subject) (rows : list Subject) :
  (forall t, In t rows -> id t <> id s') ->
  SubjectsRepository.replaceRow s' rows = rows.
Proof.
  unfold SubjectsRepository.replaceRow. induction rows as [|x rest IH];
    intros H; simpl; [reflexivity|].
  assert (E : String.eqb (id x) (id s') = false)
    by (apply String.eqb_neq; apply H; left; reflexivity).
  rewrite E, IH; [reflexivity|]. intros t Ht. apply H. right. exact Ht.
Qed.

Lemma replaceRow_numbers (s' : Subject) (rows : list Subject) :
  NoDup (map id rows) -> NoDup (map number rows) ->
  (forall t, In t rows -> id t <> id s' -> number t <> number s') ->
  NoDup (map number (SubjectsRepository.replaceRow s' rows)).
Proof.
  induction rows as [|x rest IH]; intros Hids Hnums Hother; simpl; [constructor|].
  inversion Hids as [|? ? Hidx Hids']; subst.
  inversion Hnums as [|? ? Hnumx Hnums']; subst.
  destruct (String.eqb (id x) (id s')) eqn:E.
  - apply String.eqb_eq in E.
    assert (Habs : forall t, In t rest -> id t <> id s').
    { intros t Ht Heq. apply Hidx. rewrite E, <- Heq. apply in_map. exact Ht. }
    fold (SubjectsRepository.replaceRow s' rest). rewrite (@replaceRow_absent _ _ Habs).
    constructor; [|exact Hnums'].
    intros Hin. apply in_map_iff in Hin. destruct Hin as [t [Hnum Ht]].
    apply (Hother t); [right; exact Ht|apply Habs; exact Ht|exact Hnum].
  - apply String.eqb_neq in E.
    fold (SubjectsRepository.replaceRow s' rest). constructor.
    + intros Hin. apply in_map_iff in Hin. destruct Hin as [y [Hnum Hy]].
      apply replaceRow_elements in Hy. destruct Hy as [->|Hy].
      * apply (Hother x); [left; reflexivity|exact E|symmetry; exact Hnum].
      * apply Hnumx. rewrite <- Hnum. apply in_map. exact Hy.
    + apply IH; try assumption. intros t Ht. apply Hother. right. exact Ht.
Qed.

(** What a returning [save] has checked and done. *)
Lemma save_ok (s u : Subject) (db db' : Db) :
  SubjectsRepository.save s db = (Ok u, db') ->
  u = s
  /\ existsb (fun s' => negb (String.eqb (id s') (id s))
                        && String.eqb (number s') (number s)) (subjects db) = false
  /\ subjects db'
     = if existsb (fun s' => String.eqb (id s') (id s)) (subjects db)
       then SubjectsRepository.replaceRow s (subjects db)
       else (subjects db ++ [s])%list.
Proof.
  destruct db as [us ucs cs ss ls seed clk fs].
  unfold SubjectsRepository.save, write, setFaults, setSubjects. simpl.
  destruct fs as [|[|] rest]; simpl; try discriminate;
    destruct (existsb (fun s' => negb (String.eqb (id s') (id s))
                                 && String.eqb (number s') (number s)) ss);
    try discriminate;
    destruct (existsb (fun s' => String.eqb (id s') (id s)) ss);
    intros H; injection H as <- <-; auto.
Qed.

(** The Subject table after [create], however the call ends. *)
Lemma create_subjects (dto : CreateSubjectDto) (userId : string) (db db' : Db)
      (r : result Subject) :
  create dto userId db = (r, db') ->
  subjects db' = subjects db
  \/ exists s, subjects db' = (subjects db ++ [s])%list
               /\ forall t, In t (subjects db) ->
                            id t <> id s /\ number t <> number s.
Proof.
  unfold create. unfold bind at 1.
  pose proof (findUserCenters_state userId db) as Hst.
  destruct (UsersService.findUserCenters userId db) as [[scope|e] d] eqn:Eu;
    simpl in Hst; subst d.
  2:{ intros H; inversion H; subst. left. reflexivity. }
  destruct (negb (Js.includes scope (c_centerId dto))).
  { unfold throw. intros H; inversion H; subst. left. reflexivity. }
  unfold bind at 1, SubjectsRepository.findOneByNumber, query. unfold bind at 1.
  destruct (SubjectsRepository.saveNew (c_number dto) (c_name dto)
              (dateColumn (c_birthDate dto)) (c_centerId dto) db)
    as [[s|e] d1] eqn:Esave.
  - pose proof (saveNew_ok _ _ _ _ _ Esave) as [_ [Hn [_ [_ [_ [Hfresh Hsub]]]]]].
    unfold bind, ret.
    destruct (createAuditLog userId (id s) "CREATE" (createDiff s) d1)
      as [ra d2] eqn:Ea.
    pose proof (createAuditLog_inv _ _ _ _ _ Ea) as [_ [Hsub2 _]].
    intros H. right. exists s. split.
    + destruct ra; inversion H; subst; congruence.
    + rewrite Hn. exact Hfresh.
  - pose proof (saveNew_inv _ _ _ _ _ Esave) as [_ [_ Hs]].
    intros H; inversion H; subst. left.
    destruct Hs as [[_ Hs]|[s [Hcontra _]]]; [exact Hs|discriminate].
Qed.

(** The Subject table after [update], however the call ends. *)
Lemma update_subjects (sid userId : string) (dto : UpdateSubjectDto) (db db' : Db)
      (r : result Subject) :
  update sid dto userId db = (r, db') ->
  subjects db' = subjects db
  \/ exists s,
      findOne sid userId db = (Ok s, db)
      /\ subjects db'
         = SubjectsRepository.replaceRow (rowWritten (centers db) s dto)
             (subjects db)
      /\ existsb (fun s' => negb (String.eqb (id s') (id s))
                            && String.eqb (number s') (number (assign s dto)))
                 (subjects db) = false.
Proof.
  rewrite update_steps.
  destruct (findOne sid userId db) as [[s|e] d0] eqn:Efind;
    pose proof (findOne_inv _ _ _ Efind) as [-> Hok].
  2:{ intros H; inversion H; subst. left. reflexivity. }
  destruct (Hok s eq_refl) as [Hf _]. apply find_some_id in Hf.
  destruct Hf as [_ [_ Hex]].
  destruct (SubjectsRepository.save (rowWritten (centers db) s dto) db)
    as [[u|e] d1] eqn:Esave.
  - apply save_ok in Esave. destruct Esave as [_ [Hcheck Hsub]].
    rewrite rowWritten_id, rowWritten_number in Hcheck.
    rewrite rowWritten_id, Hex in Hsub.
    destruct (Js.truthy (u_birthDate dto)).
    { intros H; inversion H; subst. right. exists s. auto. }
    rewrite centerDiff_run.
    destruct (Nat.ltb 0 (List.length (Js.keys (diffOf (centers d1) s dto)))).
    + destruct (createAuditLog userId sid "UPDATE"
                  (JObj (Js.setField "subjectId" (JStr sid)
                           (diffOf (centers d1) s dto))) d1)
        as [ra d2] eqn:Ea.
      pose proof (createAuditLog_inv _ _ _ _ _ Ea) as [_ [Hsub2 _]].
      intros H. right. exists s. split; [reflexivity|]. split; [|exact Hcheck].
      destruct ra; inversion H; subst; congruence.
    + unfold ret. intros H; inversion H; subst. right. exists s. auto.
  - pose proof (save_inv _ _ Esave) as [_ [_ Hs]].
    intros H; inversion H; subst. left.
    destruct Hs as [[_ Hs]|[Hcontra _]]; [exact Hs|discriminate].
Qed.

(** X3. [create] and [update] keep the two constraints of the Subject
    table, however they end: identifiers stay pairwise distinct and so do
    numbers. *)
Theorem create_update_keep_table_constraints :
  forall (db : Db) (userId sid : string) (cdto : CreateSubjectDto)
         (udto : UpdateSubjectDto),
    primaryKey db -> uniqueNumbers db ->
    (primaryKey (snd (create cdto userId db))
     /\ uniqueNumbers (snd (create cdto userId db)))
    /\ (primaryKey (snd (update sid udto userId db))
        /\ uniqueNumbers (snd (update sid udto userId db))).
Proof.
  intros db userId sid cdto udto Hpk Hun. unfold primaryKey, uniqueNumbers in *.
  split.
  - destruct (create cdto userId db) as [r db'] eqn:E. simpl.
    apply create_subjects in E. destruct E as [->|[s [-> Hfresh]]]; [auto|].
    rewrite !map_app. simpl. split; apply NoDup_snoc; try assumption.
    + intros Hin. apply in_map_iff in Hin. destruct Hin as [t [Hid Ht]].
      apply (proj1 (Hfresh t Ht)). exact Hid.
    + intros Hin. apply in_map_iff in Hin. destruct Hin as [t [Hnum Ht]].
      apply (proj2 (Hfresh t Ht)). exact Hnum.
  - destruct (update sid udto userId db) as [r db'] eqn:E. simpl.
    apply update_subjects in E. destruct E as [->|[s [_ [-> Hcheck]]]]; [auto|].
    split.
    + rewrite replaceRow_ids. exact Hpk.
    + apply replaceRow_numbers; try assumption.
      intros t Ht Hid Hnum.
      pose proof (existsb_false_all _ _ Hcheck t Ht) as Hf. simpl in Hf.
      rewrite rowWritten_id in Hid. rewrite rowWritten_number in Hnum.
      apply String.eqb_neq in Hid. rewrite Hid in Hf. simpl in Hf.
      apply String.eqb_neq in Hf. contradiction.
Qed.

Lemma create_update_keep_table_constraints_witness :
  (primaryKey (snd (create (mkCreateDto "SUB-003" "New One" "2000-02-02" Sample.centerB)
                      Sample.alice Sample.db2))
   /\ uniqueNumbers (snd (create (mkCreateDto "SUB-003" "New One" "2000-02-02"
                                               Sample.centerB)
                             Sample.alice Sample.db2)))
  /\ (primaryKey (snd (update Sample.johnId
                         (mkUpdateDto (Some "SUB-011") None None None)
                         Sample.alice Sample.db2))
      /\ uniqueNumbers (snd (update Sample.johnId
                               (mkUpdateDto (Some "SUB-011") None None None)
                               Sample.alice Sample.db2))).
Proof.
  apply create_update_keep_table_constraints.
  - unfold primaryKey. simpl.
    repeat (constructor; [simpl; intuition discriminate|]). constructor.
  - unfold uniqueNumbers. simpl.
    repeat (constructor; [simpl; intuition discriminate|]). constructor.
Defined.

(** ** The uuid columns stay typed *)

Lemma saveNew_id (num nm bd cid : string) (db db' : Db) (s : Subject) :
  SubjectsRepository.saveNew num nm bd cid db = (Ok s, db') ->
  id s = uuidOfNat (idSeed db).
Proof.
  destruct db as [us ucs cs ss ls seed clk fs].
  unfold SubjectsRepository.saveNew, write, setFaults, bumpSeed, setSubjects.
  simpl.
  destruct fs as [|[|] rest]; simpl; try discriminate;
    match goal with
    | |- context [if ?b then _ else _] => destruct b
    end; intros H; try discriminate; injection H as <- _; reflexivity.
Qed.

Lemma createAuditLog_idSeed (userId sid act : string) (d : Json) (db db' : Db)
      (r : result unit) :
  createAuditLog userId sid act d db = (r, db') ->
  forall e, In e (auditLogs db') ->
            In e (auditLogs db) \/ log_subjectId e = Some sid.
Proof.
  intros H e He. apply createAuditLog_inv in H.
  destruct H as [_ [_ [[_ Ha]|[_ [entry [Ha [Hs _]]]]]]]; rewrite Ha in He.
  - left. exact He.
  - apply in_app_or in He. destruct He as [He|[<-|[]]]; [left; exact He|right; exact Hs].
Qed.

(** [create] and [update], however they end, leave the identifier columns
    holding canonical uuid texts: the identifier that the storage
    generates is one, and an audit entry references the Subject written. *)
Lemma create_update_keep_uuidColumns (db : Db) (userId sid : string)
      (cdto : CreateSubjectDto) (udto : UpdateSubjectDto) :
  uuidColumns db ->
  uuidColumns (snd (create cdto userId db))
  /\ uuidColumns (snd (update sid udto userId db)).
Proof.
  intros [Hsub Hlog]. split.
  - destruct (create cdto userId db) as [r db'] eqn:E. simpl.
    unfold create in E. unfold bind at 1 in E.
    pose proof (findUserCenters_state userId db) as Hst.
    destruct (UsersService.findUserCenters userId db) as [[scope|e] d] eqn:Eu;
      simpl in Hst; subst d.
    2:{ inversion E; subst. split; assumption. }
    destruct (negb (Js.includes scope (c_centerId cdto))).
    { unfold throw in E. inversion E; subst. split; assumption. }
    unfold bind at 1, SubjectsRepository.findOneByNumber, query in E.
    unfold bind at 1 in E.
    destruct (SubjectsRepository.saveNew (c_number cdto) (c_name cdto)
                (dateColumn (c_birthDate cdto)) (c_centerId cdto) db)
      as [[s|e] d1] eqn:Esave.
    + pose proof (saveNew_id _ _ _ _ _ Esave) as Hid.
      pose proof (saveNew_inv _ _ _ _ _ Esave) as [_ [Hlogs Hs]].
      destruct Hs as [[Hcontra _]|[s' [Hs' [_ [_ [_ [_ Hrows]]]]]]]; [discriminate|].
      injection Hs' as <-.
      unfold bind, ret in E.
      destruct (createAuditLog userId (id s) "CREATE" (createDiff s) d1)
        as [ra d2] eqn:Ea.
      pose proof (createAuditLog_inv _ _ _ _ _ Ea) as [_ [Hsub2 _]].
      pose proof (createAuditLog_idSeed _ _ _ _ _ Ea) as Hentries.
      assert (Hd : db' = d2) by (destruct ra; inversion E; reflexivity).
      subst db'. split.
      * intros t Ht. rewrite Hsub2, Hrows in Ht. apply in_app_or in Ht.
        destruct Ht as [Ht|[<-|[]]]; [apply Hsub; exact Ht|].
        rewrite Hid. apply uuidOfNat_canonical.
      * intros e0 x He Hx. destruct (Hentries e0 He) as [Hold|Hnew].
        -- rewrite Hlogs in Hold. apply (Hlog e0); assumption.
        -- rewrite Hnew in Hx. injection Hx as <-.
           rewrite Hid. apply uuidOfNat_canonical.
    + pose proof (saveNew_inv _ _ _ _ _ Esave) as [_ [Hlogs Hs]].
      inversion E; subst.
      destruct Hs as [[_ Hrows]|[s [Hcontra _]]]; [|discriminate].
      split.
      * intros t Ht. rewrite Hrows in Ht. apply Hsub. exact Ht.
      * intros e0 x He Hx. rewrite Hlogs in He. apply (Hlog e0); assumption.
  - destruct (update sid udto userId db) as [r db'] eqn:E. simpl.
    apply update_inv in E. destruct E as [_ E].
    destruct E as [[e [_ [Hrows Hlogs]]]|[s [Hfind [Hrows Hcases]]]].
    + split.
      * intros t Ht. rewrite Hrows in Ht. apply Hsub. exact Ht.
      * intros e0 x He Hx. rewrite Hlogs in He. apply (Hlog e0); assumption.
    + apply findOne_inv in Hfind. destruct Hfind as [_ Hfind].
      destruct (Hfind s eq_refl) as [Hf _]. apply find_some_id in Hf.
      destruct Hf as [Hin [Hid _]].
      split.
      * intros t Ht. rewrite Hrows in Ht. apply replaceRow_elements in Ht.
        destruct Ht as [->|Ht]; [|apply Hsub; exact Ht].
        rewrite rowWritten_id. apply Hsub. exact Hin.
      * intros e0 x He Hx.
        assert (Hold : In e0 (auditLogs db) \/ log_subjectId e0 = Some sid).
        { destruct Hcases as [[_ [_ Ha]]
                             |[[_ [_ [_ Ha]]]
                              |[[_ [_ [_ [entry [Ha [Hs _]]]]]]
                               |[_ [_ [_ Ha]]]]]]; rewrite Ha in He; auto.
          apply in_app_or in He. destruct He as [He|[<-|[]]]; auto. }
        destruct Hold as [Hold|Hnew]; [apply (Hlog e0); assumption|].
        rewrite Hnew in Hx. injection Hx as <-. rewrite <- Hid.
        apply Hsub. exact Hin.
Qed.

(** ** The audit log is only appended to *)

(** X4. The reads [findAll] and [findOne] leave the database as it is, and
    [create] and [update], however they end, leave every audit entry in
    place and append at most one. *)
Theorem audit_log_append_only :
  forall (db : Db) (userId sid : string) (cdto : CreateSubjectDto)
         (udto : UpdateSubjectDto),
    snd (findAll userId db) = db
    /\ snd (findOne sid userId db) = db
    /\ appendsAtMostOne (auditLogs db) (auditLogs (snd (create cdto userId db)))
    /\ appendsAtMostOne (auditLogs db) (auditLogs (snd (update sid udto userId db))).
Proof.
  intros db userId sid cdto udto. unfold appendsAtMostOne.
  split; [|split; [|split]].
  - unfold findAll, SubjectsRepository.findByCenters, bind, query, ret.
    pose proof (findUserCenters_state userId db) as Hst.
    destruct (UsersService.findUserCenters userId db) as [[scope|e] d];
      simpl in Hst; subst d; [|reflexivity].
    destruct (Nat.eqb (List.length scope) 0); reflexivity.
  - destruct (findOne sid userId db) as [r d] eqn:E.
    apply findOne_inv in E. destruct E as [-> _]. reflexivity.
  - destruct (create cdto userId db) as [r db'] eqn:E. simpl.
    apply create_inv in E. destruct E as [_ [_ E]].
    destruct E as [[e [_ [_ Ha]]]|[s [_ [_ [_ [_ [_ [[_ [entry [Ha _]]]|[_ Ha]]]]]]]]];
      eauto.
  - destruct (update sid udto userId db) as [r db'] eqn:E. simpl.
    apply update_inv in E. destruct E as [_ E].
    destruct E as [[e [_ [_ Ha]]]
                  |[s [_ [_ [[_ [_ Ha]]
                            |[[_ [_ [_ Ha]]]
                             |[[_ [_ [_ [entry [Ha _]]]]]
                              |[_ [_ [_ Ha]]]]]]]]]];
      eauto.
Qed.

(** ** findOne and findAll *)

(** X5. Under the primary key, [findOne] returns a Subject exactly when
    that Subject is in the table, the identifier asked for spells the uuid
    that identifies it, and its center is among the caller's centers. *)
Theorem findOne_returns_iff :
  forall (db : Db) (sid userId : string) (s : Subject),
    primaryKey db ->
    (UuidTyped.findOne sid userId db = (Ok s, db)
     <-> In s (subjects db) /\ Uuid.uuid_in sid = Some (id s)
         /\ exists scope,
             fst (UsersService.findUserCenters userId db) = Ok scope
             /\ In (centerId s) scope).
Proof.
  intros db sid userId s Hpk. unfold primaryKey in Hpk. split.
  - unfold UuidTyped.findOne, UuidTyped.findOneById.
    destruct (Uuid.uuid_in sid) as [value|]; [|discriminate]. run.
    destruct (find (fun x => String.eqb (id x) value) (subjects db)) as [s0|] eqn:Ef;
      [|discriminate].
    pose proof (findUserCenters_state userId db) as Hst.
    destruct (UsersService.findUserCenters userId db) as [[scope|e] d] eqn:Eu;
      simpl in Hst; subst d; [|discriminate].
    destruct (Js.includes scope (centerId s0)) eqn:Ei; simpl; [|discriminate].
    intros H. injection H as ->.
    apply find_some_id in Ef. destruct Ef as [Hin [Hid _]].
    split; [exact Hin|]. split; [congruence|].
    exists scope. split; [reflexivity|apply includes_In; exact Ei].
  - intros [Hin [Hv [scope [Hs Hi]]]].
    apply findUserCenters_eq in Hs.
    rewrite (@typed_findOne_found db sid (id s) userId s scope Hv
               (@find_id_unique _ _ Hpk Hin) Hs).
    apply includes_In in Hi. rewrite Hi. reflexivity.
Qed.

(** The theorem at Alice asking for Kim by her identifier in upper case. *)
Lemma findOne_returns_iff_witness :
  UuidTyped.findOne Sample.kimIdUpper Sample.alice Sample.db3
  = (Ok Sample.kim, Sample.db3)
  <-> In Sample.kim (subjects Sample.db3)
      /\ Uuid.uuid_in Sample.kimIdUpper = Some (id Sample.kim)
      /\ exists scope,
          fst (UsersService.findUserCenters Sample.alice Sample.db3) = Ok scope
          /\ In (centerId Sample.kim) scope.
Proof.
  apply findOne_returns_iff.
  unfold primaryKey. simpl.
  repeat (constructor; [simpl; intuition discriminate|]). constructor.
Defined.

Example findOne_kim :
  UuidTyped.findOne Sample.kimIdUpper Sample.alice Sample.db3
  = (Ok Sample.kim, Sample.db3)
  /\ UuidTyped.findOne Sample.kimIdBare Sample.alice Sample.db3
     = (Ok Sample.kim, Sample.db3)
  /\ UuidTyped.findOne Sample.kimId Sample.alice Sample.db3
     = findOne Sample.kimId Sample.alice Sample.db3.
Proof. vm_compute. repeat split. Qed.

(** X6. Every Subject that [findAll] lists for a caller can be opened by
    that caller: [findOne] with its identifier returns it. *)
Theorem findAll_entries_open :
  forall (db : Db) (userId : string) (l : list Subject) (s : Subject),
    primaryKey db ->
    fst (findAll userId db) = Ok l -> In s l ->
    findOne (id s) userId db = (Ok s, db).
Proof.
  intros db userId l s Hpk Hall Hin. unfold primaryKey in Hpk.
  unfold findAll, bind in Hall.
  pose proof (findUserCenters_state userId db) as Hst.
  destruct (UsersService.findUserCenters userId db) as [[scope|e] d] eqn:Eu;
    simpl in Hst; subst d; [|discriminate].
  destruct (Nat.eqb (List.length scope) 0).
  - unfold ret in Hall. simpl in Hall. injection Hall as <-. contradiction.
  - unfold SubjectsRepository.findByCenters, query in Hall. simpl in Hall.
    injection Hall as <-.
    apply orderBy_in in Hin. apply filter_In in Hin. destruct Hin as [Hin Hi].
    rewrite (@findOne_found db (id s) userId s scope
               (@find_id_unique _ _ Hpk Hin) Eu).
    rewrite Hi. reflexivity.
Qed.

Lemma findAll_entries_open_witness :
  findOne (id Sample.subject10) Sample.alice Sample.db2
  = (Ok Sample.subject10, Sample.db2).
Proof.
  apply (@findAll_entries_open Sample.db2 Sample.alice
           [Sample.john; Sample.subject2; Sample.subject10]).
  - unfold primaryKey. simpl.
    repeat (constructor; [simpl; intuition discriminate|]). constructor.
  - vm_compute. reflexivity.
  - right. right. left. reflexivity.
Defined.

(** ** update *)

Lemma update_fails_with_findOne (sid userId : string) (dto : UpdateSubjectDto)
      (db : Db) (e : Exception) :
  findOne sid userId db = (Err e, db) ->
  update sid dto userId db = (Err e, db).
Proof. intros H. rewrite update_steps, H. reflexivity. Qed.

(** X7. [update] makes the access check of [findOne] first.  For a
    canonical identifier, which the lookup by text and the lookup on the
    uuid column read alike: when no Subject has it the call fails with
    NotFound, and when the center of the Subject that has it is not among
    the caller's centers the call fails with Forbidden; in both cases
    whatever the payload is, and nothing is written. *)
Theorem update_guarded_by_findOne :
  forall (db : Db) (sid userId : string) (dto : UpdateSubjectDto),
    Uuid.uuid_in sid = Some sid ->
    (findOne sid userId db = UuidTyped.findOne sid userId db)
    /\
    ((forall s, In s (subjects db) -> id s <> sid) ->
     update sid dto userId db
     = (Err (NotFoundException ("Subject with ID " ++ sid ++ " not found")), db))
    /\
    (forall (s : Subject) (scope : list string),
       primaryKey db -> In s (subjects db) -> id s = sid ->
       fst (UsersService.findUserCenters userId db) = Ok scope ->
       ~ In (centerId s) scope ->
       update sid dto userId db
       = (Err (ForbiddenException "Access denied to this subject"), db)).
Proof.
  intros db sid userId dto Hv. split; [|split].
  - symmetry. apply findOne_canonical. exact Hv.
  - intros Hnone. apply update_fails_with_findOne.
    apply findOne_missing. apply find_id_none. exact Hnone.
  - intros s scope Hpk Hin Hid Hs Hout. subst sid. unfold primaryKey in Hpk.
    apply update_fails_with_findOne. apply findUserCenters_eq in Hs.
    rewrite (@findOne_found db (id s) userId s scope
               (@find_id_unique _ _ Hpk Hin) Hs).
    rewrite (@includes_not_In _ _ Hout). reflexivity.
Qed.

(** The theorem at Bob, who has no center, updating a uuid that no Subject
    has and updating John. *)
Lemma update_guarded_by_findOne_witness :
  update Sample.goneId (mkUpdateDto None (Some "X") None None) Sample.bob Sample.db1
  = (Err (NotFoundException
            "Subject with ID 00000000-0000-0000-0000-0000000000b9 not found"),
     Sample.db1)
  /\ update Sample.johnId (mkUpdateDto None (Some "X") None None) Sample.bob
       Sample.db1
     = (Err (ForbiddenException "Access denied to this subject"), Sample.db1).
Proof.
  split.
  - apply (proj1 (proj2 (@update_guarded_by_findOne Sample.db1 Sample.goneId
                           Sample.bob (mkUpdateDto None (Some "X") None None)
                           eq_refl))).
    intros s [<-|[]]. discriminate.
  - apply (proj2 (proj2 (@update_guarded_by_findOne Sample.db1 Sample.johnId
                           Sample.bob (mkUpdateDto None (Some "X") None None)
                           eq_refl)) Sample.john []).
    + unfold primaryKey. simpl. constructor; [intros []|constructor].
    + left. reflexivity.
    + reflexivity.
    + reflexivity.
    + intros [].
Defined.

Lemma find_replaceRow (s' : Subject) (rows : list Subject) :
  existsb (fun x => String.eqb (id x) (id s')) rows = true ->
  find (fun x => String.eqb (id x) (id s')) (SubjectsRepository.replaceRow s' rows)
  = Some s'.
Proof.
  unfold SubjectsRepository.replaceRow.
  induction rows as [|x rest IH]; simpl; [discriminate|].
  destruct (String.eqb (id x) (id s')) eqn:E; simpl.
  - intros _. rewrite String.eqb_refl. reflexivity.
  - intros H. rewrite E. apply IH. exact H.
Qed.

(** What a returning [update] has checked and done. *)
Lemma update_ok (sid userId : string) (dto : UpdateSubjectDto) (db db' : Db)
      (u : Subject) :
  update sid dto userId db = (Ok u, db') ->
  sameDirectory db db'
  /\ Js.truthy (u_birthDate dto) = false
  /\ exists s scope,
      findOne sid userId db = (Ok s, db)
      /\ UsersService.findUserCenters userId db = (Ok scope, db)
      /\ In (centerId s) scope
      /\ u = assign s dto
      /\ find (fun x => String.eqb (id x) sid) (subjects db')
         = Some (rowWritten (centers db) s dto).
Proof.
  intros Hup. pose proof (update_inv _ _ _ _ Hup) as [Hdir Hinv].
  split; [exact Hdir|].
  destruct Hinv as [[e [He _]]|[s [Hfind [Hs Hcases]]]]; [discriminate|].
  pose proof (findOne_inv _ _ _ Hfind) as [_ Hok].
  destruct (Hok s eq_refl) as [Hf [scope [Hscope Hinc]]].
  apply find_some_id in Hf. destruct Hf as [_ [Hid Hex]].
  assert (Hu : u = assign s dto /\ Js.truthy (u_birthDate dto) = false).
  { destruct Hcases as [[H _]|[[H [Ht _]]|[[H [Ht _]]|[H _]]]];
      try discriminate; split; congruence. }
  destruct Hu as [Hu Ht]. split; [exact Ht|].
  exists s, scope. split; [exact Hfind|]. split; [exact Hscope|].
  split; [apply includes_In; exact Hinc|].
  split; [exact Hu|]. rewrite Hs. subst sid.
  pose proof (@find_replaceRow (rowWritten (centers db) s dto) (subjects db)) as Hfr.
  rewrite rowWritten_id in Hfr. apply Hfr. exact Hex.
Qed.

(** X8. A Subject that [update] returns for a payload without [birthDate]
    and without [centerId] can be read back by the same caller: [findOne]
    with the same identifier returns the Subject that [update] returned. *)
Theorem update_then_findOne :
  forall (db db' : Db) (sid userId : string) (dto : UpdateSubjectDto)
         (u : Subject),
    update sid dto userId db = (Ok u, db') ->
    u_birthDate dto = None -> u_centerId dto = None ->
    findOne sid userId db' = (Ok u, db').
Proof.
  intros db db' sid userId dto u Hup _ Hc.
  apply update_ok in Hup.
  destruct Hup as [Hdir [_ [s [scope [_ [Hs [Hin [Hu Hf]]]]]]]].
  rewrite (@rowWritten_no_center (centers db) s dto Hc), <- Hu in Hf.
  rewrite (@findOne_found db' sid userId u scope Hf
             (findUserCenters_after userId Hdir Hs)).
  assert (Hcu : centerId u = centerId s).
  { rewrite Hu. unfold assign. rewrite Hc. reflexivity. }
  rewrite Hcu. apply includes_In in Hin. rewrite Hin. reflexivity.
Qed.

Lemma update_then_findOne_witness :
  findOne Sample.johnId Sample.alice
    (snd (update Sample.johnId (mkUpdateDto None (Some "Jane Doe") None None)
            Sample.alice Sample.db1))
  = (Ok (mkSubject Sample.johnId "SUB-001" "Jane Doe" "1990-01-15" Sample.centerA),
     snd (update Sample.johnId (mkUpdateDto None (Some "Jane Doe") None None)
            Sample.alice Sample.db1)).
Proof.
  apply (@update_then_findOne Sample.db1 _ Sample.johnId Sample.alice
           (mkUpdateDto None (Some "Jane Doe") None None) _).
  - vm_compute. reflexivity.
  - reflexivity.
  - reflexivity.
Defined.

Lemma lookupCenter_in (cs : list Center) (cid : string) (k : Center) :
  In k cs -> center_id k = cid -> exists c, lookupCenter cs cid = Some c.
Proof.
  intros Hin Hid. unfold lookupCenter.
  destruct (find (fun c => String.eqb (center_id c) cid) cs) as [c|] eqn:E;
    [exists c; reflexivity|].
  pose proof (find_none _ _ E k Hin) as Hn. simpl in Hn.
  apply String.eqb_neq in Hn. contradiction.
Qed.

(** X9. A [centerId] in the payload does not reach the row of a Subject
    whose center has a row in the center table: [findOne] loads the
    Subject with that center joined and [save] writes the join column from
    it.  [update] returns a Subject that carries the new [centerId], but
    the stored row keeps its center (with the number and name returned),
    and the caller's [findOne] afterwards returns that row. *)
Theorem update_does_not_store_centerId :
  forall (db db' : Db) (sid userId c : string) (dto : UpdateSubjectDto)
         (s u : Subject) (k : Center),
    primaryKey db -> In s (subjects db) -> id s = sid ->
    In k (centers db) -> center_id k = centerId s ->
    u_centerId dto = Some c ->
    update sid dto userId db = (Ok u, db') ->
    centerId u = c
    /\ exists row,
        find (fun x => String.eqb (id x) sid) (subjects db') = Some row
        /\ centerId row = centerId s
        /\ number row = number u /\ name row = name u
        /\ findOne sid userId db' = (Ok row, db').
Proof.
  intros db db' sid userId c dto s u k Hpk Hin Hid Hk Hkid Hc Hup.
  apply update_ok in Hup.
  destruct Hup as [Hdir [_ [s0 [scope [Hfind [Hs [Hscope [Hu Hf]]]]]]]].
  assert (s0 = s) by (eapply findOne_loads; eassumption). subst s0.
  split; [rewrite Hu; unfold assign; simpl; rewrite Hc; reflexivity|].
  destruct (@lookupCenter_in _ _ _ Hk Hkid) as [j Hj].
  pose proof (@rowWritten_center_joined (centers db) s dto j Hj) as Hrow.
  exists (rowWritten (centers db) s dto).
  split; [exact Hf|]. split; [exact Hrow|].
  split; [rewrite rowWritten_number, Hu; reflexivity|].
  split; [rewrite rowWritten_name, Hu; reflexivity|].
  rewrite (@findOne_found db' sid userId _ scope Hf
             (findUserCenters_after userId Hdir Hs)).
  rewrite Hrow. apply includes_In in Hscope. rewrite Hscope. reflexivity.
Qed.

(** The theorem at Alice moving John to the center of [subject5], which is
    none of hers: the call returns a Subject with that center, and John's
    row is still in center A, where Alice reads it. *)
Lemma update_does_not_store_centerId_witness :
  centerId (mkSubject Sample.johnId "SUB-001" "John Doe" "1990-01-15"
                      (centerId Sample.subject5))
  = centerId Sample.subject5
  /\ exists row,
      find (fun x => String.eqb (id x) Sample.johnId)
           (subjects (snd (update Sample.johnId
                             (mkUpdateDto None None None
                                          (Some (centerId Sample.subject5)))
                             Sample.alice Sample.db1)))
      = Some row
      /\ centerId row = Sample.centerA
      /\ number row = "SUB-001" /\ name row = "John Doe"
      /\ findOne Sample.johnId Sample.alice
           (snd (update Sample.johnId
                   (mkUpdateDto None None None (Some (centerId Sample.subject5)))
                   Sample.alice Sample.db1))
         = (Ok row,
            snd (update Sample.johnId
                   (mkUpdateDto None None None (Some (centerId Sample.subject5)))
                   Sample.alice Sample.db1)).
Proof.
  apply (@update_does_not_store_centerId Sample.db1
           (snd (update Sample.johnId
                   (mkUpdateDto None None None (Some (centerId Sample.subject5)))
                   Sample.alice Sample.db1))
           Sample.johnId Sample.alice
           (centerId Sample.subject5)
           (mkUpdateDto None None None (Some (centerId Sample.subject5)))
           Sample.john
           (mkSubject Sample.johnId "SUB-001" "John Doe" "1990-01-15"
                      (centerId Sample.subject5))
           (mkCenter Sample.centerA "Center A")).
  - unfold primaryKey. simpl. constructor; [intros []|constructor].
  - left. reflexivity.
  - reflexivity.
  - left. reflexivity.
  - reflexivity.
  - reflexivity.
  - vm_compute. reflexivity.
Defined.

(** X10. [update] to a number that another Subject holds makes no
    lookup of its own: the storage refuses the row, the call fails with the
    storage's error, and neither the table nor the audit log changes. *)
Theorem update_to_taken_number_refused :
  forall (db : Db) (sid userId n : string) (dto : UpdateSubjectDto)
         (s t : Subject),
    findOne sid userId db = (Ok s, db) ->
    u_number dto = Some n ->
    In t (subjects db) -> id t <> sid -> number t = n ->
    fst (update sid dto userId db) = Err QueryFailedError
    /\ subjects (snd (update sid dto userId db)) = subjects db
    /\ auditLogs (snd (update sid dto userId db)) = auditLogs db.
Proof.
  intros db sid userId n dto s t Hfind Hn Ht Hid Hnum.
  pose proof (findOne_inv _ _ _ Hfind) as [_ Hok].
  destruct (Hok s eq_refl) as [Hf _]. apply find_some_id in Hf.
  destruct Hf as [_ [Hids _]].
  assert (Hcheck : existsb (fun s' => negb (String.eqb (id s') (id s))
                                      && String.eqb (number s') (number (assign s dto)))
                           (subjects db) = true).
  { apply existsb_exists. exists t. split; [exact Ht|].
    simpl. rewrite Hn, Hnum, String.eqb_refl.
    rewrite Hids. apply String.eqb_neq in Hid. rewrite Hid. reflexivity. }
  rewrite update_steps, Hfind.
  unfold SubjectsRepository.save, write.
  rewrite rowWritten_id, rowWritten_number.
  destruct db as [us ucs cs ss ls seed clk fs].
  unfold setFaults in *. simpl in *.
  destruct fs as [|[|] rest]; simpl; try rewrite Hcheck; simpl; auto.
Qed.

Lemma update_to_taken_number_refused_witness :
  fst (update Sample.johnId (mkUpdateDto (Some "SUB-002") None None None)
         Sample.alice Sample.db2) = Err QueryFailedError
  /\ subjects (snd (update Sample.johnId (mkUpdateDto (Some "SUB-002") None None None)
                      Sample.alice Sample.db2)) = subjects Sample.db2
  /\ auditLogs (snd (update Sample.johnId
                       (mkUpdateDto (Some "SUB-002") None None None)
                       Sample.alice Sample.db2)) = auditLogs Sample.db2.
Proof.
  apply (@update_to_taken_number_refused Sample.db2 Sample.johnId Sample.alice
           "SUB-002" _ Sample.john Sample.subject2).
  - vm_compute. reflexivity.
  - reflexivity.
  - right. right. right. left. reflexivity.
  - discriminate.
  - reflexivity.
Defined.

(** ** update and a birth date in the payload *)

(** X11. [update] with a non-empty [birthDate] in the payload never
    returns and never writes an audit entry: the diff block of the birth
    date reads [oldBirthDate], which is not declared.  The block comes
    after [save], so when the storage has accepted the row the call fails
    with that ReferenceError and the row stays written. *)
Theorem update_with_birthDate_throws :
  forall (db : Db) (sid userId : string) (dto : UpdateSubjectDto),
    Js.truthy (u_birthDate dto) = true ->
    (exists e, fst (update sid dto userId db) = Err e)
    /\ auditLogs (snd (update sid dto userId db)) = auditLogs db
    /\ (forall s row db1,
          findOne sid userId db = (Ok s, db) ->
          SubjectsRepository.save (rowWritten (centers db) s dto) db = (Ok row, db1) ->
          update sid dto userId db
          = (Err (ReferenceError "oldBirthDate is not defined"), db1)
          /\ subjects db1
             = SubjectsRepository.replaceRow (rowWritten (centers db) s dto)
                 (subjects db)).
Proof.
  intros db sid userId dto Ht. split; [|split].
  - destruct (update sid dto userId db) as [r db'] eqn:E.
    apply update_inv in E. destruct E as [_ E]. simpl.
    destruct E as [[e [-> _]]|[s [_ [_ Hcases]]]]; [eauto|].
    destruct Hcases as [[-> _]|[[_ [H _]]|[[_ [H _]]|[-> _]]]];
      eauto; congruence.
  - destruct (update sid dto userId db) as [r db'] eqn:E.
    apply update_inv in E. destruct E as [_ E]. simpl.
    destruct E as [[e [_ [_ Ha]]]|[s [_ [_ Hcases]]]]; [exact Ha|].
    destruct Hcases as [[_ [_ Ha]]|[[_ [H _]]|[[_ [H _]]|[_ [H _]]]]];
      [exact Ha|congruence|congruence|congruence].
  - intros s row db1 Hfind Hsave. rewrite update_steps, Hfind, Hsave, Ht.
    split; [reflexivity|].
    pose proof (findOne_inv _ _ _ Hfind) as [_ Hok].
    destruct (Hok s eq_refl) as [Hf _]. apply find_some_id in Hf.
    destruct Hf as [_ [_ Hex]].
    apply save_ok in Hsave. destruct Hsave as [_ [_ Hsub]].
    rewrite rowWritten_id, Hex in Hsub. exact Hsub.
Qed.

(** The theorem at Alice giving John the birth date he has: the call fails
    with the ReferenceError, the log is as it was, and the row is written. *)
Lemma update_with_birthDate_throws_witness :
  (exists e,
      fst (update Sample.johnId (mkUpdateDto None (Some "Jane Doe")
                                             (Some "1990-01-15") None)
             Sample.alice Sample.db1) = Err e)
  /\ auditLogs (snd (update Sample.johnId
                       (mkUpdateDto None (Some "Jane Doe") (Some "1990-01-15") None)
                       Sample.alice Sample.db1))
     = [Sample.johnCreated]
  /\ fst (update Sample.johnId
            (mkUpdateDto None (Some "Jane Doe") (Some "1990-01-15") None)
            Sample.alice Sample.db1)
     = Err (ReferenceError "oldBirthDate is not defined")
  /\ map name
       (subjects (snd (update Sample.johnId
                         (mkUpdateDto None (Some "Jane Doe") (Some "1990-01-15") None)
                         Sample.alice Sample.db1)))
     = ["Jane Doe"].
Proof.
  destruct (@update_with_birthDate_throws Sample.db1 Sample.johnId Sample.alice
              (mkUpdateDto None (Some "Jane Doe") (Some "1990-01-15") None)
              eq_refl) as [H1 [H2 H3]].
  split; [exact H1|]. split; [exact H2|].
  destruct (H3 Sample.john _ _ eq_refl (surjective_pairing _)) as [H4 H5].
  split.
  - rewrite H4. reflexivity.
  - rewrite H4. cbn [snd]. rewrite H5. reflexivity.
Defined.

(** ** create and the history by number *)

Lemma find_app_fresh_number (rows : list Subject) (s : Subject) :
  (forall t, In t rows -> number t <> number s) ->
  find (fun x => String.eqb (number x) (number s)) (rows ++ [s])%list = Some s.
Proof.
  induction rows as [|x rest IH]; intros Hfresh; simpl.
  - rewrite String.eqb_refl. reflexivity.
  - destruct (String.eqb (number x) (number s)) eqn:E.
    + apply String.eqb_eq in E. exfalso. apply (Hfresh x); [left; reflexivity|exact E].
    + apply IH. intros t Ht. apply Hfresh. right. exact Ht.
Qed.

(** X12. The history of a Subject that [create] has just returned is
    found by its number: for a number that is not UUID-shaped,
    [getAuditLogs] resolves the number to the new identifier and finds a
    sequence that holds the CREATE entry of that Subject, which it returns
    to the creator once the elided access-control block, given the creator's
    centers, lets the call through. *)
Theorem create_then_history_by_number :
  forall (compositeText : Json -> string)
         (accessControl : list string -> option string -> list AuditLog -> M unit)
         (db db' : Db) (dto : CreateSubjectDto) (userId : string) (s : Subject),
    create dto userId db = (Ok s, db') ->
    isUUID (c_number dto) = false ->
    exists (scope : list string) (l : list AuditLog) (entry : AuditLog),
      fst (UsersService.findUserCenters userId db') = Ok scope
      /\ In (centerId s) scope
      /\ resolveSubjectId compositeText (c_number dto) db' = (Ok (Some (id s)), db')
      /\ In entry l
      /\ log_subjectId entry = Some (id s) /\ action entry = "CREATE"
      /\ forall db'',
           accessControl scope (Some (id s)) l db' = (Ok tt, db'') ->
           getAuditLogs compositeText accessControl (c_number dto) userId db'
           = (Ok l, db'').
Proof.
  intros compositeText accessControl db db' dto userId s Hc Hu.
  apply create_ok in Hc.
  destruct Hc as [Hdir [[scope [Hscope Hin]]
                          [Hne [Hn [_ [_ [Hcid [Hfresh [Hsub [entry [Ha [He Hact]]]]]]]]]]]].
  assert (Hfnum : find (fun x => String.eqb (number x) (c_number dto)) (subjects db')
                  = Some s).
  { rewrite Hsub, <- Hn. apply find_app_fresh_number.
    intros t Ht. rewrite Hn. apply (Hfresh t Ht). }
  assert (Hres : resolveSubjectId compositeText (c_number dto) db'
                 = (Ok (Some (id s)), db')).
  { unfold resolveSubjectId. rewrite Hu.
    unfold bind, SubjectsRepository.findOneByNumber, query, ret.
    rewrite Hfnum. reflexivity. }
  destruct (logsOfSubject_spec compositeText db' (id s)) as [l [Hq [Hp _]]].
  assert (Hq' : match Some (id s) with
                | Some sid0 => if Js.truthy (Some sid0)
                               then logsOfSubject compositeText sid0 else ret []
                | None => ret []
                end db' = (Ok l, db')).
  { destruct (id s); [congruence|exact Hq]. }
  pose proof (findUserCenters_after userId Hdir Hscope) as Hscope'.
  exists scope, l, entry.
  split; [rewrite Hscope'; reflexivity|].
  split; [rewrite Hcid; exact Hin|].
  split; [exact Hres|].
  split.
  { apply (Permutation_in _ (Permutation_sym Hp)). apply filter_In. split.
    - rewrite Ha. apply in_or_app. right. left. reflexivity.
    - unfold references. rewrite He. simpl. rewrite String.eqb_refl. reflexivity. }
  split; [exact He|]. split; [exact Hact|].
  intros db'' Hac.
  rewrite (getAuditLogs_steps compositeText accessControl
             (c_number dto) userId Hres Hq' Hscope').
  rewrite Hac. reflexivity.
Qed.

Lemma create_then_history_by_number_witness :
  exists (scope : list string) (l : list AuditLog) (entry : AuditLog),
    fst (UsersService.findUserCenters Sample.alice Sample.db1) = Ok scope
    /\ In (centerId Sample.john) scope
    /\ resolveSubjectId Sample.noText (c_number Sample.johnDto) Sample.db1
       = (Ok (Some (id Sample.john)), Sample.db1)
    /\ In entry l
    /\ log_subjectId entry = Some (id Sample.john) /\ action entry = "CREATE"
    /\ forall db'',
         Sample.letThrough scope (Some (id Sample.john)) l Sample.db1 = (Ok tt, db'') ->
         getAuditLogs Sample.noText Sample.letThrough (c_number Sample.johnDto)
           Sample.alice Sample.db1 = (Ok l, db'').
Proof.
  apply (@create_then_history_by_number Sample.noText Sample.letThrough
           Sample.db0 Sample.db1 Sample.johnDto Sample.alice Sample.john).
  - vm_compute. reflexivity.
  - reflexivity.
Defined.

(** * The validators of the Subject number *)

Lemma isAlnum_isNumberChar (c : ascii) :
  NumberValidation.isAlnum c = true -> NumberValidation.isNumberChar c = true.
Proof. unfold NumberValidation.isNumberChar. intros ->. reflexivity. Qed.

Lemma atEnd_list (s : string) :
  NumberValidation.atEnd s = true <-> list_ascii_of_string s = [].
Proof. destruct s; simpl; split; intros H; try reflexivity; discriminate. Qed.

Lemma restOfNumber_spec (s : string) :
  NumberValidation.restOfNumber s = true
  <-> forallb NumberValidation.isNumberChar (list_ascii_of_string s) = true
      /\ NumberValidation.isAlnum (last (list_ascii_of_string s) "-"%char) = true.
Proof.
  induction s as [|c rest IH].
  - simpl. split; [discriminate|]. intros [_ H]. discriminate H.
  - change (list_ascii_of_string (String c rest))
      with (c :: list_ascii_of_string rest).
    simpl NumberValidation.restOfNumber.
    rewrite orb_true_iff, !andb_true_iff, IH, atEnd_list.
    simpl forallb. rewrite andb_true_iff.
    destruct (list_ascii_of_string rest) as [|c' cs] eqn:E.
    + simpl. split.
      * intros [[_ [_ H]]|[H _]]; [discriminate H|].
        split; [split; [apply isAlnum_isNumberChar; exact H|reflexivity]|exact H].
      * intros [_ H]. right. split; [exact H|reflexivity].
    + change (last (c :: c' :: cs) "-"%char) with (last (c' :: cs) "-"%char).
      split.
      * intros [[H1 [H2 H3]]|[_ H]]; [|discriminate H]. auto.
      * intros [[H1 H2] H3]. left. auto.
Qed.

(** X13. The validators of [number] accept a string exactly when it has 3
    to 50 characters, each a letter, a digit, a hyphen or an underscore,
    the first and the last being a letter or a digit; the one-character
    alternative of the pattern never decides. *)
Theorem numberIsValid_iff :
  forall s : string,
    NumberValidation.numberIsValid s = true
    <-> 3 <= String.length s <= 50
        /\ forallb NumberValidation.isNumberChar (list_ascii_of_string s) = true
        /\ NumberValidation.isAlnum (hd "-"%char (list_ascii_of_string s)) = true
        /\ NumberValidation.isAlnum (last (list_ascii_of_string s) "-"%char) = true.
Proof.
  intros s. unfold NumberValidation.numberIsValid.
  rewrite !andb_true_iff, !Nat.leb_le, negb_true_iff.
  destruct s as [|c rest].
  - simpl. split; [intros [[[H _] _] _]; discriminate H|intros [[H _] _]; lia].
  - change (list_ascii_of_string (String c rest))
      with (c :: list_ascii_of_string rest).
    simpl NumberValidation.matchesPattern. simpl hd. simpl forallb.
    rewrite !andb_true_iff, orb_true_iff, restOfNumber_spec, atEnd_list.
    simpl String.length.
    destruct (list_ascii_of_string rest) as [|c' cs] eqn:E.
    + assert (Hrest : rest = "").
      { destruct rest; [reflexivity|discriminate E]. }
      subst rest. simpl. split; [intros [[[_ H] _] _]; lia|intros [[H _] _]; lia].
    + change (last (c :: c' :: cs) "-"%char) with (last (c' :: cs) "-"%char).
      split.
      * intros [[[_ H1] H2] [Hc [[Hall Hlast]|Hnil]]]; [|discriminate Hnil].
        split; [lia|]. split; [|split; assumption].
        split; [apply isAlnum_isNumberChar; exact Hc|exact Hall].
      * intros [[H1 H2] [[_ Hall] [Hc Hlast]]].
        split; [split; [split; [reflexivity|exact H1]|exact H2]|].
        split; [exact Hc|]. left. split; assumption.
Qed.

Lemma isHex_isAlnum (c : ascii) :
  isHex c = true -> NumberValidation.isAlnum c = true.
Proof.
  unfold isHex, NumberValidation.isAlnum. cbv zeta.
  rewrite !orb_true_iff, !andb_true_iff, !Nat.leb_le. lia.
Qed.

Lemma hexRun_length (k : nat) (s r : string) :
  hexRun k s = Some r -> String.length s = k + String.length r.
Proof.
  revert s. induction k as [|k IH]; intros s; simpl.
  - intros H. injection H as ->. reflexivity.
  - destruct s as [|c rest]; [discriminate|].
    destruct (isHex c); [|discriminate].
    intros H. apply IH in H. simpl. rewrite H. reflexivity.
Qed.

Lemma hexRun_prefix (k : nat) (s r : string) :
  hexRun k s = Some r -> NumberValidation.restOfNumber r = true ->
  NumberValidation.restOfNumber s = true.
Proof.
  revert s. induction k as [|k IH]; intros s; simpl.
  - intros H. injection H as ->. auto.
  - destruct s as [|c rest]; [discriminate|].
    destruct (isHex c) eqn:Ec; [|discriminate].
    intros H Hr. simpl.
    rewrite (isAlnum_isNumberChar _ (isHex_isAlnum _ Ec)), (IH _ H Hr). reflexivity.
Qed.

Lemma hexRun_to_end (k : nat) (s : string) :
  hexRun (S k) s = Some "" -> NumberValidation.restOfNumber s = true.
Proof.
  revert s. induction k as [|k IH]; intros s.
  - simpl. destruct s as [|c rest]; [discriminate|].
    destruct (isHex c) eqn:Ec; [|discriminate].
    intros H. injection H as ->. simpl.
    rewrite (isHex_isAlnum _ Ec). apply orb_true_r.
  - change (hexRun (S (S k)) s)
      with (match s with
            | String c rest => if isHex c then hexRun (S k) rest else None
            | EmptyString => None
            end).
    destruct s as [|c rest]; [discriminate|].
    destruct (isHex c) eqn:Ec; [|discriminate].
    intros H. simpl.
    rewrite (isAlnum_isNumberChar _ (isHex_isAlnum _ Ec)), (IH _ H). reflexivity.
Qed.

Lemma dash_prefix (s r : string) :
  dash s = Some r ->
  String.length s = 1 + String.length r
  /\ (NumberValidation.restOfNumber r = true ->
      NumberValidation.restOfNumber s = true).
Proof.
  unfold dash. destruct s as [|c rest]; [discriminate|].
  destruct (Ascii.eqb c "-") eqn:E; [|discriminate].
  intros H. injection H as ->. split; [reflexivity|].
  intros Hr. simpl. unfold NumberValidation.isNumberChar.
  rewrite E, Hr, orb_true_r. reflexivity.
Qed.

(** X14. Every string that [getAuditLogs] takes for an identifier is also
    a number the validators of [CreateSubjectDto] accept: a Subject can be
    given a UUID-shaped number, and such a string has 36 characters. *)
Theorem uuid_shaped_number_is_valid :
  forall s : string,
    isUUID s = true ->
    NumberValidation.numberIsValid s = true /\ String.length s = 36.
Proof.
  intros s Hu. apply isUUID_inv in Hu.
  destruct Hu as [r1 [r2 [r3 [r4 [r5 [r6 [r7 [r8
                   [H1 [D1 [H2 [D2 [H3 [D3 [H4 [D4 H5]]]]]]]]]]]]]]]].
  assert (Hlen : String.length s = 36).
  { apply hexRun_length in H5. pose proof (proj1 (dash_prefix _ D4)) as L4.
    pose proof (hexRun_length _ _ H4) as L4'. pose proof (proj1 (dash_prefix _ D3)) as L3.
    pose proof (hexRun_length _ _ H3) as L3'. pose proof (proj1 (dash_prefix _ D2)) as L2.
    pose proof (hexRun_length _ _ H2) as L2'. pose proof (proj1 (dash_prefix _ D1)) as L1.
    pose proof (hexRun_length _ _ H1) as L1'. simpl in H5. lia. }
  split; [|exact Hlen].
  assert (R8 : NumberValidation.restOfNumber r8 = true) by (apply (hexRun_to_end 11); exact H5).
  assert (R7 : NumberValidation.restOfNumber r7 = true)
    by (apply (proj2 (dash_prefix _ D4)); exact R8).
  assert (R6 : NumberValidation.restOfNumber r6 = true)
    by (apply (hexRun_prefix _ _ H4); exact R7).
  assert (R5 : NumberValidation.restOfNumber r5 = true)
    by (apply (proj2 (dash_prefix _ D3)); exact R6).
  assert (R4 : NumberValidation.restOfNumber r4 = true)
    by (apply (hexRun_prefix _ _ H3); exact R5).
  assert (R3 : NumberValidation.restOfNumber r3 = true)
    by (apply (proj2 (dash_prefix _ D2)); exact R4).
  assert (R2 : NumberValidation.restOfNumber r2 = true)
    by (apply (hexRun_prefix _ _ H2); exact R3).
  assert (R1 : NumberValidation.restOfNumber r1 = true)
    by (apply (proj2 (dash_prefix _ D1)); exact R2).
  unfold NumberValidation.numberIsValid. rewrite Hlen.
  destruct s as [|c rest]; [discriminate Hlen|].
  change (hexRun 8 (String c rest))
    with (if isHex c then hexRun 7 rest else None) in H1.
  destruct (isHex c) eqn:Ec; [|discriminate].
  simpl. rewrite (isHex_isAlnum _ Ec), (hexRun_prefix _ _ H1 R1). reflexivity.
Qed.

Lemma uuid_shaped_number_is_valid_witness :
  NumberValidation.numberIsValid Sample.uuidNumber = true
  /\ String.length Sample.uuidNumber = 36.
Proof.
  apply uuid_shaped_number_is_valid. reflexivity.
Defined.

Example numberIsValid_examples :
  NumberValidation.numberIsValid "SUB-001" = true
  /\ NumberValidation.numberIsValid "sub_001" = true
  /\ NumberValidation.numberIsValid "AB" = false
  /\ NumberValidation.numberIsValid "-SUB" = false
  /\ NumberValidation.numberIsValid "SUB-" = false
  /\ NumberValidation.numberIsValid "SUB 001" = false.
Proof. vm_compute. repeat split. Qed.

(** * Properties of the frontend *)

(** ** localStorage *)

Lemma getItem_removeItem_same (k : string) (st : LocalStorage.t) :
  LocalStorage.getItem k (LocalStorage.removeItem k st) = None.
Proof.
  unfold LocalStorage.removeItem. induction st as [|[k' v] rest IH]; simpl;
    [reflexivity|].
  destruct (String.eqb k' k) eqn:E; simpl; [exact IH|].
  rewrite E. exact IH.
Qed.

Lemma getItem_removeItem_other (k k' : string) (st : LocalStorage.t) :
  k <> k' ->
  LocalStorage.getItem k (LocalStorage.removeItem k' st) = LocalStorage.getItem k st.
Proof.
  intros Hne. unfold LocalStorage.removeItem.
  induction st as [|[k0 v] rest IH]; simpl; [reflexivity|].
  destruct (String.eqb k0 k') eqn:E; simpl.
  - apply String.eqb_eq in E. subst k0.
    assert (E' : String.eqb k' k = false)
      by (apply String.eqb_neq; congruence).
    rewrite E'. exact IH.
  - destruct (String.eqb k0 k); [reflexivity|exact IH].
Qed.

Lemma getItem_setItem_same (k v : string) (st : LocalStorage.t) :
  LocalStorage.getItem k (LocalStorage.setItem k v st) = Some v.
Proof. unfold LocalStorage.setItem. simpl. rewrite String.eqb_refl. reflexivity. Qed.

Lemma getItem_setItem_other (k k' v : string) (st : LocalStorage.t) :
  k <> k' ->
  LocalStorage.getItem k (LocalStorage.setItem k' v st) = LocalStorage.getItem k st.
Proof.
  intros Hne. unfold LocalStorage.setItem. simpl.
  assert (E : String.eqb k' k = false) by (apply String.eqb_neq; congruence).
  rewrite E. apply getItem_removeItem_other. exact Hne.
Qed.

Lemma removeItem_idempotent (k : string) (st : LocalStorage.t) :
  LocalStorage.removeItem k (LocalStorage.removeItem k st)
  = LocalStorage.removeItem k st.
Proof.
  unfold LocalStorage.removeItem. induction st as [|[k' v] rest IH]; simpl;
    [reflexivity|].
  destruct (String.eqb k' k) eqn:E; simpl; [exact IH|].
  rewrite E. simpl. rewrite IH. reflexivity.
Qed.

Lemma setItem_twice (k v : string) (st : LocalStorage.t) :
  LocalStorage.setItem k v (LocalStorage.setItem k v st) = LocalStorage.setItem k v st.
Proof.
  unfold LocalStorage.setItem. f_equal.
  change (LocalStorage.removeItem k ((k, v) :: LocalStorage.removeItem k st))
    with (if negb (String.eqb k k)
          then (k, v) :: LocalStorage.removeItem k (LocalStorage.removeItem k st)
          else LocalStorage.removeItem k (LocalStorage.removeItem k st)).
  rewrite String.eqb_refl. simpl. apply removeItem_idempotent.
Qed.

Lemma orElse_not_empty (x : option string) (fallback : string) :
  fallback <> "" -> Js.orElse x fallback <> "".
Proof.
  intros Hf. destruct x as [[|c r]|]; simpl; try assumption. discriminate.
Qed.

Lemma orElse_some (v fallback : string) :
  v <> "" -> Js.orElse (Some v) fallback = v.
Proof. destruct v; [congruence|reflexivity]. Qed.

(** ** AuthService, the interceptor and the guard *)

(** X15. After [logout], whatever the service held: there is no token,
    the guard refuses the route and sends the router to [/login], the
    interceptor forwards every request as it is, and a service constructed
    anew from the storage has no current user. *)
Theorem logout_signs_out :
  forall (User R : Type) (parse : string -> option User)
         (s : AuthService.State User) (req : HttpRequest) (next : HttpRequest -> R),
    AuthService.getToken (AuthService.logout s) = None
    /\ AuthService.isAuthenticated (AuthService.logout s) = false
    /\ AuthService.currentUser (AuthService.logout s) = None
    /\ authGuard (AuthService.logout s) = (false, Some ["/login"])
    /\ authInterceptor (AuthService.logout s) req next = next req
    /\ AuthService.construct parse (AuthService.storage (AuthService.logout s))
       = Some (AuthService.logout s).
Proof.
  intros User R parse s req next.
  assert (Ht : AuthService.getToken (AuthService.logout s) = None).
  { unfold AuthService.getToken, AuthService.logout. cbn [AuthService.storage].
    rewrite getItem_removeItem_other by discriminate.
    apply getItem_removeItem_same. }
  split; [exact Ht|].
  split; [unfold AuthService.isAuthenticated; rewrite Ht; reflexivity|].
  split; [reflexivity|].
  split; [unfold authGuard, AuthService.isAuthenticated; rewrite Ht; reflexivity|].
  split; [unfold authInterceptor; rewrite Ht; reflexivity|].
  unfold AuthService.construct. cbv zeta.
  unfold AuthService.getToken in Ht. rewrite Ht. reflexivity.
Qed.

(** X16. After a login response with a non-empty token: the token is the
    one of the response, the current user is its user, the guard admits the
    route, and the interceptor forwards every request with the header
    [Authorization: Bearer <token>], whatever value that header had.  A
    failed login changes nothing. *)
Theorem login_signs_in :
  forall (User R : Type) (stringify : User -> string)
         (response : AuthService.AuthResponse User)
         (s : AuthService.State User) (req : HttpRequest) (next : HttpRequest -> R)
         (username password : string),
    AuthService.access_token response <> "" ->
    let s' := snd (AuthService.login stringify (fun _ _ => Some response)
                     username password s) in
    AuthService.getToken s' = Some (AuthService.access_token response)
    /\ AuthService.currentUser s' = Some (AuthService.user response)
    /\ authGuard s' = (true, None)
    /\ authInterceptor s' req next
       = next (setHeader "Authorization"
                 ("Bearer " ++ AuthService.access_token response) req)
    /\ getHeader "Authorization"
         (setHeader "Authorization"
            ("Bearer " ++ AuthService.access_token response) req)
       = Some ("Bearer " ++ AuthService.access_token response)
    /\ snd (AuthService.login stringify (fun _ _ => None) username password s) = s.
Proof.
  intros User R stringify response s req next username password Hne s'.
  assert (Ht : AuthService.getToken s' = Some (AuthService.access_token response)).
  { unfold s', AuthService.getToken, AuthService.login, AuthService.loggedIn.
    cbn [snd AuthService.storage].
    rewrite getItem_setItem_other by discriminate.
    apply getItem_setItem_same. }
  assert (Htr : Js.truthy (Some (AuthService.access_token response)) = true).
  { destruct (AuthService.access_token response); [congruence|reflexivity]. }
  split; [exact Ht|]. split; [reflexivity|].
  split; [unfold authGuard, AuthService.isAuthenticated; rewrite Ht, Htr; reflexivity|].
  split.
  - unfold authInterceptor. rewrite Ht, Htr. rewrite (orElse_some _ Hne). reflexivity.
  - split; [|reflexivity].
    unfold getHeader, setHeader. simpl. reflexivity.
Qed.

Lemma login_signs_in_witness :
  let s' := snd (AuthService.login Sample.stringifyName
                   (fun _ _ => Some Sample.aliceLogin) "alice" "secret"
                   Sample.signedOut) in
  AuthService.getToken s' = Some (AuthService.access_token Sample.aliceLogin)
  /\ AuthService.currentUser s' = Some (AuthService.user Sample.aliceLogin)
  /\ authGuard s' = (true, None)
  /\ authInterceptor s' Sample.getSubjects (fun r => req_headers r)
     = req_headers (setHeader "Authorization"
                      ("Bearer " ++ AuthService.access_token Sample.aliceLogin)
                      Sample.getSubjects)
  /\ getHeader "Authorization"
       (setHeader "Authorization"
          ("Bearer " ++ AuthService.access_token Sample.aliceLogin)
          Sample.getSubjects)
     = Some ("Bearer " ++ AuthService.access_token Sample.aliceLogin)
  /\ snd (AuthService.login Sample.stringifyName (fun _ _ => None) "alice" "secret"
            Sample.signedOut) = Sample.signedOut.
Proof.
  apply (@login_signs_in string (list (string * string)) Sample.stringifyName
           Sample.aliceLogin Sample.signedOut Sample.getSubjects
           (fun r => req_headers r) "alice" "secret").
  discriminate.
Defined.

(** X17. The guard and the interceptor read the same token the same way:
    in every state, either the guard admits the route and the interceptor
    sets the [Authorization] header from the stored token, or the guard
    refuses, redirects to [/login], and the interceptor forwards the request
    as it is.  A stored empty token counts as none. *)
Theorem guard_agrees_with_interceptor :
  forall (User R : Type) (s : AuthService.State User)
         (req : HttpRequest) (next : HttpRequest -> R),
    (exists token,
        AuthService.getToken s = Some token /\ token <> ""
        /\ authGuard s = (true, None)
        /\ authInterceptor s req next
           = next (setHeader "Authorization" ("Bearer " ++ token) req))
    \/ ((AuthService.getToken s = None \/ AuthService.getToken s = Some "")
        /\ authGuard s = (false, Some ["/login"])
        /\ authInterceptor s req next = next req).
Proof.
  intros User R s req next.
  unfold authGuard, authInterceptor, AuthService.isAuthenticated.
  destruct (AuthService.getToken s) as [[|c t]|] eqn:E.
  - right. simpl. auto.
  - left. exists (String c t). simpl. repeat split; try reflexivity. discriminate.
  - right. simpl. auto.
Qed.

(** X18. A login survives a reload: when [JSON.parse] reads back what
    [JSON.stringify] wrote for the user, and that text and the token are
    not empty, a service constructed from the storage after the login holds
    the same storage and the same current user. *)
Theorem login_survives_reload :
  forall (User : Type) (stringify : User -> string) (parse : string -> option User)
         (response : AuthService.AuthResponse User) (s : AuthService.State User),
    parse (stringify (AuthService.user response)) = Some (AuthService.user response) ->
    stringify (AuthService.user response) <> "" ->
    AuthService.access_token response <> "" ->
    AuthService.construct parse
      (AuthService.storage (AuthService.loggedIn stringify response s))
    = Some (AuthService.loggedIn stringify response s).
Proof.
  intros User stringify parse response s Hrt Hu Ht.
  unfold AuthService.construct. cbv zeta.
  assert (Htok : LocalStorage.getItem "token"
                   (AuthService.storage (AuthService.loggedIn stringify response s))
                 = Some (AuthService.access_token response)).
  { unfold AuthService.loggedIn. cbn [AuthService.storage].
    rewrite getItem_setItem_other by discriminate. apply getItem_setItem_same. }
  assert (Husr : LocalStorage.getItem "user"
                   (AuthService.storage (AuthService.loggedIn stringify response s))
                 = Some (stringify (AuthService.user response))).
  { unfold AuthService.loggedIn. cbn [AuthService.storage].
    apply getItem_setItem_same. }
  rewrite Htok, Husr.
  assert (T1 : Js.truthy (Some (AuthService.access_token response)) = true).
  { destruct (AuthService.access_token response); [congruence|reflexivity]. }
  assert (T2 : Js.truthy (Some (stringify (AuthService.user response))) = true).
  { destruct (stringify (AuthService.user response)); [congruence|reflexivity]. }
  rewrite T1, T2. simpl andb. cbv iota.
  rewrite (orElse_some _ Hu), Hrt. reflexivity.
Qed.

Lemma login_survives_reload_witness :
  AuthService.construct Sample.parseName
    (AuthService.storage
       (AuthService.loggedIn Sample.stringifyName Sample.aliceLogin Sample.signedOut))
  = Some (AuthService.loggedIn Sample.stringifyName Sample.aliceLogin Sample.signedOut).
Proof.
  apply login_survives_reload.
  - reflexivity.
  - discriminate.
  - discriminate.
Defined.

(** ** SubjectsListComponent *)

(** X19. What [loadSubjects] shows: after the [next] callback the
    component is no longer loading and every Subject has a [centerId], which
    is its own when that is not empty, else the identifier of its joined
    center, else the empty string; doing the same mapping again changes
    nothing.  After the [error] callback the component is no longer loading
    and shows the backend's message, or ['Failed to load subjects'] when
    there is none. *)
Theorem loadSubjects_callbacks :
  forall (c : SubjectsList.Component) (received : list SubjectsList.SubjectView)
         (message : option string),
    SubjectsList.c_loading (SubjectsList.onNext received c) = false
    /\ (forall v, In v (SubjectsList.c_subjects (SubjectsList.onNext received c)) ->
          exists w, In w received
                    /\ SubjectsList.v_centerId v
                       = Some (match SubjectsList.v_centerId w with
                               | Some (String a b) => String a b
                               | _ =>
                                   match SubjectsList.v_center w with
                                   | Some ce => center_id ce
                                   | None => ""
                                   end
                               end))
    /\ map SubjectsList.withCenterId
         (SubjectsList.c_subjects (SubjectsList.onNext received c))
       = SubjectsList.c_subjects (SubjectsList.onNext received c)
    /\ SubjectsList.c_loading (SubjectsList.onError message c) = false
    /\ SubjectsList.c_error (SubjectsList.onError message c)
       = match message with
         | Some (String a b) => String a b
         | _ => "Failed to load subjects"
         end.
Proof.
  intros c received message.
  split; [reflexivity|]. split; [|split; [|split]].
  - simpl. intros v Hv. apply in_map_iff in Hv. destruct Hv as [w [<- Hw]].
    exists w. split; [exact Hw|]. simpl. f_equal.
    unfold SubjectsList.centerIdOf.
    destruct (SubjectsList.v_centerId w) as [[|a b]|];
      destruct (SubjectsList.v_center w) as [ce|]; simpl; try reflexivity;
      destruct (center_id ce); reflexivity.
  - simpl. rewrite map_map. apply map_ext. intros w.
    unfold SubjectsList.withCenterId. simpl. f_equal. f_equal.
    unfold SubjectsList.centerIdOf. simpl.
    destruct (SubjectsList.v_centerId w) as [[|a b]|];
      destruct (SubjectsList.v_center w) as [ce|]; simpl; try reflexivity;
      destruct (center_id ce); reflexivity.
  - reflexivity.
  - simpl. destruct message as [[|a b]|]; reflexivity.
Qed.

(** * Properties of ThemeToggle *)

Lemma rendered_again (th : string) (st : LocalStorage.t) :
  th <> "" ->
  ThemeToggle.mount (ThemeToggle.storage (ThemeToggle.rendered th st))
  = ThemeToggle.rendered th st.
Proof.
  intros Hne. unfold ThemeToggle.mount, ThemeToggle.rendered.
  cbn [ThemeToggle.storage].
  rewrite getItem_setItem_same, (orElse_some _ Hne), setItem_twice. reflexivity.
Qed.

(** X20. The theme survives a reload and the toggle has two positions:
    mounting the component on the storage it left behind, after mounting or
    after a toggle, gives the state it was in; after a toggle the theme is
    ["dark"] or ["light"], the [data-theme] attribute and the stored item
    carry it, and the link offers the other mode; two toggles from ["dark"]
    or ["light"] come back to it, and from any other stored theme they end
    at ["light"]. *)
Theorem theme_toggle_round_trip :
  forall (st : LocalStorage.t) (s : ThemeToggle.State),
    ThemeToggle.mount (ThemeToggle.storage (ThemeToggle.mount st))
    = ThemeToggle.mount st
    /\ ThemeToggle.mount (ThemeToggle.storage (ThemeToggle.toggleTheme s))
       = ThemeToggle.toggleTheme s
    /\ (ThemeToggle.theme (ThemeToggle.toggleTheme s) = "dark"
        \/ ThemeToggle.theme (ThemeToggle.toggleTheme s) = "light")
    /\ ThemeToggle.dataTheme (ThemeToggle.toggleTheme s)
       = Some (ThemeToggle.theme (ThemeToggle.toggleTheme s))
    /\ LocalStorage.getItem "theme" (ThemeToggle.storage (ThemeToggle.toggleTheme s))
       = Some (ThemeToggle.theme (ThemeToggle.toggleTheme s))
    /\ ThemeToggle.label (ThemeToggle.toggleTheme s)
       = (if String.eqb (ThemeToggle.theme s) "dark"
          then "Dark Mode" else "Light Mode")
    /\ ThemeToggle.theme (ThemeToggle.toggleTheme (ThemeToggle.toggleTheme s))
       = (if String.eqb (ThemeToggle.theme s) "dark" then "dark" else "light").
Proof.
  intros st s.
  split.
  { unfold ThemeToggle.mount at 2 3. apply rendered_again.
    apply orElse_not_empty. discriminate. }
  split.
  { unfold ThemeToggle.toggleTheme. apply rendered_again.
    destruct (String.eqb (ThemeToggle.theme s) "dark"); discriminate. }
  unfold ThemeToggle.toggleTheme, ThemeToggle.label, ThemeToggle.rendered.
  cbn [ThemeToggle.theme ThemeToggle.storage ThemeToggle.dataTheme].
  rewrite getItem_setItem_same.
  destruct (String.eqb (ThemeToggle.theme s) "dark") eqn:E.
  - repeat split; auto.
  - repeat split; auto.
Qed.
